(** * Public API gateway: listing aggregation over two upstream services

  A shallow embedding of [public-api/internal/client] and
  [public-api/internal/handler].  Go's [int64] and [int] are integers of
  [Z]; no arithmetic is done on them, so no wrap-around is involved.  A Go
  [error] is its message.  A pointer that may be [nil] is an [option].
  The HTTP transport and JSON decoding belong to the environment and are
  functions held by the clients. *)

From stdpp Require Import gmap strings list fin_maps fin_sets.
From Stdlib Require Import ZArith Ascii String DecimalString DecimalPos.

Local Open Scope string_scope.
Local Open Scope Z_scope.
Local Open Scope list_scope.

(** ** strconv

    The functions of Go's standard library that the code calls, for base
    10 and a platform whose [int] is 64 bits wide. *)

Module strconv.

(** [ch -= '0'; if ch > 9 { error }] on a byte. *)
Definition digit_of (ch : ascii) : option Z :=
  let n := Z.of_N (N_of_ascii ch) - 48 in
  if bool_decide (0 ≤ n ≤ 9) then Some n else None.

(** The digit loop [n = n*10 + int(ch)]. *)
Fixpoint digits (s : string) (n : Z) : option Z :=
  match s with
  | EmptyString => Some n
  | String ch r =>
      match digit_of ch with
      | Some d => digits r (n * 10 + d)
      | None => None
      end
  end.

Definition intSize : Z := 64.
Definition maxInt : Z := 2 ^ (intSize - 1) - 1.
Definition minInt : Z := - 2 ^ (intSize - 1).

Definition is_sign (c : ascii) : bool :=
  bool_decide (c = "-"%char) || bool_decide (c = "+"%char).

(** [ParseInt(s, 10, 0)]: an optional sign, at least one decimal digit,
    and a value that fits [int]; [None] is a syntax or range error. *)
Definition ParseInt10 (s : string) : option Z :=
  match s with
  | EmptyString => None
  | String c r =>
      let neg := bool_decide (c = "-"%char) in
      let body := if is_sign c then r else s in
      match body with
      | EmptyString => None
      | _ =>
          match digits body 0 with
          | None => None
          | Some un =>
              if negb neg && bool_decide (2 ^ (intSize - 1) ≤ un) then None
              else if neg && bool_decide (2 ^ (intSize - 1) < un) then None
              else Some (if neg then - un else un)
          end
      end
  end.

(** [Atoi]: the fast path for strings of fewer than 19 bytes, the slow
    path through [ParseInt] otherwise.  [None] is a non-nil error. *)
Definition Atoi (s : string) : option Z :=
  let sLen := Z.of_nat (String.length s) in
  if bool_decide (0 < sLen) && bool_decide (sLen < 19) then
    match s with
    | EmptyString => None
    | String c r =>
        let body := if is_sign c then r else s in
        match body with
        | EmptyString => None
        | _ =>
            match digits body 0 with
            | None => None
            | Some n => Some (if bool_decide (c = "-"%char) then - n else n)
            end
        end
    end
  else ParseInt10 s.

(** [FormatInt(i, 10)] and [Itoa]. *)
Definition FormatInt (i : Z) : string := NilZero.string_of_int (Z.to_int i).
Definition Itoa (i : Z) : string := FormatInt i.

End strconv.

(** ** net/url *)

Module url.

(** [url.Values] is [map[string][]string]. *)
Abbreviation Values := (gmap string (list string)).

Definition Set_ (k v : string) (vs : Values) : Values := <[k := [v]]> vs.

(** [Get] gives the first value of the key, or the empty string. *)
Definition Get (k : string) (vs : Values) : string :=
  match vs !! k with
  | Some (v :: _) => v
  | _ => ""
  end.

End url.

(** ** net/http, as far as the clients use it *)

Module http.

Definition error := string.

Definition StatusOK : Z := 200.
Definition StatusBadRequest : Z := 400.
Definition StatusNotFound : Z := 404.
Definition StatusInternalServerError : Z := 500.

(** A request keeps its URL as the path and the query values, and its
    body as the form values, instead of their percent-encoded text. *)
Record Request := mkRequest {
  Method : string;
  URL : string;
  Query : url.Values;
  Form : option url.Values;
  ContentType : string
}.

(** A response whose body is of type [R] once decoded; [Decode] is what
    [json.NewDecoder(resp.Body).Decode] gives: the value or its error. *)
Record Response (R : Type) := mkResponse {
  StatusCode : Z;
  Status : string;
  Decode : error + R
}.
Arguments mkResponse {R}.
Arguments StatusCode {R}.
Arguments Status {R}.
Arguments Decode {R}.

(** [http.Client] with the part of the package the clients call:
    [NewRequest] is the error of [http.NewRequest] on a malformed method
    or URL, if any, [Do] performs the round trip. *)
Record Client (R : Type) := mkClient {
  NewRequest : Request → option error;
  Do : Request → error + Response R
}.
Arguments mkClient {R}.
Arguments NewRequest {R}.
Arguments Do {R}.

End http.

(** ** public-api/internal/client *)

Module client.

Import http.

(** [Listing], the listing entity between services. *)
Record Listing := mkListing {
  Listing_ID : Z;
  Listing_UserID : Z;
  Listing_ListingType : string;
  Listing_Price : Z;
  Listing_CreatedAt : Z;
  Listing_UpdatedAt : Z
}.

(** [User], the user entity between services. *)
Record User := mkUser {
  User_ID : Z;
  User_Name : string;
  User_CreatedAt : Z;
  User_UpdatedAt : Z
}.

Record ListingServiceResponse := mkListingServiceResponse {
  LSR_Result : bool;
  LSR_Listings : list Listing;
  LSR_Listing : option Listing;
  LSR_Error : string
}.

Record UserServiceResponse := mkUserServiceResponse {
  USR_Result : bool;
  USR_Users : list User;
  USR_User : option User;
  USR_Error : string
}.

Record ListingServiceClient := NewListingServiceClient {
  LSC_httpClient : Client ListingServiceResponse;
  LSC_baseURL : string
}.

Record UserServiceClient := NewUserServiceClient {
  USC_httpClient : Client UserServiceResponse;
  USC_baseURL : string
}.

Definition formContentType : string := "application/x-www-form-urlencoded".

(** [CreateListing]: POST of the form to [/listings]. *)
Definition CreateListing (c : ListingServiceClient)
    (userID : Z) (listingType : string) (price : Z)
    : option Listing * option error :=
  let formData :=
    url.Set_ "price" (strconv.FormatInt price)
      (url.Set_ "listing_type" listingType
        (url.Set_ "user_id" (strconv.FormatInt userID) ∅)) in
  let req :=
    mkRequest "POST" (LSC_baseURL c +:+ "/listings") ∅ (Some formData)
      formContentType in
  match NewRequest (LSC_httpClient c) req with
  | Some err =>
      (None, Some ("failed to create request to Listing Service: " +:+ err))
  | None =>
      match Do (LSC_httpClient c) req with
      | inl err =>
          (None, Some ("failed to send request to Listing Service: " +:+ err))
      | inr resp =>
          if bool_decide (StatusCode resp ≠ StatusOK) then
            (None, Some ("Listing Service returned non-OK status: "
                           +:+ Status resp))
          else
            match Decode resp with
            | inl err =>
                (None, Some ("failed to decode Listing Service response: "
                               +:+ err))
            | inr apiResp =>
                if negb (LSR_Result apiResp) then
                  (None, Some ("Listing Service reported error: "
                                 +:+ LSR_Error apiResp))
                else (LSR_Listing apiResp, None)
            end
      end
  end.

(** [GetListings]: GET of [/listings] with the page parameters, and the
    user filter when it is not empty. *)
Definition GetListings (c : ListingServiceClient)
    (pageNum pageSize : Z) (userID : string)
    : list Listing * option error :=
  let params :=
    url.Set_ "page_size" (strconv.Itoa pageSize)
      (url.Set_ "page_num" (strconv.Itoa pageNum) ∅) in
  let params :=
    if bool_decide (userID ≠ "") then url.Set_ "user_id" userID params
    else params in
  let req := mkRequest "GET" (LSC_baseURL c +:+ "/listings") params None "" in
  match NewRequest (LSC_httpClient c) req with
  | Some err =>
      ([], Some ("failed to create request to Listing Service: " +:+ err))
  | None =>
      match Do (LSC_httpClient c) req with
      | inl err =>
          ([], Some ("failed to send request to Listing Service: " +:+ err))
      | inr resp =>
          if bool_decide (StatusCode resp ≠ StatusOK) then
            ([], Some ("Listing Service returned non-OK status: "
                         +:+ Status resp))
          else
            match Decode resp with
            | inl err =>
                ([], Some ("failed to decode Listing Service response: "
                             +:+ err))
            | inr apiResp =>
                if negb (LSR_Result apiResp) then
                  ([], Some ("Listing Service reported error: "
                               +:+ LSR_Error apiResp))
                else (LSR_Listings apiResp, None)
            end
      end
  end.

(** [CreateUser]: POST of the form to [/users]. *)
Definition CreateUser (c : UserServiceClient) (name : string)
    : option User * option error :=
  let formData := url.Set_ "name" name ∅ in
  let req :=
    mkRequest "POST" (USC_baseURL c +:+ "/users") ∅ (Some formData)
      formContentType in
  match NewRequest (USC_httpClient c) req with
  | Some err =>
      (None, Some ("failed to create request to User Service: " +:+ err))
  | None =>
      match Do (USC_httpClient c) req with
      | inl err =>
          (None, Some ("failed to send request to User Service: " +:+ err))
      | inr resp =>
          if bool_decide (StatusCode resp ≠ StatusOK) then
            (None, Some ("User Service returned non-OK status: "
                           +:+ Status resp))
          else
            match Decode resp with
            | inl err =>
                (None, Some ("failed to decode User Service response: "
                               +:+ err))
            | inr apiResp =>
                if negb (USR_Result apiResp) then
                  (None, Some ("User Service reported error: "
                                 +:+ USR_Error apiResp))
                else (USR_User apiResp, None)
            end
      end
  end.

(** The request of [GetUserByID]: GET of [/users/<id>]. *)
Definition userRequest (c : UserServiceClient) (id : Z) : Request :=
  let u := USC_baseURL c +:+ "/users/" +:+ strconv.FormatInt id in
  mkRequest "GET" u ∅ None "".

(** [GetUserByID]: status 404 is a nil user with a nil error. *)
Definition GetUserByID (c : UserServiceClient) (id : Z)
    : option User * option error :=
  let req := userRequest c id in
  match NewRequest (USC_httpClient c) req with
  | Some err =>
      (None, Some ("failed to create request to User Service: " +:+ err))
  | None =>
      match Do (USC_httpClient c) req with
      | inl err =>
          (None, Some ("failed to send request to User Service: " +:+ err))
      | inr resp =>
          if bool_decide (StatusCode resp = StatusNotFound) then (None, None)
          else if bool_decide (StatusCode resp ≠ StatusOK) then
            (None, Some ("User Service returned non-OK status: "
                           +:+ Status resp))
          else
            match Decode resp with
            | inl err =>
                (None, Some ("failed to decode User Service response: "
                               +:+ err))
            | inr apiResp =>
                if negb (USR_Result apiResp) then
                  (None, Some ("User Service reported error: "
                                 +:+ USR_Error apiResp))
                else (USR_User apiResp, None)
            end
      end
  end.

End client.

(** ** public-api/internal/handler *)

Module handler.

Import http.

Record PublicAPIHandler := NewPublicAPIHandler {
  userServiceClient : client.UserServiceClient;
  listingServiceClient : client.ListingServiceClient
}.

Record PublicUserResponse := mkPublicUserResponse {
  PUR_User : option client.User
}.

(** A listing with the embedded user; [PL_User] is the pointer, [None]
    when it is nil. *)
Record PublicListing := mkPublicListing {
  PL_ID : Z;
  PL_ListingType : string;
  PL_Price : Z;
  PL_CreatedAt : Z;
  PL_UpdatedAt : Z;
  PL_User : option client.User
}.

(** [Listings] is a slice: [None] is the nil slice of a response built
    without the field, [Some []] the empty slice. *)
Record PublicListingsResponse := mkPublicListingsResponse {
  Result : bool;
  Listings : option (list PublicListing);
  Error : string
}.

(** What the handlers encode into the response body. *)
Inductive JSON :=
| ErrorJSON (msg : string)
| UserJSON (r : PublicUserResponse)
| ListingJSON (l : option client.Listing)
| ListingsJSON (r : PublicListingsResponse).

(** What reached the [http.ResponseWriter]: the status code (200 when
    [WriteHeader] was not called) and the encoded value. *)
Record Written := mkWritten {
  Code : Z;
  Body : JSON
}.

(** The decoded request bodies of the two create handlers. *)
Record CreateUserBody := mkCreateUserBody {
  CUB_Name : string
}.

Record CreateListingBody := mkCreateListingBody {
  CLB_UserID : Z;
  CLB_ListingType : string;
  CLB_Price : Z
}.

(** *** Calls on the upstream clients

    A handler runs in a writer monad that records, in order, every method
    it invokes on a client. *)

Inductive Call :=
| CallCreateUser (name : string)
| CallCreateListing (userID : Z) (listingType : string) (price : Z)
| CallGetListings (pageNum pageSize : Z) (userID : string)
| CallGetUserByID (id : Z).

Definition Upstream (A : Type) : Type := list Call * A.

Definition ret {A} (a : A) : Upstream A := ([], a).

Definition bind {A B} (m : Upstream A) (f : A → Upstream B) : Upstream B :=
  let '(l1, a) := m in
  let '(l2, b) := f a in
  ((l1 ++ l2)%list, b).

Definition invoke {A} (c : Call) (r : A) : Upstream A := ([c], r).

Definition calls {A} (m : Upstream A) : list Call := m.1.
Definition value {A} (m : Upstream A) : A := m.2.

Declare Scope upstream_scope.
Delimit Scope upstream_scope with up.
Notation "x <- m ; f" := (bind m (fun x => f))
  (at level 20, m at level 100, f at level 200, only parsing)
  : upstream_scope.

Definition CreateUser (h : PublicAPIHandler) (name : string) :=
  invoke (CallCreateUser name) (client.CreateUser (userServiceClient h) name).

Definition CreateListing (h : PublicAPIHandler)
    (userID : Z) (listingType : string) (price : Z) :=
  invoke (CallCreateListing userID listingType price)
    (client.CreateListing (listingServiceClient h) userID listingType price).

Definition GetListings (h : PublicAPIHandler)
    (pageNum pageSize : Z) (userID : string) :=
  invoke (CallGetListings pageNum pageSize userID)
    (client.GetListings (listingServiceClient h) pageNum pageSize userID).

Definition GetUserByID (h : PublicAPIHandler) (id : Z) :=
  invoke (CallGetUserByID id) (client.GetUserByID (userServiceClient h) id).

Local Open Scope upstream_scope.

(** *** CreatePublicUser *)

Definition CreatePublicUser (h : PublicAPIHandler)
    (body : error + CreateUserBody) : Upstream Written :=
  match body with
  | inl _ => ret (mkWritten StatusBadRequest (ErrorJSON "Invalid request body"))
  | inr requestBody =>
      if bool_decide (CUB_Name requestBody = "") then
        ret (mkWritten StatusBadRequest (ErrorJSON "User name is required"))
      else
        r <- CreateUser h (CUB_Name requestBody) ;
        let '(user, err) := r in
        match err with
        | Some _ =>
            ret (mkWritten StatusInternalServerError
                   (ErrorJSON "Failed to create user"))
        | None => ret (mkWritten StatusOK (UserJSON (mkPublicUserResponse user)))
        end
  end.

(** *** CreatePublicListing *)

Definition CreatePublicListing (h : PublicAPIHandler)
    (body : error + CreateListingBody) : Upstream Written :=
  match body with
  | inl _ => ret (mkWritten StatusBadRequest (ErrorJSON "Invalid request body"))
  | inr requestBody =>
      if bool_decide (CLB_UserID requestBody = 0)
         || bool_decide (CLB_ListingType requestBody = "")
         || bool_decide (CLB_Price requestBody ≤ 0) then
        ret (mkWritten StatusBadRequest
               (ErrorJSON "User ID, listing type, and price are required and valid"))
      else if bool_decide (CLB_ListingType requestBody ≠ "rent")
              && bool_decide (CLB_ListingType requestBody ≠ "sale") then
        ret (mkWritten StatusBadRequest
               (ErrorJSON "Listing type must be 'rent' or 'sale'"))
      else
        r <- CreateListing h (CLB_UserID requestBody)
               (CLB_ListingType requestBody) (CLB_Price requestBody) ;
        let '(listing, err) := r in
        match err with
        | Some _ =>
            ret (mkWritten StatusInternalServerError
                   (ErrorJSON "Failed to create listing"))
        | None => ret (mkWritten StatusOK (ListingJSON listing))
        end
  end.

(** *** GetPublicListings *)

(** Step 2: the keys of [uniqueUserIDs], a [map[int64]struct{}] filled
    by one pass over the listings. *)
Definition uniqueUserIDs (listings : list client.Listing) : gset Z :=
  foldl (λ ids listing, {[client.Listing_UserID listing]} ∪ ids) ∅ listings.

(** Step 3: the state the lookup tasks share: the map guarded by the
    mutex and the buffered error channel. *)
Record Fetched := mkFetched {
  userMap : gmap Z client.User;
  errorsChan : list error
}.

Definition fetchError (id : Z) (err : error) : error :=
  "failed to fetch user " +:+ strconv.FormatInt id +:+ ": " +:+ err.

(** The body of one lookup task, run to its end on the shared state. *)
Definition fetchUser (h : PublicAPIHandler) (id : Z) (st : Fetched)
    : Upstream Fetched :=
  r <- GetUserByID h id ;
  let '(user, err) := r in
  match err with
  | Some e => ret (mkFetched (userMap st) (errorsChan st ++ [fetchError id e])%list)
  | None =>
      match user with
      | Some u => ret (mkFetched (<[id := u]> (userMap st)) (errorsChan st))
      | None => ret st
      end
  end.

(** The tasks of the given references one after the other; the order is
    one of the schedules of the goroutines (see [fanout] below for all
    of them). *)
Fixpoint fetchUsers (h : PublicAPIHandler) (ids : list Z) (st : Fetched)
    : Upstream Fetched :=
  match ids with
  | [] => ret st
  | id :: rest => st' <- fetchUser h id st ; fetchUsers h rest st'
  end.

(** Step 4: one public listing per listing, appended in order. *)
Definition toPublicListing (um : gmap Z client.User) (listing : client.Listing)
    : PublicListing :=
  {| PL_ID := client.Listing_ID listing;
     PL_ListingType := client.Listing_ListingType listing;
     PL_Price := client.Listing_Price listing;
     PL_CreatedAt := client.Listing_CreatedAt listing;
     PL_UpdatedAt := client.Listing_UpdatedAt listing;
     PL_User := um !! client.Listing_UserID listing |}.

Definition aggregate (um : gmap Z client.User) (listings : list client.Listing)
    : list PublicListing :=
  foldl (λ publicListings listing,
           (publicListings ++ [toPublicListing um listing])%list)
        [] listings.

(** The query parameters: [page_num] and [page_size] through
    [strconv.Atoi], with the defaults 1 and 10 on an error or a value
    below 1. *)
Definition pageNumOf (query : url.Values) : Z :=
  match strconv.Atoi (url.Get "page_num" query) with
  | Some pageNum => if bool_decide (pageNum < 1) then 1 else pageNum
  | None => 1
  end.

Definition pageSizeOf (query : url.Values) : Z :=
  match strconv.Atoi (url.Get "page_size" query) with
  | Some pageSize => if bool_decide (pageSize < 1) then 10 else pageSize
  | None => 10
  end.

Definition GetPublicListings (h : PublicAPIHandler) (query : url.Values)
    : Upstream Written :=
  let userIDFilter := url.Get "user_id" query in
  let pageNum := pageNumOf query in
  let pageSize := pageSizeOf query in
  r <- GetListings h pageNum pageSize userIDFilter ;
  let '(listings, err) := r in
  match err with
  | Some _ =>
      ret (mkWritten StatusInternalServerError
             (ListingsJSON
                (mkPublicListingsResponse false None "Failed to retrieve listings")))
  | None =>
      if bool_decide (List.length listings = 0%nat) then
        ret (mkWritten StatusOK
               (ListingsJSON (mkPublicListingsResponse true (Some []) "")))
      else
        let ids := uniqueUserIDs listings in
        st <- fetchUsers h (elements ids) (mkFetched ∅ []) ;
        let publicListings := aggregate (userMap st) listings in
        ret (mkWritten StatusOK
               (ListingsJSON
                  (mkPublicListingsResponse true (Some publicListings) "")))
  end.

(** What step 1 obtains from the Listing Service for a query. *)
Definition fetchPage (h : PublicAPIHandler) (query : url.Values)
    : list client.Listing * option error :=
  client.GetListings (listingServiceClient h)
    (pageNumOf query) (pageSizeOf query) (url.Get "user_id" query).

(** The required fields of the two create requests. *)
Definition validUser (b : CreateUserBody) : Prop := CUB_Name b ≠ "".

Definition validListing (b : CreateListingBody) : Prop :=
  CLB_UserID b ≠ 0
  ∧ (CLB_ListingType b = "rent" ∨ CLB_ListingType b = "sale")
  ∧ 0 < CLB_Price b.

(** What step 3 leaves in the shared state for a set of references. *)
Definition resolve (h : PublicAPIHandler) (ids : gset Z) : Fetched :=
  value (fetchUsers h (elements ids) (mkFetched ∅ [])).

(** The identifiers of the [GetUserByID] calls in a record of calls. *)
Definition lookups (cs : list Call) : list Z :=
  omap (λ c, match c with CallGetUserByID id => Some id | _ => None end) cs.

(** The three outcomes of a lookup, read off what [GetUserByID] returns. *)
Inductive Outcome :=
| Found (u : client.User)
| NotFound
| LookupFailed (cause : error).

Definition outcome (r : option client.User * option error) : Outcome :=
  match r with
  | (_, Some e) => LookupFailed e
  | (Some u, None) => Found u
  | (None, None) => NotFound
  end.

Definition lookup (h : PublicAPIHandler) (id : Z) : Outcome :=
  outcome (client.GetUserByID (userServiceClient h) id).

(** The user a task stores for its reference, if any. *)
Definition stored (o : Outcome) : option client.User :=
  match o with
  | Found u => Some u
  | NotFound | LookupFailed _ => None
  end.

End handler.

(** ** The goroutines of step 3

  [GetPublicListings] starts one goroutine per key of [uniqueUserIDs] and
  waits for them on a [sync.WaitGroup].  The interleavings are a step
  relation: each constructor is one statement of the main goroutine or of
  one lookup goroutine, taken atomically. *)

Module fanout.

Import http handler.

(** Where a lookup goroutine stands. *)
Inductive TaskPC :=
| AtCall                      (* before [GetUserByID(id)] *)
| AtSend (e : error)          (* before [errorsChan <- ...] *)
| AtLock (u : client.User)    (* before [mu.Lock()] *)
| AtWrite (u : client.User)   (* holding [mu], before [userMap[id] = user] *)
| AtUnlock                    (* holding [mu], before [mu.Unlock()] *)
| AtDefer                     (* before the deferred [wg.Done()] *)
| Finished.

(** Where the main goroutine stands. *)
Inductive MainPC :=
| Spawning (todo : gset Z)    (* at the head of [for userID := range uniqueUserIDs] *)
| Starting (todo : gset Z) (id : Z)   (* after [wg.Add(1)], before [go func(id)] *)
| Waiting                     (* before [wg.Wait()] returns *)
| Joined.                     (* after [wg.Wait()] *)

Record State := mkState {
  main : MainPC;
  tasks : list (Z * TaskPC);  (* the goroutines started so far *)
  wg : Z;                     (* the counter of the WaitGroup *)
  mu : bool;                  (* is the mutex locked *)
  shared : Fetched;           (* [userMap] and the content of [errorsChan] *)
  capacity : nat;             (* the capacity of [errorsChan] *)
  issued : list Call          (* the client calls made so far *)
}.

(** The state after [errorsChan := make(chan error, len(uniqueUserIDs))]. *)
Definition initial (ids : gset Z) : State :=
  mkState (Spawning ids) [] 0 false (mkFetched ∅ []) (size ids) [].

Inductive step (h : PublicAPIHandler) : State → State → Prop :=
| step_add todo ts w m f cap cs id :
    id ∈ todo →
    step h (mkState (Spawning todo) ts w m f cap cs)
           (mkState (Starting (todo ∖ {[id]}) id) ts (w + 1) m f cap cs)
| step_go todo ts w m f cap cs id :
    step h (mkState (Starting todo id) ts w m f cap cs)
           (mkState (Spawning todo) (ts ++ [(id, AtCall)]) w m f cap cs)
| step_range_end ts w m f cap cs :
    step h (mkState (Spawning ∅) ts w m f cap cs)
           (mkState Waiting ts w m f cap cs)
| step_wait ts m f cap cs :
    step h (mkState Waiting ts 0 m f cap cs)
           (mkState Joined ts 0 m f cap cs)
| step_call_err mn l1 l2 w m f cap cs id user e :
    client.GetUserByID (userServiceClient h) id = (user, Some e) →
    step h (mkState mn (l1 ++ (id, AtCall) :: l2) w m f cap cs)
           (mkState mn (l1 ++ (id, AtSend (fetchError id e)) :: l2) w m f cap
                    (cs ++ [CallGetUserByID id]))
| step_call_found mn l1 l2 w m f cap cs id u :
    client.GetUserByID (userServiceClient h) id = (Some u, None) →
    step h (mkState mn (l1 ++ (id, AtCall) :: l2) w m f cap cs)
           (mkState mn (l1 ++ (id, AtLock u) :: l2) w m f cap
                    (cs ++ [CallGetUserByID id]))
| step_call_nil mn l1 l2 w m f cap cs id :
    client.GetUserByID (userServiceClient h) id = (None, None) →
    step h (mkState mn (l1 ++ (id, AtCall) :: l2) w m f cap cs)
           (mkState mn (l1 ++ (id, AtDefer) :: l2) w m f cap
                    (cs ++ [CallGetUserByID id]))
| step_send mn l1 l2 w m um ch cap cs id e :
    (List.length ch < cap)%nat →
    step h (mkState mn (l1 ++ (id, AtSend e) :: l2) w m (mkFetched um ch) cap cs)
           (mkState mn (l1 ++ (id, AtDefer) :: l2) w m
                    (mkFetched um (ch ++ [e])) cap cs)
| step_lock mn l1 l2 w f cap cs id u :
    step h (mkState mn (l1 ++ (id, AtLock u) :: l2) w false f cap cs)
           (mkState mn (l1 ++ (id, AtWrite u) :: l2) w true f cap cs)
| step_write mn l1 l2 w m um ch cap cs id u :
    step h (mkState mn (l1 ++ (id, AtWrite u) :: l2) w m (mkFetched um ch) cap cs)
           (mkState mn (l1 ++ (id, AtUnlock) :: l2) w m
                    (mkFetched (<[id := u]> um) ch) cap cs)
| step_unlock mn l1 l2 w m f cap cs id :
    step h (mkState mn (l1 ++ (id, AtUnlock) :: l2) w m f cap cs)
           (mkState mn (l1 ++ (id, AtDefer) :: l2) w false f cap cs)
| step_done mn l1 l2 w m f cap cs id :
    step h (mkState mn (l1 ++ (id, AtDefer) :: l2) w m f cap cs)
           (mkState mn (l1 ++ (id, Finished) :: l2) (w - 1) m f cap cs).

(** The states of the fan-out over the references [ids]. *)
Definition reachable (h : PublicAPIHandler) (ids : gset Z) (s : State) : Prop :=
  rtc (step h) (initial ids) s.

(** A goroutine between [mu.Lock()] and [mu.Unlock()]. *)
Definition in_critical (pc : TaskPC) : bool :=
  match pc with
  | AtWrite _ | AtUnlock => true
  | _ => false
  end.

Definition is_finished (pc : TaskPC) : bool :=
  match pc with
  | Finished => true
  | _ => false
  end.

(** Sums over the goroutines started so far. *)
Definition total (f : TaskPC → nat) (ts : list (Z * TaskPC)) : nat :=
  sum_list_with (λ t, f t.2) ts.

Definition holding (pc : TaskPC) : nat := if in_critical pc then 1 else 0.
Definition running (pc : TaskPC) : nat := if is_finished pc then 0 else 1.

(** The statements a goroutine has still to run, at most. *)
Definition remaining (pc : TaskPC) : nat :=
  match pc with
  | AtCall => 5
  | AtLock _ => 4
  | AtWrite _ => 3
  | AtUnlock => 2
  | AtSend _ => 2
  | AtDefer => 1
  | Finished => 0
  end.

Definition remaining_main (mn : MainPC) : nat :=
  match mn with
  | Spawning todo => 7 * size todo + 2
  | Starting todo _ => 7 * size todo + 8
  | Waiting => 1
  | Joined => 0
  end.

Definition fuel (s : State) : nat :=
  remaining_main (main s) + total remaining (tasks s).

(** The references the main goroutine has still to start a task for. *)
Definition pending (mn : MainPC) : gset Z :=
  match mn with
  | Spawning todo => todo
  | Starting todo id => {[id]} ∪ todo
  | Waiting | Joined => ∅
  end.

(** [wg.Add(1)] done for a goroutine that is not started yet. *)
Definition added (mn : MainPC) : Z :=
  match mn with
  | Starting _ _ => 1
  | _ => 0
  end.

(** What the place of a goroutine says of its lookup and of the entry
    of its reference in [userMap]. *)
Definition task_ok (h : PublicAPIHandler) (um : gmap Z client.User)
    (t : Z * TaskPC) : Prop :=
  match t.2 with
  | AtCall => um !! t.1 = None
  | AtSend e =>
      ∃ cause, lookup h t.1 = LookupFailed cause
               ∧ e = fetchError t.1 cause ∧ um !! t.1 = None
  | AtLock u | AtWrite u => lookup h t.1 = Found u ∧ um !! t.1 = None
  | AtUnlock => ∃ u, lookup h t.1 = Found u ∧ um !! t.1 = Some u
  | AtDefer | Finished => um !! t.1 = stored (lookup h t.1)
  end.

(** The error a lookup of the reference puts on the channel, if any. *)
Definition failure (h : PublicAPIHandler) (id : Z) : list error :=
  match lookup h id with
  | LookupFailed cause => [fetchError id cause]
  | Found _ | NotFound => []
  end.

(** What a goroutine has sent on the channel, and the call it has made. *)
Definition sent (h : PublicAPIHandler) (t : Z * TaskPC) : list error :=
  match t.2 with
  | AtDefer | Finished => failure h t.1
  | _ => []
  end.

Definition called (t : Z * TaskPC) : list Z :=
  match t.2 with
  | AtCall => []
  | _ => [t.1]
  end.

(** Where a goroutine stands right after its call of [GetUserByID]. *)
Definition after_call (h : PublicAPIHandler) (id : Z) : TaskPC :=
  match client.GetUserByID (userServiceClient h) id with
  | (_, Some e) => AtSend (fetchError id e)
  | (Some u, None) => AtLock u
  | (None, None) => AtDefer
  end.

(** The invariant of the fan-out over the references [ids]. *)
Record inv (h : PublicAPIHandler) (ids : gset Z) (s : State) : Prop := mkInv {
  inv_nodup : NoDup (tasks s).*1;
  inv_cover : list_to_set (tasks s).*1 ∪ pending (main s) = ids;
  inv_fresh : ∀ id, id ∈ pending (main s) → id ∉ (tasks s).*1;
  inv_start : ∀ todo id, main s = Starting todo id → id ∉ todo;
  inv_wg : wg s = Z.of_nat (total running (tasks s)) + added (main s);
  inv_mu : total holding (tasks s) = if mu s then 1%nat else 0%nat;
  inv_tasks : Forall (task_ok h (userMap (shared s))) (tasks s);
  inv_outside : ∀ id, id ∉ (tasks s).*1 → userMap (shared s) !! id = None;
  inv_chan : errorsChan (shared s) ≡ₚ tasks s ≫= sent h;
  inv_calls : issued s ≡ₚ CallGetUserByID <$> (tasks s ≫= called);
  inv_cap : capacity s = size ids;
  inv_joined : main s = Joined → wg s = 0
}.

End fanout.

(** ** A small deployment, for the worked examples

  The user service knows user 5, answers 404 for user 7 and cannot be
  reached for any other identifier; the listing service answers with the
  page it is given. *)

Module demo.

Import http client handler.

Definition userA : User := mkUser 5 "A" 100 100.

Definition userDo (r : Request) : error + Response UserServiceResponse :=
  if bool_decide (URL r = "http://users/users/5") then
    inr (mkResponse 200 "200 OK"
           (inr (mkUserServiceResponse true [] (Some userA) "")))
  else if bool_decide (URL r = "http://users/users/7") then
    inr (mkResponse 404 "404 Not Found" (inl "EOF"))
  else inl "connection refused".

Definition users : UserServiceClient :=
  NewUserServiceClient (mkClient (λ _, None) userDo) "http://users".

Definition listingsOf (page : error + Response ListingServiceResponse)
    : ListingServiceClient :=
  NewListingServiceClient (mkClient (λ _, None) (λ _, page)) "http://listings".

Definition pageOK (ls : list Listing) : error + Response ListingServiceResponse :=
  inr (mkResponse 200 "200 OK" (inr (mkListingServiceResponse true ls None ""))).

Definition created (l : Listing) : error + Response ListingServiceResponse :=
  inr (mkResponse 200 "200 OK" (inr (mkListingServiceResponse true [] (Some l) ""))).

Definition gateway (page : error + Response ListingServiceResponse)
    : PublicAPIHandler :=
  NewPublicAPIHandler users (listingsOf page).

(** Two ways for the Listing Service to fail a request: it cannot be
    reached, or it answers with [result] false. *)
Definition down : error + Response ListingServiceResponse :=
  inl "connection refused".

Definition rejected : error + Response ListingServiceResponse :=
  inr (mkResponse 200 "200 OK"
         (inr (mkListingServiceResponse false [] None "user not found"))).

Definition l1 : Listing := mkListing 1 5 "rent" 4500 10 10.
Definition l2 : Listing := mkListing 2 5 "sale" 300000 20 25.
Definition l3 : Listing := mkListing 3 9 "rent" 6000 30 30.
Definition l4 : Listing := mkListing 4 7 "sale" 100 40 40.

Definition page3 : list Listing := [l1; l2; l3].

Definition gateway3 : PublicAPIHandler := gateway (pageOK page3).

Definition page4 : list Listing := [l1; l2; l3; l4].

Definition gateway4 : PublicAPIHandler := gateway (pageOK page4).

Definition noQuery : url.Values := ∅.

Definition query (pageNum pageSize : string) : url.Values :=
  <["page_size" := [pageSize]]> (<["page_num" := [pageNum]]> ∅).

(** A run of the goroutines for the references of [page3]: first the
    lookup of user 5, which is found, then that of user 9, which fails. *)
Definition refs3 : gset Z := {[5; 9]}.

Definition refused : error :=
  "failed to send request to User Service: connection refused".

Definition joined3 : fanout.State :=
  fanout.mkState fanout.Joined
    [(5, fanout.Finished); (9, fanout.Finished)] 0 false
    (mkFetched (<[5 := userA]> ∅) [fetchError 9 refused])
    (size refs3)
    [CallGetUserByID 5; CallGetUserByID 9].

End demo.

(** ** user-service/internal/model *)

Module model.

(** Modelled from the spec: the declaration of [model.User], which is not
    among the sources.  It is the UserRecord of the specification, with the
    four fields that the repository fills in [CreateUser] and reads with
    [Scan]. *)
Record User := mkUser {
  ID : Z;
  Name : string;
  CreatedAt : Z;
  UpdatedAt : Z
}.

End model.

(** ** database/sql, as far as the repository uses it *)

Module sql.

Definition error := string.

(** What [row.Scan] gives for the single row of [QueryRow]. *)
Inductive RowScan :=
| Scanned (u : model.User)
| ErrNoRows
| ScanFailed (err : error).

(** The rows of a query: what [Scan] gives for each row that [Next]
    reaches, and the error of [rows.Err()] after the last one. *)
Record Rows := mkRows {
  Scans : list (error + model.User);
  Err : option error
}.

Record Result := mkResult {
  LastInsertId : error + Z
}.

(** A prepared statement, executed with a name and two timestamps. *)
Record Stmt := mkStmt {
  Exec : string → Z → Z → error + Result
}.

Record DB := mkDB {
  Prepare : string → error + Stmt;
  Query : string → Z → Z → error + Rows;
  QueryRow : string → Z → RowScan
}.

End sql.

(** ** user-service/internal/repository *)

Module repository.

Import http.

(** The interface [UserRepository]. *)
Record UserRepository := mkUserRepository {
  CreateUser : string → option model.User * option error;
  GetAllUsers : Z → Z → list model.User * option error;
  GetUserByID : Z → option model.User * option error
}.

(** Arithmetic of [int] on a 64-bit platform wraps around. *)
Definition wrapInt (z : Z) : Z :=
  (z + 2 ^ 63) mod 2 ^ 64 - 2 ^ 63.

Module sqlite.

Record sqliteUserRepository := NewSQLiteUserRepository {
  db : sql.DB
}.

Definition insertUser : string :=
  "INSERT INTO users(name, created_at, updated_at) VALUES(?, ?, ?)".

Definition selectUsers : string :=
  "SELECT id, name, created_at, updated_at FROM users ORDER BY created_at DESC LIMIT ? OFFSET ?".

Definition selectUser : string :=
  "SELECT id, name, created_at, updated_at FROM users WHERE id = ?".

(** [CreateUser]; [now] is what [time.Now().UnixMicro()] reads during
    the call. *)
Definition CreateUser (r : sqliteUserRepository) (now : Z) (name : string)
    : option model.User * option error :=
  match sql.Prepare (db r) insertUser with
  | inl err =>
      (None, Some ("failed to prepare statement for creating user: " +:+ err))
  | inr stmt =>
      match sql.Exec stmt name now now with
      | inl err =>
          (None, Some ("failed to execute statement for creating user: " +:+ err))
      | inr result =>
          match sql.LastInsertId result with
          | inl err =>
              (None, Some ("failed to get last insert ID after creating user: "
                             +:+ err))
          | inr id => (Some (model.mkUser id name now now), None)
          end
      end
  end.

(** The loop [for rows.Next() { rows.Scan(...); users = append(users, user) }]:
    a failed [Scan] returns at once. *)
Fixpoint scanRows (scans : list (error + model.User)) (users : list model.User)
    : list model.User * option error :=
  match scans with
  | [] => (users, None)
  | inl err :: _ => ([], Some ("failed to scan user row: " +:+ err))
  | inr user :: rest => scanRows rest (users ++ [user])
  end.

Definition GetAllUsers (r : sqliteUserRepository) (page pageSize : Z)
    : list model.User * option error :=
  let page := if bool_decide (page < 1) then 1 else page in
  let pageSize := if bool_decide (pageSize < 1) then 10 else pageSize in
  let offset := wrapInt (wrapInt (page - 1) * pageSize) in
  match sql.Query (db r) selectUsers pageSize offset with
  | inl err => ([], Some ("failed to query all users: " +:+ err))
  | inr rows =>
      match scanRows (sql.Scans rows) [] with
      | (_, Some err) => ([], Some err)
      | (users, None) =>
          match sql.Err rows with
          | Some err =>
              ([], Some ("error during rows iteration for GetAllUsers: " +:+ err))
          | None => (users, None)
          end
      end
  end.

Definition GetUserByID (r : sqliteUserRepository) (id : Z)
    : option model.User * option error :=
  match sql.QueryRow (db r) selectUser id with
  | sql.Scanned user => (Some user, None)
  | sql.ErrNoRows => (None, None)
  | sql.ScanFailed err => (None, Some ("failed to scan user by ID: " +:+ err))
  end.

End sqlite.

(** The SQLite repository behind the interface, during a call in which
    the clock reads [now]. *)
Definition NewSQLiteUserRepository (d : sql.DB) (now : Z) : UserRepository :=
  let r := sqlite.NewSQLiteUserRepository d in
  mkUserRepository (sqlite.CreateUser r now) (sqlite.GetAllUsers r)
    (sqlite.GetUserByID r).

End repository.

(** ** user-service/internal/repository: opening the database *)

Module repository_db.

Import http.

(** What [NewSQLiteDB] does to the handle that [sql.Open] returned. *)
Inductive Action :=
| SetMaxOpenConns (n : Z)
| SetMaxIdleConns (n : Z)
| SetConnMaxLifetime (nanoseconds : Z)
| Ping
| Exec (query : string)
| Close.

(** The driver: the errors, if any, of [sql.Open], [db.Ping] and
    [db.Exec]. *)
Record Driver := mkDriver {
  Open : string → string → option error;
  PingErr : option error;
  ExecErr : string → option error
}.

(** The raw string literal of [createTableSQL], with its line breaks and
    tabs. *)
Definition newline : string := String (ascii_of_nat 10) EmptyString.
Definition tab : string := String (ascii_of_nat 9) EmptyString.

Definition createTableSQL : string :=
  newline +:+ tab +:+ "CREATE TABLE IF NOT EXISTS users (" +:+
  newline +:+ tab +:+ tab +:+ "id INTEGER NOT NULL PRIMARY KEY AUTOINCREMENT," +:+
  newline +:+ tab +:+ tab +:+ "name TEXT NOT NULL," +:+
  newline +:+ tab +:+ tab +:+ "created_at INTEGER NOT NULL," +:+
  newline +:+ tab +:+ tab +:+ "updated_at INTEGER NOT NULL" +:+
  newline +:+ tab +:+ ");".

Definition minute : Z := 60 * 1000000000.

(** [NewSQLiteDB]: the actions on the handle, whether the handle is
    returned, and the error. *)
Definition NewSQLiteDB (drv : Driver) (dataSourceName : string)
    : list Action * (bool * option error) :=
  match Open drv "sqlite3" dataSourceName with
  | Some err => ([], (false, Some ("failed to open database: " +:+ err)))
  | None =>
      let pool :=
        [SetMaxOpenConns 10; SetMaxIdleConns 5; SetConnMaxLifetime (5 * minute)] in
      match PingErr drv with
      | Some err =>
          (pool ++ [Ping; Close],
           (false, Some ("failed to connect to database: " +:+ err)))
      | None =>
          match ExecErr drv createTableSQL with
          | Some err =>
              (pool ++ [Ping; Exec createTableSQL; Close],
               (false, Some ("failed to create users table: " +:+ err)))
          | None => (pool ++ [Ping; Exec createTableSQL], (true, None))
          end
      end
  end.

End repository_db.

(** ** user-service/internal/service *)

Module service.

Import http.

Record UserService := NewUserService {
  repo : repository.UserRepository
}.

Definition CreateUser (s : UserService) (name : string)
    : option model.User * option error :=
  if bool_decide (name = "") then (None, Some "user name cannot be empty")
  else repository.CreateUser (repo s) name.

Definition GetAllUsers (s : UserService) (page pageSize : Z)
    : list model.User * option error :=
  repository.GetAllUsers (repo s) page pageSize.

Definition GetUserByID (s : UserService) (id : Z)
    : option model.User * option error :=
  if bool_decide (id ≤ 0) then
    (None, Some ("invalid user ID: " +:+ strconv.FormatInt id))
  else repository.GetUserByID (repo s) id.

End service.

(** ** user-service/internal/handler *)

Module user_handler.

Import http.

Record UserHandler := NewUserHandler {
  userService : service.UserService
}.

Record APIResponse := mkAPIResponse {
  Result : bool;
  Users : list model.User;
  User : option model.User;
  Error : string
}.

(** The status code (200 when [WriteHeader] was not called) and the
    encoded response. *)
Record Written := mkWritten {
  Code : Z;
  Body : APIResponse
}.

(** [GetAllUsers]; [query] is [r.URL.Query()]. *)
Definition GetAllUsers (h : UserHandler) (query : url.Values) : Written :=
  let pageNumStr := url.Get "page_num" query in
  let pageSizeStr := url.Get "page_size" query in
  let pageNum :=
    match strconv.Atoi pageNumStr with
    | Some pageNum => if bool_decide (pageNum < 1) then 1 else pageNum
    | None => 1
    end in
  let pageSize :=
    match strconv.Atoi pageSizeStr with
    | Some pageSize => if bool_decide (pageSize < 1) then 10 else pageSize
    | None => 10
    end in
  match service.GetAllUsers (userService h) pageNum pageSize with
  | (_, Some _) =>
      mkWritten StatusInternalServerError
        (mkAPIResponse false [] None "Internal server error")
  | (users, None) => mkWritten StatusOK (mkAPIResponse true users None "")
  end.

(** [GetUserByID]; [idStr] is [mux.Vars(r)["id"]], read by
    [strconv.ParseInt(idStr, 10, 64)]. *)
Definition GetUserByID (h : UserHandler) (idStr : string) : Written :=
  match strconv.ParseInt10 idStr with
  | None =>
      mkWritten StatusBadRequest
        (mkAPIResponse false [] None "Invalid user ID format")
  | Some id =>
      match service.GetUserByID (userService h) id with
      | (_, Some _) =>
          mkWritten StatusInternalServerError
            (mkAPIResponse false [] None "Internal server error")
      | (None, None) =>
          mkWritten StatusNotFound (mkAPIResponse false [] None "User not found")
      | (Some user, None) =>
          mkWritten StatusOK (mkAPIResponse true [] (Some user) "")
      end
  end.

(** [CreateUser]; [form] is what [r.ParseForm()] leaves in [r.Form], or
    its error. *)
Definition CreateUser (h : UserHandler) (form : error + url.Values) : Written :=
  match form with
  | inl _ =>
      mkWritten StatusBadRequest
        (mkAPIResponse false [] None "Failed to parse form data")
  | inr values =>
      let name := url.Get "name" values in
      if bool_decide (name = "") then
        mkWritten StatusBadRequest
          (mkAPIResponse false [] None "User name is required")
      else
        match service.CreateUser (userService h) name with
        | (_, Some _) =>
            mkWritten StatusInternalServerError
              (mkAPIResponse false [] None "Internal server error")
        | (user, None) => mkWritten StatusOK (mkAPIResponse true [] user "")
        end
  end.

End user_handler.

(** ** The requests of the clients *)

Module requests.

Import http client.

(** The request that [GetListings] builds. *)
Definition listingsRequest (c : ListingServiceClient)
    (pageNum pageSize : Z) (userID : string) : Request :=
  let params :=
    url.Set_ "page_size" (strconv.Itoa pageSize)
      (url.Set_ "page_num" (strconv.Itoa pageNum) ∅) in
  let params :=
    if bool_decide (userID ≠ "") then url.Set_ "user_id" userID params
    else params in
  mkRequest "GET" (LSC_baseURL c +:+ "/listings") params None "".

(** The request that [CreateListing] builds. *)
Definition createListingRequest (c : ListingServiceClient)
    (userID : Z) (listingType : string) (price : Z) : Request :=
  let formData :=
    url.Set_ "price" (strconv.FormatInt price)
      (url.Set_ "listing_type" listingType
        (url.Set_ "user_id" (strconv.FormatInt userID) ∅)) in
  mkRequest "POST" (LSC_baseURL c +:+ "/listings") ∅ (Some formData)
    formContentType.

(** The request that [CreateUser] builds. *)
Definition createUserRequest (c : UserServiceClient) (name : string) : Request :=
  mkRequest "POST" (USC_baseURL c +:+ "/users") ∅
    (Some (url.Set_ "name" name ∅)) formContentType.

(** What a client makes of the answer to its request, for a response
    type with a result flag, an error text and a payload. *)
Definition answer {R A} (service : string) (result : R → bool)
    (errorOf : R → string) (payload : R → A) (nothing : A)
    (prepared : option error) (sent : error + Response R)
    : A * option error :=
  match prepared with
  | Some err =>
      (nothing, Some ("failed to create request to " +:+ service +:+ ": " +:+ err))
  | None =>
      match sent with
      | inl err =>
          (nothing, Some ("failed to send request to " +:+ service +:+ ": " +:+ err))
      | inr resp =>
          if bool_decide (StatusCode resp ≠ StatusOK) then
            (nothing, Some (service +:+ " returned non-OK status: " +:+ Status resp))
          else
            match Decode resp with
            | inl err =>
                (nothing, Some ("failed to decode " +:+ service +:+ " response: "
                                  +:+ err))
            | inr apiResp =>
                if negb (result apiResp) then
                  (nothing, Some (service +:+ " reported error: " +:+ errorOf apiResp))
                else (payload apiResp, None)
            end
      end
  end.

End requests.

(** ** The user service behind the gateway's client *)

Module wire.

Import http.

(** What the gateway's client decodes from a response of the user
    service: [APIResponse] and [client.UserServiceResponse] have the same
    JSON field names; [convert] is the passage of one user through JSON. *)
Definition decoded (convert : model.User → client.User)
    (b : user_handler.APIResponse) : client.UserServiceResponse :=
  client.mkUserServiceResponse (user_handler.Result b)
    (convert <$> user_handler.Users b) (convert <$> user_handler.User b)
    (user_handler.Error b).

(** The response that reaches the client; [status] gives the status line
    of a status code. *)
Definition deliver (convert : model.User → client.User) (status : Z → string)
    (w : user_handler.Written) : Response client.UserServiceResponse :=
  mkResponse (user_handler.Code w) (status (user_handler.Code w))
    (inr (decoded convert (user_handler.Body w))).

End wire.

(** ** A small user service, for the worked examples *)

Module demo_users.

Import http.

Definition ann : model.User := model.mkUser 5 "Ann" 100 100.
Definition bob : model.User := model.mkUser 4 "Bob" 90 95.

Definition database : sql.DB :=
  sql.mkDB
    (λ _, inr (sql.mkStmt (λ _ _ _, inr (sql.mkResult (inr 6)))))
    (λ _ limit offset,
       if bool_decide (offset = 0) then inr (sql.mkRows [inr ann; inr bob] None)
       else inr (sql.mkRows [] None))
    (λ _ id, if bool_decide (id = 5) then sql.Scanned ann else sql.ErrNoRows).

Definition clock : Z := 1000.

Definition users : user_handler.UserHandler :=
  user_handler.NewUserHandler
    (service.NewUserService (repository.NewSQLiteUserRepository database clock)).

(** The same service when the database cannot be reached. *)
Definition offline : user_handler.UserHandler :=
  user_handler.NewUserHandler
    (service.NewUserService
       (repository.NewSQLiteUserRepository
          (sql.mkDB (λ _, inl "closed") (λ _ _ _, inl "closed")
             (λ _ _, sql.ScanFailed "closed"))
          clock)).

Definition convert (u : model.User) : client.User :=
  client.mkUser (model.ID u) (model.Name u) (model.CreatedAt u) (model.UpdatedAt u).

Definition status (code : Z) : string :=
  strconv.Itoa code +:+ " status".

(** The round trip of the gateway's client to that user service: a POST
    is the create request, a GET carries the identifier after
    ["http://users/users/"]. *)
Definition roundTrip (req : Request) : error + Response client.UserServiceResponse :=
  if bool_decide (Method req = "POST") then
    match Form req with
    | Some form => inr (wire.deliver convert status (user_handler.CreateUser users (inr form)))
    | None => inl "no body"
    end
  else
    let u := URL req in
    inr (wire.deliver convert status
           (user_handler.GetUserByID users
              (String.substring 19 (String.length u - 19) u))).

Definition userClient : client.UserServiceClient :=
  client.NewUserServiceClient (mkClient (λ _, None) roundTrip) "http://users".

Definition gateway (page : list client.Listing) : handler.PublicAPIHandler :=
  handler.NewPublicAPIHandler userClient (demo.listingsOf (demo.pageOK page)).

End demo_users.

(** * Properties *)

#[local] Set Warnings "-clear-no-such-hyp".

(** ** strconv: [Atoi] reads back what [Itoa] prints *)

Section StrconvFacts.

Import strconv.

Lemma digits_acc (d : Decimal.uint) (acc : positive) :
  digits (NilEmpty.string_of_uint d) (Z.pos acc)
  = Some (Z.pos (Pos.of_uint_acc d acc)).
Proof.
  revert acc. induction d; intros acc; simpl; [reflexivity|..];
    (etransitivity; [|apply IHd]); f_equal; lia.
Qed.

Lemma digits_zero (d : Decimal.uint) :
  digits (NilEmpty.string_of_uint d) 0 = Some (Z.of_N (Pos.of_uint d)).
Proof.
  induction d; simpl; [reflexivity|exact IHd|..]; apply digits_acc.
Qed.

Lemma string_of_uint_head (d : Decimal.uint) :
  d ≠ Decimal.Nil →
  ∃ c r, NilEmpty.string_of_uint d = String c r ∧ is_sign c = false.
Proof. destruct d; intros Hd; [done|..]; simpl; eauto. Qed.

(** Both paths of [Atoi] on a well-formed numeral that fits [int]. *)
Lemma Atoi_numeral (c : ascii) (r : string) (un : Z) :
  let s := String c r in
  let body := if is_sign c then r else s in
  body ≠ EmptyString →
  digits body 0 = Some un →
  let v := if bool_decide (c = "-"%char) then - un else un in
  minInt ≤ v ≤ maxInt →
  0 ≤ un →
  Atoi s = Some v.
Proof.
  intros s body Hne Hd v Hv Hun. subst s. unfold Atoi, ParseInt10.
  fold body. clearbody body. destruct body as [|b0 body]; [done|].
  rewrite Hd. subst v. unfold minInt, maxInt, intSize in *.
  destruct (_ && _); [done|].
  destruct (bool_decide (c = "-"%char)); simpl;
    by rewrite bool_decide_eq_false_2 by lia.
Qed.

Lemma Atoi_Itoa (n : Z) :
  minInt ≤ n ≤ maxInt → Atoi (Itoa n) = Some n.
Proof.
  intros Hn. unfold Itoa, FormatInt. destruct n as [|p|p]; simpl.
  - reflexivity.
  - pose proof (DecimalPos.Unsigned.to_uint_nonnil p) as Hnil.
    destruct (string_of_uint_head _ Hnil) as (c & r & Hs & Hc).
    assert (NilZero.string_of_uint (Pos.to_uint p)
            = NilEmpty.string_of_uint (Pos.to_uint p)) as ->.
    { by destruct (Pos.to_uint p). }
    rewrite Hs.
    assert (bool_decide (c = "-"%char) = false) as Hm.
    { unfold is_sign in Hc. by destruct (bool_decide (c = "-"%char)). }
    pose proof (Atoi_numeral c r (Z.pos p)) as HA. cbv zeta in HA.
    rewrite Hc, Hm in HA. apply HA; [done| |done|lia].
    rewrite <- Hs, digits_zero, DecimalPos.Unsigned.of_to. reflexivity.
  - pose proof (DecimalPos.Unsigned.to_uint_nonnil p) as Hnil.
    destruct (string_of_uint_head _ Hnil) as (c & r & Hs & Hc).
    assert (NilZero.string_of_uint (Pos.to_uint p)
            = NilEmpty.string_of_uint (Pos.to_uint p)) as ->.
    { by destruct (Pos.to_uint p). }
    pose proof (Atoi_numeral "-"%char (NilEmpty.string_of_uint (Pos.to_uint p))
                  (Z.pos p)) as HA.
    cbv zeta in HA. simpl in HA. apply HA; [by rewrite Hs| |done|lia].
    rewrite digits_zero, DecimalPos.Unsigned.of_to. reflexivity.
Qed.

End StrconvFacts.

(** ** The outcomes of [GetUserByID] *)

Section ClientFacts.

Import http client.

Variable c : UserServiceClient.

Lemma GetUserByID_not_found (id : Z) (resp : Response UserServiceResponse) :
  NewRequest (USC_httpClient c) (userRequest c id) = None →
  Do (USC_httpClient c) (userRequest c id) = inr resp →
  StatusCode resp = StatusNotFound →
  GetUserByID c id = (None, None).
Proof.
  intros Hn Hd Hs. unfold GetUserByID. cbv zeta.
  rewrite Hn, Hd. by rewrite bool_decide_eq_true_2.
Qed.

Lemma GetUserByID_found (id : Z) (resp : Response UserServiceResponse) apiResp :
  NewRequest (USC_httpClient c) (userRequest c id) = None →
  Do (USC_httpClient c) (userRequest c id) = inr resp →
  StatusCode resp = StatusOK →
  Decode resp = inr apiResp →
  USR_Result apiResp = true →
  GetUserByID c id = (USR_User apiResp, None).
Proof.
  intros Hn Hd Hs Hdec Hr. unfold GetUserByID. cbv zeta.
  rewrite Hn, Hd, Hs, Hdec, Hr. reflexivity.
Qed.

Lemma GetUserByID_error (id : Z) (user : option User) (e : error) :
  GetUserByID c id = (user, Some e) → user = None.
Proof.
  unfold GetUserByID. intros Hg.
  repeat match type of Hg with
         | context [match ?x with _ => _ end] => destruct x
         | context [if ?b then _ else _] => destruct b
         end; congruence.
Qed.

End ClientFacts.

(** ** The pieces of [GetPublicListings] *)

Section HandlerFacts.

Import http handler.

Variable h : PublicAPIHandler.

Lemma uniqueUserIDs_from (ls : list client.Listing) (acc : gset Z) :
  foldl (λ ids listing, {[client.Listing_UserID listing]} ∪ ids) acc ls
  = list_to_set (client.Listing_UserID <$> ls) ∪ acc.
Proof.
  revert acc. induction ls as [|l ls IH]; intros acc; simpl.
  - set_solver.
  - rewrite IH. set_solver.
Qed.

Lemma uniqueUserIDs_spec (ls : list client.Listing) :
  uniqueUserIDs ls = list_to_set (client.Listing_UserID <$> ls).
Proof. unfold uniqueUserIDs. rewrite uniqueUserIDs_from. set_solver. Qed.

Lemma elem_of_uniqueUserIDs (ls : list client.Listing) (id : Z) :
  id ∈ uniqueUserIDs ls ↔ ∃ l, l ∈ ls ∧ client.Listing_UserID l = id.
Proof.
  rewrite uniqueUserIDs_spec, elem_of_list_to_set, list_elem_of_fmap.
  naive_solver.
Qed.

Lemma size_uniqueUserIDs (ls : list client.Listing) :
  size (uniqueUserIDs ls)
  = List.length (remove_dups (client.Listing_UserID <$> ls)).
Proof.
  rewrite uniqueUserIDs_spec.
  rewrite <- (size_list_to_set (C := gset Z)) by apply NoDup_remove_dups.
  f_equal. apply set_eq. intros id.
  by rewrite !elem_of_list_to_set, elem_of_remove_dups.
Qed.

Lemma aggregate_from um (ls : list client.Listing) (acc : list PublicListing) :
  foldl (λ publicListings listing,
           (publicListings ++ [toPublicListing um listing])%list) acc ls
  = (acc ++ (toPublicListing um <$> ls))%list.
Proof.
  revert acc. induction ls as [|l ls IH]; intros acc; simpl.
  - by rewrite app_nil_r.
  - rewrite IH. by rewrite <- app_assoc.
Qed.

Lemma aggregate_spec um (ls : list client.Listing) :
  aggregate um ls = toPublicListing um <$> ls.
Proof. unfold aggregate. by rewrite aggregate_from. Qed.

Lemma fetchUser_calls id st : calls (fetchUser h id st) = [CallGetUserByID id].
Proof.
  unfold fetchUser, GetUserByID, bind, invoke, calls, ret.
  destruct (client.GetUserByID _ _) as [[u|] [e|]]; reflexivity.
Qed.

Lemma fetchUser_value id st :
  value (fetchUser h id st)
  = match lookup h id with
    | Found u => mkFetched (<[id := u]> (userMap st)) (errorsChan st)
    | NotFound => st
    | LookupFailed e =>
        mkFetched (userMap st) (errorsChan st ++ [fetchError id e])%list
    end.
Proof.
  unfold fetchUser, GetUserByID, bind, invoke, value, ret, lookup, outcome.
  destruct (client.GetUserByID _ _) as [[u|] [e|]]; reflexivity.
Qed.

Lemma fetchUsers_cons id ids st :
  fetchUsers h (id :: ids) st
  = ((calls (fetchUser h id st) ++ calls (fetchUsers h ids (value (fetchUser h id st))))%list,
     value (fetchUsers h ids (value (fetchUser h id st)))).
Proof.
  simpl. unfold bind, calls, value.
  destruct (fetchUser h id st) as [c1 st1]; simpl.
  destruct (fetchUsers h ids st1) as [c2 st2]; reflexivity.
Qed.

Lemma fetchUsers_calls ids st :
  calls (fetchUsers h ids st) = CallGetUserByID <$> ids.
Proof.
  revert st. induction ids as [|id ids IH]; intros st; [reflexivity|].
  rewrite fetchUsers_cons. unfold calls at 1; simpl.
  by rewrite fetchUser_calls, IH.
Qed.

Lemma fetchUsers_userMap ids st (id : Z) :
  userMap (value (fetchUsers h ids st)) !! id
  = if bool_decide (id ∈ ids)
    then match stored (lookup h id) with
         | Some u => Some u
         | None => userMap st !! id
         end
    else userMap st !! id.
Proof.
  revert st. induction ids as [|i ids IH]; intros st.
  - reflexivity.
  - rewrite fetchUsers_cons. unfold value at 1; simpl. rewrite IH.
    rewrite fetchUser_value.
    destruct (decide (id = i)) as [->|Hne].
    + rewrite (bool_decide_eq_true_2 (i ∈ i :: ids)) by left.
      destruct (lookup h i) as [u| |e] eqn:Hl; simpl;
        [rewrite lookup_insert_eq|..]; by case_bool_decide.
    + assert (bool_decide (id ∈ i :: ids) = bool_decide (id ∈ ids)) as ->.
      { apply bool_decide_ext. set_solver. }
      destruct (lookup h i) as [u| |e]; simpl;
        [rewrite lookup_insert_ne by done|..]; reflexivity.
Qed.

Lemma lookups_fmap (ids : list Z) : lookups (CallGetUserByID <$> ids) = ids.
Proof.
  unfold lookups. induction ids as [|i ids IH]; [done|].
  simpl. by f_equal.
Qed.

(** The map of step 3: an entry exactly for the references of the set
    whose lookup found a user. *)
Lemma resolve_lookup (ids : gset Z) (id : Z) :
  userMap (resolve h ids) !! id
  = if bool_decide (id ∈ ids) then stored (lookup h id) else None.
Proof.
  unfold resolve. rewrite fetchUsers_userMap. simpl.
  assert (bool_decide (id ∈ elements ids) = bool_decide (id ∈ ids)) as ->.
  { apply bool_decide_ext, elem_of_elements. }
  case_bool_decide; [|done]. by destruct (stored _).
Qed.

(** [GetPublicListings] on a page that was fetched and is not empty. *)
Lemma GetPublicListings_page (query : url.Values) (ls : list client.Listing) :
  fetchPage h query = (ls, None) →
  ls ≠ [] →
  GetPublicListings h query
  = (CallGetListings (pageNumOf query) (pageSizeOf query) (url.Get "user_id" query)
       :: (CallGetUserByID <$> elements (uniqueUserIDs ls)),
     mkWritten StatusOK
       (ListingsJSON
          (mkPublicListingsResponse true
             (Some (toPublicListing (userMap (resolve h (uniqueUserIDs ls))) <$> ls))
             ""))).
Proof.
  intros Hf Hne. unfold GetPublicListings, GetListings, invoke.
  unfold fetchPage in Hf. cbv zeta. unfold bind at 1. rewrite Hf.
  rewrite bool_decide_eq_false_2 by (destruct ls; [done|simpl; lia]).
  pose proof (fetchUsers_calls (elements (uniqueUserIDs ls)) (mkFetched ∅ [])) as Hc.
  unfold resolve, calls, value in *. unfold bind.
  destruct (fetchUsers h _ _) as [c st]; simpl in *. subst c.
  by rewrite app_nil_r, aggregate_spec.
Qed.

Lemma GetPublicListings_empty (query : url.Values) :
  fetchPage h query = ([], None) →
  GetPublicListings h query
  = ([CallGetListings (pageNumOf query) (pageSizeOf query) (url.Get "user_id" query)],
     mkWritten StatusOK (ListingsJSON (mkPublicListingsResponse true (Some []) ""))).
Proof.
  intros Hf. unfold GetPublicListings, GetListings, invoke.
  unfold fetchPage in Hf. cbv zeta. unfold bind at 1. by rewrite Hf.
Qed.

Lemma GetPublicListings_failed (query : url.Values) ls e :
  fetchPage h query = (ls, Some e) →
  GetPublicListings h query
  = ([CallGetListings (pageNumOf query) (pageSizeOf query) (url.Get "user_id" query)],
     mkWritten StatusInternalServerError
       (ListingsJSON
          (mkPublicListingsResponse false None "Failed to retrieve listings"))).
Proof.
  intros Hf. unfold GetPublicListings, GetListings, invoke.
  unfold fetchPage in Hf. cbv zeta. unfold bind at 1. by rewrite Hf.
Qed.

End HandlerFacts.

(** ** The aggregation on one page *)

Section Aggregation.

Import http handler.

Variable h : PublicAPIHandler.

(** The response of a fetched page, empty or not, in one form. *)
Lemma GetPublicListings_fetched (query : url.Values) (ls : list client.Listing) :
  fetchPage h query = (ls, None) →
  GetPublicListings h query
  = (CallGetListings (pageNumOf query) (pageSizeOf query) (url.Get "user_id" query)
       :: (CallGetUserByID <$> elements (uniqueUserIDs ls)),
     mkWritten StatusOK
       (ListingsJSON
          (mkPublicListingsResponse true
             (Some (toPublicListing (userMap (resolve h (uniqueUserIDs ls))) <$> ls))
             ""))).
Proof.
  intros Hf. destruct ls as [|l ls].
  - rewrite (GetPublicListings_empty h query Hf).
    unfold uniqueUserIDs. simpl. by rewrite elements_empty.
  - by apply GetPublicListings_page.
Qed.

Lemma embedded_user (ls : list client.Listing) (l : client.Listing) :
  l ∈ ls →
  PL_User (toPublicListing (userMap (resolve h (uniqueUserIDs ls))) l)
  = stored (lookup h (client.Listing_UserID l)).
Proof.
  intros Hl. simpl. rewrite resolve_lookup.
  rewrite bool_decide_eq_true_2; [done|].
  apply elem_of_uniqueUserIDs. eauto.
Qed.

(** C1: on every page the fetch returns, the response carries one
    enriched listing per listing of the page, in the same order: the
    lengths agree and the i-th output has the identifier, listing type,
    price and timestamps of the i-th input. *)
Theorem merge_keeps_the_page (query : url.Values) (ls : list client.Listing) :
  fetchPage h query = (ls, None) →
  ∃ out,
    value (GetPublicListings h query)
    = mkWritten StatusOK
        (ListingsJSON (mkPublicListingsResponse true (Some out) ""))
    ∧ List.length out = List.length ls
    ∧ ∀ i l, ls !! i = Some l →
        ∃ p, out !! i = Some p
             ∧ PL_ID p = client.Listing_ID l
             ∧ PL_ListingType p = client.Listing_ListingType l
             ∧ PL_Price p = client.Listing_Price l
             ∧ PL_CreatedAt p = client.Listing_CreatedAt l
             ∧ PL_UpdatedAt p = client.Listing_UpdatedAt l.
Proof.
  intros Hf. rewrite (GetPublicListings_fetched query ls Hf).
  eexists. split; [reflexivity|]. split.
  - by rewrite length_fmap.
  - intros i l Hi. eexists. rewrite list_lookup_fmap, Hi. simpl.
    split; [reflexivity|]. by repeat split.
Qed.

(** C2: when the page fetch succeeds the response is a success whatever
    the lookups return: the listing of a reference that was found embeds
    that user, the listing of a reference that was not found or whose
    lookup failed has a nil user, and no other listing has. *)
Theorem lookups_never_fail_the_request
    (query : url.Values) (ls : list client.Listing) :
  fetchPage h query = (ls, None) →
  ∃ out,
    value (GetPublicListings h query)
    = mkWritten StatusOK
        (ListingsJSON (mkPublicListingsResponse true (Some out) ""))
    ∧ ∀ i l, ls !! i = Some l →
        ∃ p, out !! i = Some p
             ∧ match lookup h (client.Listing_UserID l) with
               | Found u => PL_User p = Some u
               | NotFound | LookupFailed _ => PL_User p = None
               end.
Proof.
  intros Hf. rewrite (GetPublicListings_fetched query ls Hf).
  eexists. split; [reflexivity|].
  intros i l Hi. eexists. rewrite list_lookup_fmap, Hi. simpl.
  split; [reflexivity|].
  rewrite (embedded_user ls l (list_elem_of_lookup_2 _ _ _ Hi)).
  by destruct (lookup h _).
Qed.

(** C4: on a fetched page the lookups issued are, up to their order, the
    distinct user references of the page, each once: M calls for M
    distinct references, however many listings share them; and two
    listings with the same reference embed the same user. *)
Theorem one_lookup_per_distinct_reference
    (query : url.Values) (ls : list client.Listing) :
  fetchPage h query = (ls, None) →
  let issued := lookups (calls (GetPublicListings h query)) in
  NoDup issued
  ∧ issued ≡ₚ remove_dups (client.Listing_UserID <$> ls)
  ∧ List.length issued = List.length (remove_dups (client.Listing_UserID <$> ls))
  ∧ ∃ out,
      value (GetPublicListings h query)
      = mkWritten StatusOK
          (ListingsJSON (mkPublicListingsResponse true (Some out) ""))
      ∧ ∀ i j li lj pi pj,
          ls !! i = Some li → ls !! j = Some lj →
          client.Listing_UserID li = client.Listing_UserID lj →
          out !! i = Some pi → out !! j = Some pj →
          PL_User pi = PL_User pj
          ∧ PL_User pi = stored (lookup h (client.Listing_UserID li)).
Proof.
  intros Hf. rewrite (GetPublicListings_fetched query ls Hf).
  unfold calls, value; simpl.
  change (lookups (CallGetListings ?a ?b ?c :: ?l)) with (lookups l).
  rewrite lookups_fmap.
  assert (elements (uniqueUserIDs ls)
          ≡ₚ remove_dups (client.Listing_UserID <$> ls)) as Hp.
  { apply NoDup_Permutation.
    - apply NoDup_elements.
    - apply NoDup_remove_dups.
    - intros id. rewrite elem_of_elements, elem_of_remove_dups.
      rewrite uniqueUserIDs_spec. apply elem_of_list_to_set. }
  split; [apply NoDup_elements|]. split; [done|].
  split; [by rewrite Hp|].
  eexists. split; [reflexivity|].
  intros i j li lj pi pj Hi Hj Heq Hpi Hpj.
  rewrite list_lookup_fmap in Hpi, Hpj. rewrite Hi in Hpi. rewrite Hj in Hpj.
  simpl in Hpi, Hpj. injection Hpi as <-. injection Hpj as <-.
  rewrite !embedded_user by (eapply list_elem_of_lookup_2; eauto).
  by rewrite Heq.
Qed.

(** C5: when the page fetch fails the response is a failure
    ([Result] false) with a non-empty error, no user lookup is issued and
    no listing is returned. *)
Theorem failed_fetch_fails_the_request
    (query : url.Values) (ls : list client.Listing) (e : error) :
  fetchPage h query = (ls, Some e) →
  ∃ r,
    value (GetPublicListings h query)
    = mkWritten StatusInternalServerError (ListingsJSON r)
    ∧ Result r = false
    ∧ Error r ≠ ""
    ∧ Listings r = None
    ∧ lookups (calls (GetPublicListings h query)) = [].
Proof.
  intros Hf. rewrite (GetPublicListings_failed h query ls e Hf).
  eexists. split; [reflexivity|]. by repeat split.
Qed.

(** C6: when the page fetch succeeds with no listing the response is a
    success with an empty sequence of listings, and no user lookup is
    issued. *)
Theorem empty_page_is_a_success (query : url.Values) :
  fetchPage h query = ([], None) →
  value (GetPublicListings h query)
  = mkWritten StatusOK
      (ListingsJSON (mkPublicListingsResponse true (Some []) ""))
  ∧ lookups (calls (GetPublicListings h query)) = [].
Proof.
  intros Hf. rewrite (GetPublicListings_empty h query Hf). by split.
Qed.

End Aggregation.

(** ** The create handlers *)

Section Create.

Import http handler.

Variable h : PublicAPIHandler.

Lemma CreatePublicUser_valid (b : CreateUserBody) :
  validUser b →
  CreatePublicUser h (inr b)
  = ([CallCreateUser (CUB_Name b)],
     match client.CreateUser (userServiceClient h) (CUB_Name b) with
     | (_, Some _) =>
         mkWritten StatusInternalServerError (ErrorJSON "Failed to create user")
     | (user, None) => mkWritten StatusOK (UserJSON (mkPublicUserResponse user))
     end).
Proof.
  intros Hv. unfold CreatePublicUser, validUser in *.
  rewrite bool_decide_eq_false_2 by done.
  unfold CreateUser, invoke, bind.
  by destruct (client.CreateUser _ _) as [u [e|]].
Qed.

Lemma CreatePublicListing_valid (b : CreateListingBody) :
  validListing b →
  CreatePublicListing h (inr b)
  = ([CallCreateListing (CLB_UserID b) (CLB_ListingType b) (CLB_Price b)],
     match client.CreateListing (listingServiceClient h)
             (CLB_UserID b) (CLB_ListingType b) (CLB_Price b) with
     | (_, Some _) =>
         mkWritten StatusInternalServerError
           (ErrorJSON "Failed to create listing")
     | (listing, None) => mkWritten StatusOK (ListingJSON listing)
     end).
Proof.
  intros (Hu & Ht & Hp). unfold CreatePublicListing.
  rewrite (bool_decide_eq_false_2 (CLB_UserID b = 0)) by done.
  rewrite (bool_decide_eq_false_2 (CLB_Price b ≤ 0)) by lia.
  rewrite (bool_decide_eq_false_2 (CLB_ListingType b = "")) by
    (destruct Ht as [-> | ->]; done).
  simpl.
  assert (bool_decide (CLB_ListingType b ≠ "rent")
          && bool_decide (CLB_ListingType b ≠ "sale") = false) as ->.
  { destruct Ht as [-> | ->]; reflexivity. }
  unfold CreateListing, invoke, bind.
  by destruct (client.CreateListing _ _ _ _) as [l [e|]].
Qed.

Lemma CreatePublicListing_invalid (b : CreateListingBody) :
  ¬ validListing b →
  ∃ msg, CreatePublicListing h (inr b)
         = ([], mkWritten StatusBadRequest (ErrorJSON msg)).
Proof.
  intros Hv. unfold CreatePublicListing.
  destruct (_ || _) eqn:H1; [eauto|].
  destruct (_ && _) eqn:H2; [eauto|].
  exfalso. apply Hv.
  apply orb_false_iff in H1 as [H1 Hp]. apply orb_false_iff in H1 as [Hu _].
  apply bool_decide_eq_false in Hu, Hp.
  repeat split; [done| |lia].
  apply andb_false_iff in H2 as [H2|H2]; apply bool_decide_eq_false in H2.
  - left. by destruct (decide (CLB_ListingType b = "rent")).
  - right. by destruct (decide (CLB_ListingType b = "sale")).
Qed.

(** C8, as the code has it: a create request with invalid input (an
    empty user name; a listing without user reference, of a type other
    than rent and sale, or of a price that is not positive; a body that
    does not decode) is answered with status 400 and no call on the
    upstream service; on valid input the create call is made once with the
    fields of the request; when it succeeds the record it returns is the
    record of the response, unchanged; when it fails, whatever its error,
    the response is status 500 with the fixed text "Failed to create
    user" or "Failed to create listing". *)
Theorem create_validates_then_delegates :
  (∀ e : error,
     CreatePublicUser h (inl e)
     = ([], mkWritten StatusBadRequest (ErrorJSON "Invalid request body"))
     ∧ CreatePublicListing h (inl e)
       = ([], mkWritten StatusBadRequest (ErrorJSON "Invalid request body")))
  ∧ (∀ b : CreateUserBody,
       ¬ validUser b →
       CreatePublicUser h (inr b)
       = ([], mkWritten StatusBadRequest (ErrorJSON "User name is required")))
  ∧ (∀ b : CreateUserBody,
       validUser b →
       calls (CreatePublicUser h (inr b)) = [CallCreateUser (CUB_Name b)]
       ∧ (∀ user,
            client.CreateUser (userServiceClient h) (CUB_Name b) = (user, None) →
            value (CreatePublicUser h (inr b))
            = mkWritten StatusOK (UserJSON (mkPublicUserResponse user)))
       ∧ (∀ user e,
            client.CreateUser (userServiceClient h) (CUB_Name b) = (user, Some e) →
            value (CreatePublicUser h (inr b))
            = mkWritten StatusInternalServerError
                (ErrorJSON "Failed to create user")))
  ∧ (∀ b : CreateListingBody,
       ¬ validListing b →
       ∃ msg, CreatePublicListing h (inr b)
              = ([], mkWritten StatusBadRequest (ErrorJSON msg)))
  ∧ (∀ b : CreateListingBody,
       validListing b →
       calls (CreatePublicListing h (inr b))
       = [CallCreateListing (CLB_UserID b) (CLB_ListingType b) (CLB_Price b)]
       ∧ (∀ listing,
            client.CreateListing (listingServiceClient h)
              (CLB_UserID b) (CLB_ListingType b) (CLB_Price b) = (listing, None) →
            value (CreatePublicListing h (inr b))
            = mkWritten StatusOK (ListingJSON listing))
       ∧ (∀ listing e,
            client.CreateListing (listingServiceClient h)
              (CLB_UserID b) (CLB_ListingType b) (CLB_Price b)
            = (listing, Some e) →
            value (CreatePublicListing h (inr b))
            = mkWritten StatusInternalServerError
                (ErrorJSON "Failed to create listing"))).
Proof.
  split; [by intros e|]. split; [|split; [|split]].
  - intros b Hv. unfold CreatePublicUser, validUser in *.
    rewrite bool_decide_eq_true_2; [done|].
    by destruct (decide (CUB_Name b = "")).
  - intros b Hv. rewrite (CreatePublicUser_valid b Hv).
    split; [reflexivity|]. unfold value; simpl.
    split; [intros user Hu|intros user e Hu]; by rewrite Hu.
  - apply CreatePublicListing_invalid.
  - intros b Hv. rewrite (CreatePublicListing_valid b Hv).
    split; [reflexivity|]. unfold value; simpl.
    split; [intros l Hl|intros l e Hl]; by rewrite Hl.
Qed.

End Create.

(** ** The goroutines of the fan-out *)

Section FanOutFacts.

Import http handler fanout.

Variable h : PublicAPIHandler.

(** *** Sums over the goroutines *)

Lemma total_app f (l1 l2 : list (Z * TaskPC)) :
  total f (l1 ++ l2) = (total f l1 + total f l2)%nat.
Proof. apply sum_list_with_app. Qed.

Lemma total_cons f (t : Z * TaskPC) (l : list (Z * TaskPC)) :
  total f (t :: l) = (f t.2 + total f l)%nat.
Proof. reflexivity. Qed.

Lemma total_middle f (l1 l2 : list (Z * TaskPC)) id pc :
  total f (l1 ++ (id, pc) :: l2) = (total f l1 + f pc + total f l2)%nat.
Proof. rewrite total_app, total_cons. simpl. lia. Qed.

Lemma ids_middle (l1 l2 : list (Z * TaskPC)) id pc :
  (l1 ++ (id, pc) :: l2).*1 = l1.*1 ++ id :: l2.*1.
Proof. by rewrite fmap_app. Qed.

Lemma bind_middle {B} (g : Z * TaskPC → list B) (l1 l2 : list (Z * TaskPC)) t :
  (l1 ++ t :: l2) ≫= g = (l1 ≫= g) ++ g t ++ (l2 ≫= g).
Proof. by rewrite bind_app, bind_cons. Qed.

Lemma total_pos_split f (ts : list (Z * TaskPC)) :
  (0 < total f ts)%nat →
  ∃ l1 id pc l2, ts = l1 ++ (id, pc) :: l2 ∧ (0 < f pc)%nat.
Proof.
  induction ts as [|[id pc] ts IH]; [unfold total; simpl; lia|].
  rewrite total_cons. simpl. intros Hpos.
  destruct (decide (0 < f pc)%nat) as [Hf|Hf].
  - by exists [], id, pc, ts.
  - destruct IH as (l1 & id' & pc' & l2 & -> & Hpc); [lia|].
    by exists ((id, pc) :: l1), id', pc', l2.
Qed.

Lemma total_zero f (ts : list (Z * TaskPC)) :
  total f ts = 0%nat → Forall (λ t, f t.2 = 0%nat) ts.
Proof.
  induction ts as [|t ts IH]; [constructor|].
  rewrite total_cons. intros Hz. constructor; [lia|]. apply IH. lia.
Qed.

(** At most one goroutine counts when the sum is at most one. *)
Lemma total_le_one f (ts : list (Z * TaskPC)) i j t1 t2 :
  (total f ts ≤ 1)%nat →
  ts !! i = Some t1 → ts !! j = Some t2 →
  (0 < f t1.2)%nat → (0 < f t2.2)%nat → i = j.
Proof.
  intros Hle Hi Hj H1 H2.
  destruct (decide (i = j)) as [|Hne]; [done|]. exfalso.
  assert (∀ a b ta tb, (a < b)%nat → ts !! a = Some ta → ts !! b = Some tb →
            (0 < f ta.2)%nat → (0 < f tb.2)%nat → False) as Hlt.
  { clear -Hle. intros a b ta tb Hab Ha Hb Hfa Hfb.
    rewrite <- (take_drop_middle ts a ta Ha) in Hle, Hb.
    rewrite lookup_app_r in Hb by (rewrite length_take; lia).
    rewrite length_take_le in Hb
      by (apply Nat.lt_le_incl, (lookup_lt_Some _ _ _ Ha)).
    destruct (b - a)%nat as [|k] eqn:Hk; [lia|]. simpl in Hb.
    rewrite <- (take_drop_middle _ k tb Hb) in Hle.
    rewrite total_app, total_cons, total_app, total_cons in Hle. lia. }
  destruct (Nat.lt_total i j) as [Hij|[Hij|Hij]]; [|done|]; eauto.
Qed.


(** *** The invariant *)

Variable ids : gset Z.

Lemma inv_initial : inv h ids (initial ids).
Proof.
  constructor; simpl; try done.
  - constructor.
  - set_solver.
  - set_solver.
Qed.

Lemma task_ok_ext um um' (t : Z * TaskPC) :
  um' !! t.1 = um !! t.1 → task_ok h um t → task_ok h um' t.
Proof.
  destruct t as [id pc]. unfold task_ok. simpl. intros Heq.
  destruct pc; rewrite Heq; done.
Qed.

Lemma tasks_ok_ext um um' id (l : list (Z * TaskPC)) :
  (∀ x, x ≠ id → um' !! x = um !! x) →
  id ∉ l.*1 →
  Forall (task_ok h um) l → Forall (task_ok h um') l.
Proof.
  intros Hum Hid. rewrite !Forall_forall. intros Hl t Ht.
  apply (task_ok_ext um); [|by apply Hl].
  apply Hum. intros Heq. apply Hid. rewrite <- Heq.
  by apply list_elem_of_fmap_2.
Qed.

(** One statement of one goroutine keeps the invariant when it keeps
    its own part of it. *)
Lemma inv_task_update mn l1 l2 id pc pc' w w' (m m' : bool)
    um um' ch ch' cap cs cs' :
  inv h ids (mkState mn (l1 ++ (id, pc) :: l2) w m (mkFetched um ch) cap cs) →
  w' = w + Z.of_nat (running pc') - Z.of_nat (running pc) →
  (running pc' ≤ running pc)%nat →
  (holding pc' + (if m then 1 else 0) = holding pc + (if m' then 1 else 0))%nat →
  (∀ x, x ≠ id → um' !! x = um !! x) →
  task_ok h um' (id, pc') →
  (∃ d, ch' = ch ++ d ∧ sent h (id, pc') = sent h (id, pc) ++ d) →
  (∃ d, cs' = cs ++ (CallGetUserByID <$> d)
        ∧ called (id, pc') = called (id, pc) ++ d) →
  inv h ids (mkState mn (l1 ++ (id, pc') :: l2) w' m' (mkFetched um' ch') cap cs').
Proof.
  intros [Hnd Hcov Hfr Hst Hwg Hmu Hts Hout Hch Hcs Hcap Hj]
    -> Hrun Hhold Hum Hok (dch & -> & Hsent) (dcs & -> & Hcalled).
  simpl in *. rewrite ids_middle in *. rewrite total_middle in *.
  rewrite (bind_middle (sent h)) in Hch. rewrite (bind_middle called) in Hcs.
  apply NoDup_app in Hnd as Hnd'. destruct Hnd' as (_ & Hl1 & Hnd2).
  apply NoDup_cons in Hnd2 as [Hl2 _].
  apply Forall_app in Hts as [Hts1 Hts2].
  apply Forall_cons in Hts2 as [_ Hts2].
  constructor; simpl; rewrite ?ids_middle, ?total_middle, ?bind_middle;
    try done.
  - lia.
  - destruct m, m'; lia.
  - apply Forall_app. split.
    + apply (tasks_ok_ext um um' id); [done| |done].
      intros Hin. apply (Hl1 id Hin). left.
    + apply Forall_cons. split; [done|].
      by apply (tasks_ok_ext um um' id).
  - intros x Hx. rewrite Hum; [by apply Hout|].
    intros ->. apply Hx. set_solver.
  - rewrite Hsent, Hch. rewrite <- !app_assoc.
    apply Permutation_app_head, Permutation_app_head.
    apply Permutation_app_comm.
  - rewrite Hcalled, Hcs. rewrite !fmap_app, <- !app_assoc.
    apply Permutation_app_head, Permutation_app_head.
    apply Permutation_app_comm.
  - intros Hmn. specialize (Hj Hmn). subst mn. simpl in *. lia.
Qed.

Lemma inv_task_at mn l1 l2 id pc w m f cap cs :
  inv h ids (mkState mn (l1 ++ (id, pc) :: l2) w m f cap cs) →
  task_ok h (userMap f) (id, pc).
Proof.
  intros Hinv. pose proof (inv_tasks _ _ _ Hinv) as Hts. simpl in Hts.
  apply Forall_app in Hts as [_ Hts]. by apply Forall_cons in Hts as [? _].
Qed.

Ltac task_step Hinv :=
  eapply inv_task_update;
  [exact Hinv | unfold running; simpl; lia | unfold running; simpl; lia
  | unfold holding; simpl; done | done | ..].

Lemma inv_step s s' : inv h ids s → step h s s' → inv h ids s'.
Proof.
  intros Hinv Hstep. destruct Hstep.
  - (* wg.Add(1) *)
    destruct Hinv as [Hnd Hcov Hfr Hst Hwg Hmu Hts Hout Hch Hcs Hcap Hj].
    simpl in *. constructor; simpl; try done.
    + rewrite <- Hcov. f_equal. apply set_eq. intros x.
      destruct (decide (x = id)); set_solver.
    + intros x Hx. apply Hfr. set_solver.
    + intros todo' id' [= <- <-]. set_solver.
    + lia.
  - (* go func(id) *)
    destruct Hinv as [Hnd Hcov Hfr Hst Hwg Hmu Hts Hout Hch Hcs Hcap Hj].
    simpl in *. specialize (Hst todo id eq_refl).
    assert (id ∉ ts.*1) as Hid by (apply Hfr; set_solver).
    constructor; simpl; rewrite ?fmap_app, ?total_app, ?bind_app; simpl;
      try done.
    + apply NoDup_app. split; [done|]. split; [|apply NoDup_singleton].
      intros x Hx Hx'. apply list_elem_of_singleton in Hx' as ->. done.
    + rewrite <- Hcov. rewrite list_to_set_app_L. simpl. set_solver.
    + intros x Hx. rewrite elem_of_app, list_elem_of_singleton.
      intros [Hin| ->]; [|done]. apply (Hfr x); [set_solver|done].
    + lia.
    + lia.
    + apply Forall_app. split; [done|]. apply Forall_singleton.
      unfold task_ok; simpl. by apply Hout.
    + intros x Hx. apply Hout. set_solver.
    + by rewrite app_nil_r.
    + by rewrite app_nil_r.
  - (* the end of the range loop *)
    destruct Hinv as [Hnd Hcov Hfr Hst Hwg Hmu Hts Hout Hch Hcs Hcap Hj].
    simpl in *. constructor; simpl; done.
  - (* wg.Wait() *)
    destruct Hinv as [Hnd Hcov Hfr Hst Hwg Hmu Hts Hout Hch Hcs Hcap Hj].
    simpl in *. constructor; simpl; done.
  - (* GetUserByID: an error *)
    pose proof (inv_task_at _ _ _ _ _ _ _ _ _ _ Hinv) as Hok.
    destruct f as [um ch]. unfold task_ok in Hok; simpl in Hok.
    task_step Hinv.
    + unfold task_ok; simpl. exists e. unfold lookup. rewrite H.
      by destruct user.
    + exists []. by rewrite !app_nil_r.
    + exists [id]. done.
  - (* GetUserByID: a user *)
    pose proof (inv_task_at _ _ _ _ _ _ _ _ _ _ Hinv) as Hok.
    destruct f as [um ch]. unfold task_ok in Hok; simpl in Hok.
    task_step Hinv.
    + unfold task_ok; simpl. unfold lookup. by rewrite H.
    + exists []. by rewrite !app_nil_r.
    + exists [id]. done.
  - (* GetUserByID: nil, nil *)
    pose proof (inv_task_at _ _ _ _ _ _ _ _ _ _ Hinv) as Hok.
    destruct f as [um ch]. unfold task_ok in Hok; simpl in Hok.
    task_step Hinv.
    + unfold task_ok; simpl. unfold lookup. by rewrite H.
    + exists []. rewrite app_nil_r. split; [done|].
      unfold sent, failure, lookup; simpl. by rewrite H.
    + exists [id]. done.
  - (* errorsChan <- err *)
    pose proof (inv_task_at _ _ _ _ _ _ _ _ _ _ Hinv) as Hok.
    unfold task_ok in Hok; simpl in Hok. destruct Hok as (cause & Hl & -> & Hum).
    task_step Hinv.
    + unfold task_ok; simpl. by rewrite Hl.
    + eexists. split; [done|]. unfold sent, failure; simpl. by rewrite Hl.
    + exists []. by rewrite !app_nil_r.
  - (* mu.Lock() *)
    pose proof (inv_task_at _ _ _ _ _ _ _ _ _ _ Hinv) as Hok.
    destruct f as [um ch]. unfold task_ok in Hok; simpl in Hok.
    task_step Hinv.
    + done.
    + exists []. by rewrite !app_nil_r.
    + exists []. by rewrite !app_nil_r.
  - (* userMap[id] = user *)
    pose proof (inv_task_at _ _ _ _ _ _ _ _ _ _ Hinv) as Hok.
    unfold task_ok in Hok; simpl in Hok. destruct Hok as [Hl Hum].
    eapply inv_task_update;
      [exact Hinv | unfold running; simpl; lia | unfold running; simpl; lia
      | unfold holding; simpl; done
      | intros x Hx; by rewrite lookup_insert_ne | ..].
    + unfold task_ok; simpl. exists u. by rewrite lookup_insert_eq.
    + exists []. by rewrite !app_nil_r.
    + exists []. by rewrite !app_nil_r.
  - (* mu.Unlock() *)
    pose proof (inv_task_at _ _ _ _ _ _ _ _ _ _ Hinv) as Hok.
    destruct f as [um ch]. unfold task_ok in Hok; simpl in Hok.
    destruct Hok as (u & Hl & Hum).
    assert (m = true) as ->.
    { pose proof (inv_mu _ _ _ Hinv) as Hmu. simpl in Hmu.
      rewrite total_middle in Hmu. unfold holding at 2 in Hmu.
      simpl in Hmu. destruct m; [done|lia]. }
    task_step Hinv.
    + unfold task_ok; simpl. by rewrite Hl.
    + exists []. rewrite app_nil_r. split; [done|].
      unfold sent, failure; simpl. by rewrite Hl.
    + exists []. by rewrite !app_nil_r.
  - (* wg.Done() *)
    pose proof (inv_task_at _ _ _ _ _ _ _ _ _ _ Hinv) as Hok.
    destruct f as [um ch]. unfold task_ok in Hok; simpl in Hok.
    task_step Hinv.
    + done.
    + exists []. by rewrite !app_nil_r.
    + exists []. by rewrite !app_nil_r.
Qed.

Lemma inv_reachable s : reachable h ids s → inv h ids s.
Proof.
  unfold reachable. revert s.
  apply (rtc_ind_r (R := step h) (inv h ids)); [apply inv_initial|].
  intros x y _ Hstep Hx. by apply (inv_step x y).
Qed.

(** *** Every statement uses up fuel *)

Lemma step_fuel s s' : step h s s' → (fuel s' < fuel s)%nat.
Proof.
  intros Hstep. destruct Hstep; unfold fuel; simpl;
    rewrite ?total_middle, ?total_app; simpl; try lia.
  assert (size (todo ∖ {[id]}) = (size todo - 1)%nat) as ->.
  { rewrite size_difference by set_solver. by rewrite size_singleton. }
  assert (size todo ≠ 0%nat); [|lia].
  intros Hz. apply size_empty_inv in Hz. set_solver.
Qed.

Lemma nsteps_fuel n s s' : nsteps (step h) n s s' → (fuel s' + n ≤ fuel s)%nat.
Proof.
  induction 1 as [|n x y z Hxy _ IH]; [lia|].
  apply step_fuel in Hxy. lia.
Qed.

(** *** No goroutine is stuck for ever *)

Lemma tasks_length (s : State) :
  inv h ids s → (List.length (tasks s) ≤ size ids)%nat.
Proof.
  intros Hinv. rewrite <- (length_fmap fst).
  rewrite <- (size_list_to_set (C := gset Z)) by apply (inv_nodup _ _ _ Hinv).
  apply subseteq_size. rewrite <- (inv_cover _ _ _ Hinv). set_solver.
Qed.

Lemma sent_bound (ts : list (Z * TaskPC)) :
  (List.length (ts ≫= sent h)
   + total (λ pc, match pc with AtSend _ => 1 | _ => 0 end) ts
   ≤ List.length ts)%nat.
Proof.
  induction ts as [|[id pc] ts IH]; [done|].
  rewrite bind_cons, length_app, total_cons. simpl.
  assert (List.length (sent h (id, pc))
          + match pc with AtSend _ => 1 | _ => 0 end ≤ 1)%nat; [|lia].
  unfold sent, failure; simpl.
  destruct pc; simpl; try lia; destruct (lookup h id); simpl; lia.
Qed.

(** The buffer of [errorsChan] has room whenever a goroutine is about to
    send. *)
Lemma send_has_room mn l1 l2 id e w m f cap cs :
  inv h ids (mkState mn (l1 ++ (id, AtSend e) :: l2) w m f cap cs) →
  (List.length (errorsChan f) < cap)%nat.
Proof.
  intros Hinv. pose proof (tasks_length _ Hinv) as Hlen.
  pose proof (inv_chan _ _ _ Hinv) as Hch. pose proof (inv_cap _ _ _ Hinv) as Hcap.
  simpl in *. rewrite Hch, Hcap.
  pose proof (sent_bound (l1 ++ (id, AtSend e) :: l2)) as Hb.
  rewrite total_middle in Hb. lia.
Qed.

(** A goroutine that is not finished can run its next statement, unless
    it waits for the mutex. *)
Lemma task_can_step mn l1 l2 id pc w m f cap cs :
  inv h ids (mkState mn (l1 ++ (id, pc) :: l2) w m f cap cs) →
  is_finished pc = false →
  (∀ u, pc = AtLock u → m = false) →
  ∃ s', step h (mkState mn (l1 ++ (id, pc) :: l2) w m f cap cs) s'.
Proof.
  intros Hinv Hfin Hlock. destruct pc as [|e|u|u| | |]; [..|done].
  - destruct (client.GetUserByID (userServiceClient h) id) as [[u|] [e|]] eqn:Hg;
      eexists.
    + by eapply step_call_err.
    + by eapply step_call_found.
    + by eapply step_call_err.
    + by eapply step_call_nil.
  - pose proof (send_has_room _ _ _ _ _ _ _ _ _ _ Hinv) as Hroom.
    destruct f as [um ch]. eexists. by eapply step_send.
  - rewrite (Hlock u eq_refl). eexists. eapply step_lock.
  - destruct f as [um ch]. eexists. eapply step_write.
  - eexists. eapply step_unlock.
  - eexists. eapply step_done.
Qed.

Lemma progress (s : State) :
  inv h ids s → main s ≠ Joined → ∃ s', step h s s'.
Proof.
  intros Hinv Hmain. destruct s as [mn ts w m f cap cs]. simpl in Hmain.
  destruct mn as [todo|todo id| |]; [| | |done].
  - destruct (decide (todo = ∅)) as [->|Hne].
    + eexists. apply step_range_end.
    + apply set_choose_L in Hne as [id Hid]. eexists. by apply step_add.
  - eexists. apply step_go.
  - destruct (decide (w = 0)) as [->|Hw].
    { eexists. apply step_wait. }
    pose proof (inv_wg _ _ _ Hinv) as Hwg. simpl in Hwg.
    destruct (total_pos_split running ts) as (l1 & id & pc & l2 & -> & Hrun);
      [lia|].
    assert (is_finished pc = false) as Hfin.
    { unfold running in Hrun. destruct (is_finished pc); [lia|done]. }
    destruct m.
    + pose proof (inv_mu _ _ _ Hinv) as Hmu. simpl in Hmu.
      destruct (total_pos_split holding (l1 ++ (id, pc) :: l2))
        as (k1 & id' & pc' & k2 & Heq & Hhold); [lia|].
      rewrite Heq in Hinv |- *.
      apply (task_can_step _ _ _ _ _ _ _ _ _ _ Hinv).
      * unfold holding in Hhold. destruct pc'; simpl in *; done || lia.
      * intros u ->. unfold holding in Hhold. simpl in Hhold. lia.
    + by apply (task_can_step _ _ _ _ _ _ _ _ _ _ Hinv).
Qed.

(** From every state of the fan-out the main goroutine can get past
    [wg.Wait()]. *)
Lemma can_join (s : State) :
  inv h ids s → ∃ s', rtc (step h) s s' ∧ main s' = Joined.
Proof.
  remember (fuel s) as n eqn:Hn. revert s Hn.
  induction n as [n IH] using lt_wf_ind. intros s -> Hinv.
  assert (main s = Joined ∨ main s ≠ Joined) as [Hj|Hj].
  { destruct (main s); auto. }
  - exists s. by split.
  - destruct (progress s Hinv Hj) as [s1 Hs1].
    destruct (IH (fuel s1) (step_fuel _ _ Hs1) s1 eq_refl) as (s' & Hr & Hj').
    + by apply (inv_step s).
    + exists s'. split; [|done]. by eapply rtc_l.
Qed.

(** *** Mutual exclusion *)

Lemma mutex_exclusive (s : State) i j t1 t2 :
  inv h ids s →
  tasks s !! i = Some t1 → tasks s !! j = Some t2 →
  in_critical t1.2 = true → in_critical t2.2 = true →
  i = j ∧ mu s = true.
Proof.
  intros Hinv Hi Hj H1 H2. pose proof (inv_mu _ _ _ Hinv) as Hmu. split.
  - apply (total_le_one holding (tasks s) i j t1 t2); try done.
    + destruct (mu s); lia.
    + unfold holding. rewrite H1. lia.
    + unfold holding. rewrite H2. lia.
  - destruct (mu s); [done|]. apply total_zero in Hmu.
    rewrite Forall_forall in Hmu.
    specialize (Hmu t1 (list_elem_of_lookup_2 _ _ _ Hi)).
    unfold holding in Hmu. rewrite H1 in Hmu. lia.
Qed.

(** *** The state after [wg.Wait()] *)

Lemma fetchUsers_errorsChan (l : list Z) (st : Fetched) :
  errorsChan (value (fetchUsers h l st)) = errorsChan st ++ (l ≫= failure h).
Proof.
  revert st. induction l as [|id l IH]; intros st.
  - simpl. by rewrite app_nil_r.
  - rewrite bind_cons, fetchUsers_cons. unfold value at 1; simpl.
    rewrite IH, fetchUser_value. unfold failure at 2.
    destruct (lookup h id); simpl; by rewrite <- ?app_assoc.
Qed.

Lemma finished_sent (ts : list (Z * TaskPC)) :
  Forall (λ t, t.2 = Finished) ts → ts ≫= sent h = ts.*1 ≫= failure h.
Proof.
  induction 1 as [|[id pc] ts Hpc _ IH]; [done|].
  simpl in Hpc. subst pc. rewrite fmap_cons, !bind_cons, IH. done.
Qed.

Lemma finished_called (ts : list (Z * TaskPC)) :
  Forall (λ t, t.2 = Finished) ts → ts ≫= called = ts.*1.
Proof.
  induction 1 as [|[id pc] ts Hpc _ IH]; [done|].
  simpl in Hpc. subst pc. rewrite fmap_cons, !bind_cons, IH. done.
Qed.

Lemma joined_state (s : State) :
  inv h ids s → main s = Joined →
  Forall (λ t, t.2 = Finished) (tasks s)
  ∧ (tasks s).*1 ≡ₚ elements ids
  ∧ userMap (shared s) = userMap (resolve h ids)
  ∧ errorsChan (shared s) ≡ₚ errorsChan (resolve h ids)
  ∧ issued s ≡ₚ CallGetUserByID <$> elements ids.
Proof.
  intros Hinv Hj.
  pose proof (inv_wg _ _ _ Hinv) as Hwg. rewrite (inv_joined _ _ _ Hinv Hj) in Hwg.
  pose proof (inv_cover _ _ _ Hinv) as Hcov. rewrite Hj in Hwg, Hcov.
  simpl in Hwg, Hcov.
  assert (Forall (λ t, t.2 = Finished) (tasks s)) as Hfin.
  { assert (total running (tasks s) = 0%nat) as Hz by lia.
    apply total_zero in Hz. eapply Forall_impl; [exact Hz|].
    intros [id pc]; simpl. unfold running. destruct pc; simpl; done || lia. }
  assert ((tasks s).*1 ≡ₚ elements ids) as Hperm.
  { apply NoDup_Permutation; [apply (inv_nodup _ _ _ Hinv)|apply NoDup_elements|].
    intros id. rewrite elem_of_elements, <- Hcov. set_solver. }
  split; [done|]. split; [done|]. split; [|split].
  - apply map_eq. intros id. rewrite resolve_lookup.
    case_bool_decide as Hid.
    + rewrite <- Hcov in Hid. apply elem_of_union in Hid as [Hid|Hid]; [|set_solver].
      apply elem_of_list_to_set, list_elem_of_fmap in Hid as ([id' pc] & -> & Ht).
      pose proof (inv_tasks _ _ _ Hinv) as Hts. rewrite Forall_forall in Hts, Hfin.
      specialize (Hts _ Ht). specialize (Hfin _ Ht). simpl in Hfin. subst pc.
      exact Hts.
    + apply (inv_outside _ _ _ Hinv). intros Hin. apply Hid.
      rewrite <- Hcov. set_solver.
  - rewrite (inv_chan _ _ _ Hinv), (finished_sent _ Hfin), Hperm.
    unfold resolve. by rewrite fetchUsers_errorsChan.
  - rewrite (inv_calls _ _ _ Hinv), (finished_called _ Hfin). by rewrite Hperm.
Qed.
End FanOutFacts.

(** ** A run of the small deployment *)

Section DemoRun.

Import http handler fanout demo.

Lemma refs3_page3 : uniqueUserIDs page3 = refs3.
Proof. rewrite uniqueUserIDs_spec. unfold refs3. simpl. set_solver. Qed.

Lemma lookup_5 :
  client.GetUserByID (userServiceClient gateway3) 5 = (Some userA, None).
Proof. reflexivity. Qed.

Lemma lookup_9 :
  client.GetUserByID (userServiceClient gateway3) 9 = (None, Some refused).
Proof. reflexivity. Qed.

Lemma joined3_reachable : reachable gateway3 (uniqueUserIDs page3) joined3.
Proof.
  rewrite refs3_page3. unfold reachable, initial, joined3.
  assert (refs3 ∖ {[5]} ∖ {[9]} = ∅) as Hdone by (unfold refs3; set_solver).
  eapply rtc_l; [apply (step_add gateway3 refs3 _ _ _ _ _ _ 5); unfold refs3; set_solver|].
  eapply rtc_l; [apply step_go|].
  eapply rtc_l; [apply (step_add gateway3 _ _ _ _ _ _ _ 9); unfold refs3; set_solver|].
  eapply rtc_l; [apply step_go|].
  rewrite Hdone.
  eapply rtc_l; [apply step_range_end|]. simpl.
  eapply rtc_l; [eapply (step_call_found gateway3 _ [] [(9, AtCall)]), lookup_5|].
  eapply rtc_l; [eapply (step_call_err gateway3 _ [(5, AtLock userA)] []), lookup_9|].
  eapply rtc_l; [apply (step_lock gateway3 _ [] [(9, AtSend _)])|].
  eapply rtc_l; [apply (step_write gateway3 _ [] [(9, AtSend _)])|].
  eapply rtc_l; [apply (step_unlock gateway3 _ [] [(9, AtSend _)])|].
  eapply rtc_l; [apply (step_done gateway3 _ [] [(9, AtSend _)])|].
  eapply rtc_l; [apply (step_send gateway3 _ [(5, Finished)] []); vm_compute; lia|].
  eapply rtc_l; [apply (step_done gateway3 _ [(5, Finished)] [])|].
  eapply rtc_l; [apply step_wait|].
  apply rtc_refl.
Qed.

End DemoRun.

(** ** All lookups in flight at once *)

Section InFlight.

Import http handler fanout.

Variable h : PublicAPIHandler.

Lemma after_call_unfinished (id : Z) : is_finished (after_call h id) = false.
Proof.
  unfold after_call. by destruct (client.GetUserByID _ id) as [[u|] [e|]].
Qed.

Lemma step_call mn l1 l2 w m f cap cs id :
  step h (mkState mn (l1 ++ (id, AtCall) :: l2) w m f cap cs)
         (mkState mn (l1 ++ (id, after_call h id) :: l2) w m f cap
                  (cs ++ [CallGetUserByID id])).
Proof.
  unfold after_call.
  destruct (client.GetUserByID (userServiceClient h) id) as [[u|] [e|]] eqn:Hg.
  - by eapply step_call_err.
  - by eapply step_call_found.
  - by eapply step_call_err.
  - by eapply step_call_nil.
Qed.

(** A goroutine that is not finished runs its next statement whatever
    the other goroutines and the main goroutine are doing; only a held
    mutex makes it wait.  The step changes its own place only. *)
Lemma task_steps_alone (ids : gset Z) (s : State) (i : nat) (id : Z) (pc : TaskPC) :
  inv h ids s →
  tasks s !! i = Some (id, pc) →
  is_finished pc = false →
  (∀ u, pc = AtLock u → mu s = false) →
  ∃ s' pc', step h s s' ∧ pc' ≠ pc
            ∧ tasks s' = <[i := (id, pc')]> (tasks s)
            ∧ main s' = main s.
Proof.
  intros Hinv Hi Hfin Hlock.
  destruct (list_elem_of_split_length _ _ _ Hi) as (l1 & l2 & Hts & Hlen).
  destruct s as [mn ts w m f cap cs]. simpl in *. subst ts.
  assert (∀ pc', <[i := (id, pc')]> (l1 ++ (id, pc) :: l2)
                 = l1 ++ (id, pc') :: l2) as Hins.
  { intros pc'. subst i. rewrite <- (Nat.add_0_r (List.length l1)).
    by rewrite insert_app_r. }
  destruct pc as [|e|u|u| | |]; [..|done].
  - exists (mkState mn (l1 ++ (id, after_call h id) :: l2) w m f cap
              (cs ++ [CallGetUserByID id])), (after_call h id).
    split; [apply step_call|]. split; [|by rewrite Hins].
    unfold after_call. by destruct (client.GetUserByID _ id) as [[?|] [?|]].
  - pose proof (send_has_room _ _ _ _ _ _ _ _ _ _ _ _ Hinv) as Hroom.
    destruct f as [um ch]. eexists _, AtDefer.
    split; [by eapply step_send|]. split; [done|]. by rewrite Hins.
  - rewrite (Hlock u eq_refl). eexists _, (AtWrite u).
    split; [eapply step_lock|]. split; [done|]. by rewrite Hins.
  - destruct f as [um ch]. eexists _, AtUnlock.
    split; [eapply step_write|]. split; [done|]. by rewrite Hins.
  - eexists _, AtDefer.
    split; [eapply step_unlock|]. split; [done|]. by rewrite Hins.
  - eexists _, Finished.
    split; [eapply step_done|]. split; [done|]. by rewrite Hins.
Qed.

(** The main goroutine starts the next goroutine without waiting for the
    ones it has started. *)
Lemma main_starts_alongside (s : State) (todo : gset Z) (id : Z) :
  main s = Spawning todo → id ∈ todo →
  ∃ s1 s2, step h s s1 ∧ step h s1 s2
           ∧ tasks s2 = tasks s ++ [(id, AtCall)]
           ∧ main s2 = Spawning (todo ∖ {[id]}).
Proof.
  intros Hm Hid. destruct s as [mn ts w m f cap cs]. simpl in *. subst mn.
  eexists _, _. split; [by apply step_add|]. split; [apply step_go|]. done.
Qed.

(** The main goroutine can start a goroutine for every reference before
    any of them runs. *)
Lemma start_all (l : list Z) ts w m f cap cs :
  NoDup l →
  rtc (step h)
    (mkState (Spawning (list_to_set l)) ts w m f cap cs)
    (mkState (Spawning ∅) (ts ++ ((λ id, (id, AtCall)) <$> l))
       (w + Z.of_nat (List.length l)) m f cap cs).
Proof.
  intros Hnd. revert ts w. induction Hnd as [|id l Hid Hnd IH]; intros ts w.
  - simpl. rewrite app_nil_r, Z.add_0_r. apply rtc_refl.
  - eapply rtc_l.
    { apply (step_add h _ ts w m f cap cs id). set_solver. }
    assert ((list_to_set (id :: l) : gset Z) ∖ {[id]} = list_to_set l) as ->.
    { rewrite list_to_set_cons. apply set_eq. intros x.
      rewrite elem_of_difference, elem_of_union, elem_of_singleton,
        elem_of_list_to_set.
      split; [by intros [[->|] ?]|]. intros Hx. split; [by right|].
      intros ->. done. }
    eapply rtc_l; [apply step_go|].
    replace (ts ++ ((λ id0, (id0, AtCall)) <$> id :: l))
      with ((ts ++ [(id, AtCall)]) ++ ((λ id0, (id0, AtCall)) <$> l))
      by (by rewrite <- app_assoc).
    replace (w + Z.of_nat (List.length (id :: l)))
      with (w + 1 + Z.of_nat (List.length l)) by (simpl; lia).
    apply IH.
Qed.

(** Every started goroutine can make its call before any other goes
    on. *)
Lemma call_all (l : list Z) mn ts w m f cap cs :
  rtc (step h)
    (mkState mn (ts ++ ((λ id, (id, AtCall)) <$> l)) w m f cap cs)
    (mkState mn (ts ++ ((λ id, (id, after_call h id)) <$> l)) w m f cap
       (cs ++ (CallGetUserByID <$> l))).
Proof.
  revert ts cs. induction l as [|id l IH]; intros ts cs.
  - simpl. rewrite !app_nil_r. apply rtc_refl.
  - rewrite !fmap_cons. eapply rtc_l; [apply step_call|].
    specialize (IH (ts ++ [(id, after_call h id)]) (cs ++ [CallGetUserByID id])).
    rewrite <- !app_assoc in IH. exact IH.
Qed.

(** A state of the fan-out in which every distinct reference has its
    goroutine, every lookup has been called and no goroutine has
    finished. *)
Lemma all_in_flight (ids : gset Z) :
  ∃ s, reachable h ids s
       ∧ main s = Waiting
       ∧ (tasks s).*1 = elements ids
       ∧ Forall (λ t, is_finished t.2 = false) (tasks s)
       ∧ issued s = CallGetUserByID <$> elements ids
       ∧ wg s = Z.of_nat (size ids)
       ∧ userMap (shared s) = ∅.
Proof.
  eexists. split; [|split; [|split; [|split; [|split; [|split]]]]];
    [unfold reachable, initial| | | | | |].
  - eapply rtc_trans.
    { rewrite <- (list_to_set_elements_L ids) at 1.
      apply (start_all (elements ids) [] 0 false _ (size ids) []).
      apply NoDup_elements. }
    eapply rtc_l; [apply step_range_end|].
    apply (call_all (elements ids) Waiting [] _ false _ (size ids) []).
  - reflexivity.
  - simpl. rewrite <- list_fmap_compose. apply list_fmap_id.
  - simpl. apply Forall_fmap, Forall_forall. intros id _. simpl.
    apply after_call_unfinished.
  - reflexivity.
  - simpl. unfold size, set_size. simpl. lia.
  - reflexivity.
Qed.

End InFlight.

(** ** The fan-out of step 3, over all schedules *)

Section FanOut.

Import http handler fanout.

Variable h : PublicAPIHandler.

(** Only the statement between [mu.Lock()] and [mu.Unlock()] changes
    [userMap], and it adds the entry of its own reference. *)
Lemma step_userMap (s s' : State) :
  step h s s' →
  userMap (shared s') = userMap (shared s)
  ∨ ∃ i id u, tasks s !! i = Some (id, AtWrite u)
              ∧ userMap (shared s') = <[id := u]> (userMap (shared s)).
Proof.
  intros Hstep. destruct Hstep; simpl; auto.
  right. exists (List.length l1), id, u. split; [|done].
  by rewrite list_lookup_middle.
Qed.

(** C7: the fan-out starts one goroutine per distinct user reference;
    [wg.Wait()] returns only when every one of them has finished, whatever
    the lookups returned, and until then some goroutine can always run;
    the goroutines between [mu.Lock()] and [mu.Unlock()] exclude each
    other, [userMap] is written only there, and after the join it holds
    the entry of every reference that was found.  The lookups run
    concurrently: an unfinished goroutine runs its next statement wherever
    the others stand (only a held mutex makes it wait), the main goroutine
    starts the next goroutine without waiting for the ones started, and
    there is a state of the fan-out in which every distinct reference has
    its goroutine, every lookup has been called and none has finished. *)
Theorem fan_out_joins_every_lookup (ls : list client.Listing) (s : State) :
  reachable h (uniqueUserIDs ls) s →
  NoDup (tasks s).*1
  ∧ (∀ id, id ∈ (tasks s).*1 → id ∈ uniqueUserIDs ls)
  ∧ (∀ i j t1 t2,
       tasks s !! i = Some t1 → tasks s !! j = Some t2 →
       in_critical t1.2 = true → in_critical t2.2 = true →
       i = j ∧ mu s = true)
  ∧ (∀ s', step h s s' →
       userMap (shared s') = userMap (shared s)
       ∨ ∃ i id u, tasks s !! i = Some (id, AtWrite u)
                   ∧ mu s = true
                   ∧ userMap (shared s') = <[id := u]> (userMap (shared s)))
  ∧ (main s ≠ Joined → ∃ s', step h s s')
  ∧ (∀ n s', nsteps (step h) n s s' → (n ≤ fuel s)%nat)
  ∧ (∃ s', rtc (step h) s s' ∧ main s' = Joined)
  ∧ (main s = Joined →
       (tasks s).*1 ≡ₚ elements (uniqueUserIDs ls)
       ∧ Forall (λ t, t.2 = Finished) (tasks s)
       ∧ userMap (shared s) = userMap (resolve h (uniqueUserIDs ls))
       ∧ ∀ id, id ∈ uniqueUserIDs ls →
           userMap (shared s) !! id = stored (lookup h id))
  ∧ (∀ i id pc,
       tasks s !! i = Some (id, pc) → is_finished pc = false →
       (∀ u, pc = AtLock u → mu s = false) →
       ∃ s' pc', step h s s' ∧ pc' ≠ pc
                 ∧ tasks s' = <[i := (id, pc')]> (tasks s)
                 ∧ main s' = main s)
  ∧ (∀ todo id,
       main s = Spawning todo → id ∈ todo →
       ∃ s1 s2, step h s s1 ∧ step h s1 s2
                ∧ tasks s2 = tasks s ++ [(id, AtCall)]
                ∧ main s2 = Spawning (todo ∖ {[id]}))
  ∧ (∃ s1, reachable h (uniqueUserIDs ls) s1
           ∧ main s1 = Waiting
           ∧ (tasks s1).*1 = elements (uniqueUserIDs ls)
           ∧ Forall (λ t, is_finished t.2 = false) (tasks s1)
           ∧ issued s1 = CallGetUserByID <$> elements (uniqueUserIDs ls)
           ∧ wg s1 = Z.of_nat (size (uniqueUserIDs ls))
           ∧ userMap (shared s1) = ∅).
Proof.
  intros Hr. pose proof (inv_reachable h _ s Hr) as Hinv.
  split; [apply (inv_nodup _ _ _ Hinv)|].
  split.
  { intros id Hid. rewrite <- (inv_cover _ _ _ Hinv). set_solver. }
  split.
  { intros i j t1 t2. by apply (mutex_exclusive h (uniqueUserIDs ls)). }
  split.
  { intros s' Hstep. destruct (step_userMap s s' Hstep) as [|(i & id & u & Hi & Hu)];
      [by left|right].
    exists i, id, u. split; [done|]. split; [|done].
    by apply (mutex_exclusive h (uniqueUserIDs ls) s i i (id, AtWrite u) (id, AtWrite u)). }
  split; [by apply (progress h (uniqueUserIDs ls))|].
  split.
  { intros n s' Hn. apply (nsteps_fuel h) in Hn. lia. }
  split; [by apply (can_join h (uniqueUserIDs ls))|].
  split.
  { intros Hj.
    destruct (joined_state h _ s Hinv Hj) as (Hfin & Hperm & Hum & _ & _).
    split; [done|]. split; [done|]. split; [done|].
    intros id Hid. rewrite Hum, resolve_lookup. by rewrite bool_decide_eq_true_2. }
  split.
  { intros i id pc. by apply (task_steps_alone h (uniqueUserIDs ls)). }
  split; [by apply main_starts_alongside|].
  apply all_in_flight.
Qed.

(** C3, as the code has it: after all lookup goroutines have finished,
    [userMap] has an entry exactly for the distinct references of the page
    whose lookup found a user, and the entry is that user; a reference
    that was not found or whose lookup failed has no entry (a failed
    lookup has put its error on the channel instead). *)
Theorem joined_map_holds_the_found_users (ls : list client.Listing) (s : State) :
  reachable h (uniqueUserIDs ls) s →
  main s = Joined →
  (∀ id, userMap (shared s) !! id
         = if bool_decide (id ∈ uniqueUserIDs ls)
           then match lookup h id with
                | Found u => Some u
                | NotFound | LookupFailed _ => None
                end
           else None)
  ∧ (∀ id, id ∈ dom (userMap (shared s))
           ↔ (∃ l, l ∈ ls ∧ client.Listing_UserID l = id)
             ∧ ∃ u, lookup h id = Found u)
  ∧ errorsChan (shared s) ≡ₚ elements (uniqueUserIDs ls) ≫= failure h
  ∧ userMap (shared s) = userMap (resolve h (uniqueUserIDs ls)).
Proof.
  intros Hr Hj. pose proof (inv_reachable h _ s Hr) as Hinv.
  destruct (joined_state h _ s Hinv Hj) as (_ & _ & Hum & Hch & _).
  assert (∀ id, userMap (shared s) !! id
                = if bool_decide (id ∈ uniqueUserIDs ls)
                  then match lookup h id with
                       | Found u => Some u
                       | NotFound | LookupFailed _ => None
                       end
                  else None) as Hlk.
  { intros id. rewrite Hum, resolve_lookup. done. }
  split; [done|]. split; [|split; [|done]].
  - intros id. rewrite elem_of_dom, Hlk, <- elem_of_uniqueUserIDs.
    case_bool_decide as Hid.
    + destruct (lookup h id) as [u| |e]; split.
      * eauto.
      * intros _. by eexists.
      * intros [? [=]].
      * intros [_ [? [=]]].
      * intros [? [=]].
      * intros [_ [? [=]]].
    + split; [intros [? [=]]|]. by intros [? _].
  - rewrite Hch. unfold resolve. by rewrite fetchUsers_errorsChan.
Qed.

End FanOut.

(** ** The properties on the small deployment *)

Section Examples.

Import http handler fanout demo.

Lemma merge_keeps_the_page_example :
  fetchPage gateway3 noQuery = (page3, None)
  ∧ ∃ out,
      value (GetPublicListings gateway3 noQuery)
      = mkWritten StatusOK
          (ListingsJSON (mkPublicListingsResponse true (Some out) ""))
      ∧ List.length out = 3%nat
      ∧ PL_ID <$> out = [1; 2; 3].
Proof.
  split; [reflexivity|].
  destruct (merge_keeps_the_page gateway3 noQuery page3 eq_refl)
    as (out & Hv & Hlen & Hpos).
  exists out. split; [exact Hv|]. split; [exact Hlen|].
  destruct (Hpos 0%nat l1 eq_refl) as (p0 & H0 & E0 & _).
  destruct (Hpos 1%nat l2 eq_refl) as (p1 & H1 & E1 & _).
  destruct (Hpos 2%nat l3 eq_refl) as (p2 & H2 & E2 & _).
  destruct out as [|q0 [|q1 [|q2 [|q3 out]]]]; try discriminate Hlen.
  simpl in *. congruence.
Defined.

Lemma lookups_never_fail_the_request_example :
  fetchPage gateway4 noQuery = (page4, None)
  ∧ lookup gateway4 5 = Found userA
  ∧ lookup gateway4 9 = LookupFailed refused
  ∧ lookup gateway4 7 = NotFound
  ∧ ∃ out,
      value (GetPublicListings gateway4 noQuery)
      = mkWritten StatusOK
          (ListingsJSON (mkPublicListingsResponse true (Some out) ""))
      ∧ (∃ p, out !! 0%nat = Some p ∧ PL_User p = Some userA)
      ∧ (∃ p, out !! 2%nat = Some p ∧ PL_User p = None)
      ∧ (∃ p, out !! 3%nat = Some p ∧ PL_User p = None).
Proof.
  split; [reflexivity|]. do 3 (split; [reflexivity|]).
  destruct (lookups_never_fail_the_request gateway4 noQuery page4 eq_refl)
    as (out & Hv & Hpos).
  exists out. split; [exact Hv|]. split; [|split].
  - exact (Hpos 0%nat l1 eq_refl).
  - exact (Hpos 2%nat l3 eq_refl).
  - exact (Hpos 3%nat l4 eq_refl).
Defined.

Lemma one_lookup_per_distinct_reference_example :
  fetchPage gateway3 noQuery = (page3, None)
  ∧ List.length (lookups (calls (GetPublicListings gateway3 noQuery))) = 2%nat.
Proof.
  split; [reflexivity|].
  exact (proj1 (proj2 (proj2
           (one_lookup_per_distinct_reference gateway3 noQuery page3 eq_refl)))).
Defined.

Lemma failed_fetch_fails_the_request_example :
  fetchPage (gateway (inl "timeout")) noQuery
  = ([], Some "failed to send request to Listing Service: timeout")
  ∧ ∃ r,
      value (GetPublicListings (gateway (inl "timeout")) noQuery)
      = mkWritten StatusInternalServerError (ListingsJSON r)
      ∧ Result r = false ∧ Error r ≠ "" ∧ Listings r = None
      ∧ lookups (calls (GetPublicListings (gateway (inl "timeout")) noQuery)) = [].
Proof.
  split; [reflexivity|].
  exact (failed_fetch_fails_the_request (gateway (inl "timeout")) noQuery [] _
           eq_refl).
Defined.

Lemma empty_page_is_a_success_example :
  fetchPage (gateway (pageOK [])) noQuery = ([], None)
  ∧ value (GetPublicListings (gateway (pageOK [])) noQuery)
    = mkWritten StatusOK
        (ListingsJSON (mkPublicListingsResponse true (Some []) ""))
  ∧ lookups (calls (GetPublicListings (gateway (pageOK [])) noQuery)) = [].
Proof.
  split; [reflexivity|].
  exact (empty_page_is_a_success (gateway (pageOK [])) noQuery eq_refl).
Defined.

Lemma fan_out_joins_every_lookup_example :
  reachable gateway3 (uniqueUserIDs page3) joined3
  ∧ userMap (shared joined3)
    = userMap (resolve gateway3 (uniqueUserIDs page3))
  ∧ ∃ s1, reachable gateway3 (uniqueUserIDs page3) s1
          ∧ main s1 = Waiting
          ∧ (tasks s1).*1 = [9; 5]
          ∧ Forall (λ t, is_finished t.2 = false) (tasks s1)
          ∧ issued s1 = [CallGetUserByID 9; CallGetUserByID 5]
          ∧ wg s1 = 2.
Proof.
  split; [exact joined3_reachable|].
  destruct (fan_out_joins_every_lookup gateway3 page3 joined3 joined3_reachable)
    as (_ & _ & _ & _ & _ & _ & _ & Hj & _ & _ & s1 & Hr & Hm & Ht & Hu & Hc & Hw & _).
  split; [exact (proj1 (proj2 (proj2 (Hj eq_refl))))|].
  exists s1. split; [exact Hr|]. split; [exact Hm|].
  split; [by rewrite Ht|]. split; [exact Hu|]. split; [by rewrite Hc|].
  by rewrite Hw.
Defined.

Lemma joined_map_holds_the_found_users_example :
  reachable gateway3 (uniqueUserIDs page3) joined3
  ∧ main joined3 = Joined
  ∧ (∀ id, id ∈ dom (userMap (shared joined3))
           ↔ (∃ l, l ∈ page3 ∧ client.Listing_UserID l = id)
             ∧ ∃ u, lookup gateway3 id = Found u).
Proof.
  split; [exact joined3_reachable|]. split; [reflexivity|].
  exact (proj1 (proj2 (joined_map_holds_the_found_users gateway3 page3 joined3
                         joined3_reachable eq_refl))).
Defined.

(** C3 as the specification words it fails: reference 9 is a user
    reference of the page, its lookup fails, and after the join [userMap]
    has no entry for it. *)
Lemma joined_map_misses_the_failed_reference :
  reachable gateway3 (uniqueUserIDs page3) joined3
  ∧ main joined3 = Joined
  ∧ 9 ∈ uniqueUserIDs page3
  ∧ lookup gateway3 9 = LookupFailed refused
  ∧ userMap (shared joined3) !! 9 = None
  ∧ dom (userMap (shared joined3)) ≠ uniqueUserIDs page3.
Proof.
  split; [exact joined3_reachable|]. split; [reflexivity|].
  assert (9 ∈ uniqueUserIDs page3) as Hin.
  { rewrite refs3_page3. unfold refs3. set_solver. }
  assert (userMap (shared joined3) !! 9 = None) as Hnone.
  { simpl. by rewrite lookup_insert_ne. }
  split; [done|]. split; [reflexivity|]. split; [done|].
  intros Heq. rewrite <- Heq in Hin. apply elem_of_dom in Hin as [u Hu].
  rewrite Hnone in Hu. discriminate.
Qed.

(** C8 as the specification words it fails: on valid input the result
    of an upstream create call that fails is not returned as it is.  Two
    different failures of the Listing Service, and a failure of the User
    Service, are each answered with status 500 and a fixed text that is
    not the error of the call. *)
Lemma create_failure_is_not_passed_on :
  let b := mkCreateListingBody 5 "rent" 4500 in
  validListing b
  ∧ client.CreateListing (listingServiceClient (gateway down)) 5 "rent" 4500
    = (None, Some "failed to send request to Listing Service: connection refused")
  ∧ client.CreateListing (listingServiceClient (gateway rejected)) 5 "rent" 4500
    = (None, Some "Listing Service reported error: user not found")
  ∧ CreatePublicListing (gateway down) (inr b)
    = ([CallCreateListing 5 "rent" 4500],
       mkWritten StatusInternalServerError (ErrorJSON "Failed to create listing"))
  ∧ CreatePublicListing (gateway rejected) (inr b)
    = CreatePublicListing (gateway down) (inr b)
  ∧ validUser (mkCreateUserBody "A")
  ∧ client.CreateUser (userServiceClient (gateway down)) "A"
    = (None, Some "failed to send request to User Service: connection refused")
  ∧ CreatePublicUser (gateway down) (inr (mkCreateUserBody "A"))
    = ([CallCreateUser "A"],
       mkWritten StatusInternalServerError (ErrorJSON "Failed to create user")).
Proof.
  intros b. split; [repeat split; simpl; eauto; lia|].
  split; [reflexivity|]. split; [reflexivity|]. split; [reflexivity|].
  split; [reflexivity|]. split; [done|]. split; reflexivity.
Qed.

End Examples.

(** * More of the code *)

(** ** strconv: ranges and the round trip of [ParseInt] *)

Section StrconvMore.

Import strconv.

Lemma digit_of_range (ch : ascii) (d : Z) : digit_of ch = Some d → 0 ≤ d ≤ 9.
Proof.
  unfold digit_of. case_bool_decide; [|done]. by intros [= <-].
Qed.

Lemma digits_bound (s : string) (acc n : Z) :
  digits s acc = Some n → 0 ≤ acc →
  acc * 10 ^ Z.of_nat (String.length s) ≤ n
  < (acc + 1) * 10 ^ Z.of_nat (String.length s).
Proof.
  revert acc. induction s as [|ch s IH]; intros acc Hd Hacc.
  - simpl in *. injection Hd as <-. lia.
  - simpl in Hd. destruct (digit_of ch) as [d|] eqn:Hch; [|done].
    apply digit_of_range in Hch.
    specialize (IH _ Hd ltac:(lia)).
    change (String.length (String ch s)) with (S (String.length s)).
    rewrite Nat2Z.inj_succ, Z.pow_succ_r by lia.
    assert (0 < 10 ^ Z.of_nat (String.length s)) by (apply Z.pow_pos_nonneg; lia).
    nia.
Qed.

(** What [Atoi] returns without an error fits [int]. *)
Lemma Atoi_range (s : string) (n : Z) :
  Atoi s = Some n → minInt ≤ n ≤ maxInt.
Proof.
  unfold Atoi, minInt, maxInt, intSize.
  destruct (bool_decide (0 < _) && bool_decide (_ < 19)) eqn:Hfast.
  - apply andb_true_iff in Hfast as [_ Hlen]. apply bool_decide_eq_true in Hlen.
    destruct s as [|c r]; [done|].
    set (body := if is_sign c then r else String c r).
    assert (Z.of_nat (String.length body) ≤ 18) as Hb.
    { subst body. destruct (is_sign c); simpl in *; lia. }
    clearbody body. destruct (digits body 0) as [un|] eqn:Hd;
      [|by destruct body].
    apply digits_bound in Hd; [|lia].
    assert (10 ^ Z.of_nat (String.length body) ≤ 10 ^ 18)
      by (apply Z.pow_le_mono_r; lia).
    destruct body as [|b0 body]; [done|].
    intros [= <-]. destruct (bool_decide (c = "-"%char)); lia.
  - unfold ParseInt10, intSize. destruct s as [|c r]; [done|].
    set (body := if is_sign c then r else String c r).
    clearbody body. destruct (digits body 0) as [un|] eqn:Hd;
      [|by destruct body].
    apply digits_bound in Hd; [|lia].
    assert (0 ≤ 10 ^ Z.of_nat (String.length body))
      by (apply Z.pow_nonneg; lia).
    destruct body as [|b0 body]; [done|].
    change (2 ^ (64 - 1)) with 9223372036854775808 in *.
    destruct (bool_decide (c = "-"%char)); simpl;
      repeat case_bool_decide; try done; intros [= <-]; lia.
Qed.

Lemma ParseInt10_numeral (c : ascii) (r : string) (un : Z) :
  let s := String c r in
  let body := if is_sign c then r else s in
  body ≠ EmptyString →
  digits body 0 = Some un →
  let v := if bool_decide (c = "-"%char) then - un else un in
  minInt ≤ v ≤ maxInt →
  0 ≤ un →
  ParseInt10 s = Some v.
Proof.
  intros s body Hne Hd v Hv Hun. subst s. unfold ParseInt10.
  fold body. clearbody body. destruct body as [|b0 body]; [done|].
  rewrite Hd. subst v. unfold minInt, maxInt, intSize in *.
  destruct (bool_decide (c = "-"%char)); simpl;
    by rewrite bool_decide_eq_false_2 by lia.
Qed.

(** [ParseInt] reads back what [FormatInt] prints. *)
Lemma ParseInt10_FormatInt (n : Z) :
  minInt ≤ n ≤ maxInt → ParseInt10 (FormatInt n) = Some n.
Proof.
  intros Hn. unfold FormatInt. destruct n as [|p|p]; simpl.
  - reflexivity.
  - pose proof (DecimalPos.Unsigned.to_uint_nonnil p) as Hnil.
    destruct (string_of_uint_head _ Hnil) as (c & r & Hs & Hc).
    assert (NilZero.string_of_uint (Pos.to_uint p)
            = NilEmpty.string_of_uint (Pos.to_uint p)) as ->.
    { by destruct (Pos.to_uint p). }
    rewrite Hs.
    assert (bool_decide (c = "-"%char) = false) as Hm.
    { unfold is_sign in Hc. by destruct (bool_decide (c = "-"%char)). }
    pose proof (ParseInt10_numeral c r (Z.pos p)) as HA. cbv zeta in HA.
    rewrite Hc, Hm in HA. apply HA; [done| |done|lia].
    rewrite <- Hs, digits_zero, DecimalPos.Unsigned.of_to. reflexivity.
  - pose proof (DecimalPos.Unsigned.to_uint_nonnil p) as Hnil.
    destruct (string_of_uint_head _ Hnil) as (c & r & Hs & Hc).
    assert (NilZero.string_of_uint (Pos.to_uint p)
            = NilEmpty.string_of_uint (Pos.to_uint p)) as ->.
    { by destruct (Pos.to_uint p). }
    pose proof (ParseInt10_numeral "-"%char
                  (NilEmpty.string_of_uint (Pos.to_uint p)) (Z.pos p)) as HA.
    cbv zeta in HA. simpl in HA. apply HA; [by rewrite Hs| |done|lia].
    rewrite digits_zero, DecimalPos.Unsigned.of_to. reflexivity.
Qed.

End StrconvMore.

(** ** The client methods *)

Section ClientMethods.

Import http client requests.

Lemma answer_success_iff {R A} service (result : R → bool) errorOf
    (payload : R → A) nothing prepared sent (v : A) :
  answer service result errorOf payload nothing prepared sent = (v, None)
  ↔ prepared = None
    ∧ ∃ resp apiResp,
        sent = inr resp ∧ StatusCode resp = StatusOK
        ∧ Decode resp = inr apiResp ∧ result apiResp = true
        ∧ v = payload apiResp.
Proof.
  unfold answer. split.
  - destruct prepared as [e|]; [done|]. destruct sent as [e|resp]; [done|].
    case_bool_decide as Hs; [done|].
    destruct (Decode resp) as [e|apiResp] eqn:Hd; [done|].
    destruct (result apiResp) eqn:Hr; [|done]. simpl. intros [= <-].
    split; [done|]. exists resp, apiResp.
    repeat split; try done; by destruct (decide (StatusCode resp = StatusOK)).
  - intros (-> & resp & apiResp & -> & Hs & Hd & Hr & ->).
    rewrite bool_decide_eq_false_2 by (by intros ?). by rewrite Hd, Hr.
Qed.

Lemma answer_error {R A} service (result : R → bool) errorOf
    (payload : R → A) nothing prepared sent (v : A) (e : error) :
  answer service result errorOf payload nothing prepared sent = (v, Some e) →
  v = nothing.
Proof.
  unfold answer. intros Ha.
  repeat match type of Ha with
         | context [match ?x with _ => _ end] => destruct x
         | context [if ?b then _ else _] => destruct b
         end; congruence.
Qed.

Lemma GetListings_answer (c : ListingServiceClient) pageNum pageSize userID :
  GetListings c pageNum pageSize userID
  = answer "Listing Service" LSR_Result LSR_Error LSR_Listings []
      (NewRequest (LSC_httpClient c) (listingsRequest c pageNum pageSize userID))
      (Do (LSC_httpClient c) (listingsRequest c pageNum pageSize userID)).
Proof. reflexivity. Qed.

Lemma CreateListing_answer (c : ListingServiceClient) userID listingType price :
  CreateListing c userID listingType price
  = answer "Listing Service" LSR_Result LSR_Error LSR_Listing None
      (NewRequest (LSC_httpClient c) (createListingRequest c userID listingType price))
      (Do (LSC_httpClient c) (createListingRequest c userID listingType price)).
Proof. reflexivity. Qed.

Lemma CreateUser_answer (c : UserServiceClient) name :
  CreateUser c name
  = answer "User Service" USR_Result USR_Error USR_User None
      (NewRequest (USC_httpClient c) (createUserRequest c name))
      (Do (USC_httpClient c) (createUserRequest c name)).
Proof. reflexivity. Qed.

Lemma GetUserByID_answer (c : UserServiceClient) id :
  GetUserByID c id
  = match NewRequest (USC_httpClient c) (userRequest c id),
          Do (USC_httpClient c) (userRequest c id) with
    | None, inr resp =>
        if bool_decide (StatusCode resp = StatusNotFound) then (None, None)
        else answer "User Service" USR_Result USR_Error USR_User None
               None (inr resp)
    | prepared, sent =>
        answer "User Service" USR_Result USR_Error USR_User None prepared sent
    end.
Proof.
  unfold GetUserByID. cbv zeta.
  destruct (NewRequest _ _); [reflexivity|]. by destruct (Do _ _).
Qed.

(** X1: no client method returns a value together with an error: with a
    non-nil error the listing, the user or the page is nil. *)
Theorem clients_return_no_value_with_an_error :
  (∀ (c : ListingServiceClient) userID listingType price v e,
     CreateListing c userID listingType price = (v, Some e) → v = None)
  ∧ (∀ (c : ListingServiceClient) pageNum pageSize userID v e,
       GetListings c pageNum pageSize userID = (v, Some e) → v = [])
  ∧ (∀ (c : UserServiceClient) name v e,
       CreateUser c name = (v, Some e) → v = None)
  ∧ (∀ (c : UserServiceClient) id v e,
       GetUserByID c id = (v, Some e) → v = None).
Proof.
  split; [|split; [|split]].
  - intros c userID listingType price v e. rewrite CreateListing_answer.
    apply answer_error.
  - intros c pageNum pageSize userID v e. rewrite GetListings_answer.
    apply answer_error.
  - intros c name v e. rewrite CreateUser_answer. apply answer_error.
  - intros c id v e. apply GetUserByID_error.
Qed.

(** X2: [GetUserByID] returns a user exactly when the request could be
    made and was answered with status 200 by a body that decodes, has
    [result] true and carries that user. *)
Theorem user_is_found_iff (c : UserServiceClient) (id : Z) (u : User) :
  GetUserByID c id = (Some u, None)
  ↔ NewRequest (USC_httpClient c) (userRequest c id) = None
    ∧ ∃ resp apiResp,
        Do (USC_httpClient c) (userRequest c id) = inr resp
        ∧ StatusCode resp = StatusOK
        ∧ Decode resp = inr apiResp
        ∧ USR_Result apiResp = true
        ∧ USR_User apiResp = Some u.
Proof.
  rewrite GetUserByID_answer.
  destruct (NewRequest _ _) as [e|] eqn:Hn.
  { rewrite answer_success_iff. split; [by intros [? _]|by intros [? _]]. }
  destruct (Do _ _) as [e|resp] eqn:Hd.
  { rewrite answer_success_iff. split; [|by intros (_ & ? & ? & ? & _)].
    by intros (_ & ? & ? & ? & _). }
  case_bool_decide as H404.
  - split; [done|]. intros (_ & resp' & apiResp & [= <-] & Hs & _).
    unfold StatusOK, StatusNotFound in *. congruence.
  - rewrite answer_success_iff. split.
    + intros (_ & resp' & apiResp & [= <-] & Hs & Hdec & Hr & Hu).
      split; [done|]. exists resp, apiResp. by repeat split.
    + intros (_ & resp' & apiResp & [= <-] & Hs & Hdec & Hr & Hu).
      split; [done|]. exists resp, apiResp. by repeat split.
Qed.

(** X3: [GetUserByID] returns nil without an error exactly when the
    answer has status 404, or has status 200 with a body that decodes, has
    [result] true and carries no user. *)
Theorem user_is_not_found_iff (c : UserServiceClient) (id : Z) :
  GetUserByID c id = (None, None)
  ↔ NewRequest (USC_httpClient c) (userRequest c id) = None
    ∧ ∃ resp,
        Do (USC_httpClient c) (userRequest c id) = inr resp
        ∧ (StatusCode resp = StatusNotFound
           ∨ StatusCode resp = StatusOK
             ∧ ∃ apiResp, Decode resp = inr apiResp
                          ∧ USR_Result apiResp = true
                          ∧ USR_User apiResp = None).
Proof.
  rewrite GetUserByID_answer.
  destruct (NewRequest _ _) as [e|] eqn:Hn.
  { rewrite answer_success_iff. split; [by intros [? _]|by intros [? _]]. }
  destruct (Do _ _) as [e|resp] eqn:Hd.
  { rewrite answer_success_iff. split; [|by intros (_ & ? & ? & _)].
    by intros (_ & ? & ? & ? & _). }
  case_bool_decide as H404.
  - split; [|done]. intros _. split; [done|]. exists resp. split; [done|]. by left.
  - rewrite answer_success_iff. split.
    + intros (_ & resp' & apiResp & [= <-] & Hs & Hdec & Hr & Hu).
      split; [done|]. exists resp. split; [done|]. right. split; [done|].
      exists apiResp. by repeat split.
    + intros (_ & resp' & [= <-] & [H|(Hs & apiResp & Hdec & Hr & Hu)]); [done|].
      split; [done|]. exists resp, apiResp. by repeat split.
Qed.

(** X4: the page fetch and the two create calls succeed exactly when the
    request could be made and was answered with status 200 by a body that
    decodes and has [result] true; the value is then the payload of the
    body.  Any other status, 404 included, is an error. *)
Theorem upstream_call_succeeds_iff :
  (∀ (c : ListingServiceClient) pageNum pageSize userID ls,
     GetListings c pageNum pageSize userID = (ls, None)
     ↔ NewRequest (LSC_httpClient c) (listingsRequest c pageNum pageSize userID)
       = None
       ∧ ∃ resp apiResp,
           Do (LSC_httpClient c) (listingsRequest c pageNum pageSize userID)
           = inr resp
           ∧ StatusCode resp = StatusOK ∧ Decode resp = inr apiResp
           ∧ LSR_Result apiResp = true ∧ ls = LSR_Listings apiResp)
  ∧ (∀ (c : ListingServiceClient) userID listingType price l,
       CreateListing c userID listingType price = (l, None)
       ↔ NewRequest (LSC_httpClient c)
           (createListingRequest c userID listingType price) = None
         ∧ ∃ resp apiResp,
             Do (LSC_httpClient c)
               (createListingRequest c userID listingType price) = inr resp
             ∧ StatusCode resp = StatusOK ∧ Decode resp = inr apiResp
             ∧ LSR_Result apiResp = true ∧ l = LSR_Listing apiResp)
  ∧ (∀ (c : UserServiceClient) name u,
       CreateUser c name = (u, None)
       ↔ NewRequest (USC_httpClient c) (createUserRequest c name) = None
         ∧ ∃ resp apiResp,
             Do (USC_httpClient c) (createUserRequest c name) = inr resp
             ∧ StatusCode resp = StatusOK ∧ Decode resp = inr apiResp
             ∧ USR_Result apiResp = true ∧ u = USR_User apiResp).
Proof.
  split; [|split].
  - intros. rewrite GetListings_answer. apply answer_success_iff.
  - intros. rewrite CreateListing_answer. apply answer_success_iff.
  - intros. rewrite CreateUser_answer. apply answer_success_iff.
Qed.

End ClientMethods.

(** ** The page parameters on the way to the listing service *)

Section PageForwarding.

Import http client requests handler.

Lemma Get_Set (k v : string) (vs : url.Values) : url.Get k (url.Set_ k v vs) = v.
Proof. unfold url.Get, url.Set_. by rewrite lookup_insert_eq. Qed.

Lemma Get_Set_ne (k k' v : string) (vs : url.Values) :
  k ≠ k' → url.Get k' (url.Set_ k v vs) = url.Get k' vs.
Proof. intros Hk. unfold url.Get, url.Set_. by rewrite lookup_insert_ne. Qed.

Lemma listingsRequest_lookup (c : ListingServiceClient)
    (pageNum pageSize : Z) (userID k : string) :
  k ≠ "user_id" →
  Query (listingsRequest c pageNum pageSize userID) !! k
  = url.Set_ "page_size" (strconv.Itoa pageSize)
      (url.Set_ "page_num" (strconv.Itoa pageNum) ∅) !! k.
Proof.
  intros Hk. unfold listingsRequest. cbv zeta. simpl.
  case_bool_decide; [|done]. unfold url.Set_ at 1. by rewrite lookup_insert_ne.
Qed.

Lemma listingsRequest_user_id (c : ListingServiceClient)
    (pageNum pageSize : Z) (userID : string) :
  Query (listingsRequest c pageNum pageSize userID) !! "user_id"
  = if bool_decide (userID = "") then None else Some [userID].
Proof.
  unfold listingsRequest. cbv zeta. simpl.
  destruct (decide (userID = "")) as [He|He].
  - rewrite bool_decide_eq_false_2, bool_decide_eq_true_2 by (done || by intros ?).
    unfold url.Set_. by rewrite !lookup_insert_ne.
  - rewrite bool_decide_eq_true_2, bool_decide_eq_false_2 by done.
    unfold url.Set_. by rewrite lookup_insert_eq.
Qed.

Lemma listingsRequest_Get (c : ListingServiceClient)
    (pageNum pageSize : Z) (userID : string) :
  url.Get "page_num" (Query (listingsRequest c pageNum pageSize userID))
  = strconv.Itoa pageNum
  ∧ url.Get "page_size" (Query (listingsRequest c pageNum pageSize userID))
    = strconv.Itoa pageSize
  ∧ url.Get "user_id" (Query (listingsRequest c pageNum pageSize userID))
    = userID.
Proof.
  unfold url.Get. rewrite !listingsRequest_lookup by done.
  rewrite listingsRequest_user_id. unfold url.Set_.
  rewrite lookup_insert_ne, !lookup_insert_eq by done.
  split; [done|]. split; [done|]. case_bool_decide as He; [by rewrite He|done].
Qed.

(** X5: [GetListings] is the answer to one request, a GET of [/listings]
    without a body whose query has [page_num] and [page_size] in decimal, [user_id]
    exactly when the filter is not empty, and nothing else; [Atoi] reads
    the two numbers back. *)
Theorem listings_request_carries_the_page
    (c : ListingServiceClient) (pageNum pageSize : Z) (userID : string) :
  let req := listingsRequest c pageNum pageSize userID in
  client.GetListings c pageNum pageSize userID
  = answer "Listing Service" LSR_Result LSR_Error LSR_Listings []
      (NewRequest (LSC_httpClient c) req) (Do (LSC_httpClient c) req)
  ∧ Method req = "GET"
  ∧ URL req = LSC_baseURL c +:+ "/listings"
  ∧ Form req = None
  ∧ Query req !! "page_num" = Some [strconv.Itoa pageNum]
  ∧ Query req !! "page_size" = Some [strconv.Itoa pageSize]
  ∧ Query req !! "user_id"
    = (if bool_decide (userID = "") then None else Some [userID])
  ∧ (∀ k, k ≠ "page_num" → k ≠ "page_size" → k ≠ "user_id" →
       Query req !! k = None)
  ∧ (strconv.minInt ≤ pageNum ≤ strconv.maxInt →
       strconv.Atoi (url.Get "page_num" (Query req)) = Some pageNum)
  ∧ (strconv.minInt ≤ pageSize ≤ strconv.maxInt →
       strconv.Atoi (url.Get "page_size" (Query req)) = Some pageSize).
Proof.
  intros req. subst req.
  destruct (listingsRequest_Get c pageNum pageSize userID) as (Hn & Hs & _).
  split; [apply GetListings_answer|].
  split; [reflexivity|]. split; [reflexivity|]. split; [reflexivity|].
  split; [|split; [|split; [|split; [|split]]]].
  - rewrite listingsRequest_lookup by done. unfold url.Set_.
    by rewrite lookup_insert_ne, lookup_insert_eq.
  - rewrite listingsRequest_lookup by done. unfold url.Set_.
    by rewrite lookup_insert_eq.
  - apply listingsRequest_user_id.
  - intros k H1 H2 H3. rewrite listingsRequest_lookup by done. unfold url.Set_.
    by rewrite !lookup_insert_ne.
  - intros Hr. rewrite Hn. by apply Atoi_Itoa.
  - intros Hr. rewrite Hs. by apply Atoi_Itoa.
Qed.

Lemma pageNumOf_range (query : url.Values) : 1 ≤ pageNumOf query ≤ strconv.maxInt.
Proof.
  unfold pageNumOf. destruct (strconv.Atoi _) as [n|] eqn:Ha.
  - apply Atoi_range in Ha. unfold strconv.maxInt, strconv.intSize in *.
    case_bool_decide; lia.
  - unfold strconv.maxInt, strconv.intSize. lia.
Qed.

Lemma pageSizeOf_range (query : url.Values) : 1 ≤ pageSizeOf query ≤ strconv.maxInt.
Proof.
  unfold pageSizeOf. destruct (strconv.Atoi _) as [n|] eqn:Ha.
  - apply Atoi_range in Ha. unfold strconv.maxInt, strconv.intSize in *.
    case_bool_decide; lia.
  - unfold strconv.maxInt, strconv.intSize. lia.
Qed.


End PageForwarding.

(** ** The page parameters and the create request, down to the HTTP request *)

Section Forwarded.

Import http client requests handler.

Variable h : PublicAPIHandler.

Lemma Get_first (k v : string) (rest : list string) (query : url.Values) :
  query !! k = Some (v :: rest) → url.Get k query = v.
Proof. intros Hk. unfold url.Get. by rewrite Hk. Qed.

Lemma Get_unset (k : string) (query : url.Values) :
  query !! k = None ∨ query !! k = Some [] → url.Get k query = "".
Proof. intros [Hk|Hk]; unfold url.Get; by rewrite Hk. Qed.

(** The response of [GetPublicListings] from what the Listing Service
    answers to the request of the page. *)
Lemma GetPublicListings_value (query : url.Values) :
  value (GetPublicListings h query)
  = match fetchPage h query with
    | (_, Some _) =>
        mkWritten StatusInternalServerError
          (ListingsJSON
             (mkPublicListingsResponse false None "Failed to retrieve listings"))
    | (ls, None) =>
        mkWritten StatusOK
          (ListingsJSON
             (mkPublicListingsResponse true
                (Some (toPublicListing (userMap (resolve h (uniqueUserIDs ls)))
                         <$> ls)) ""))
    end.
Proof.
  destruct (fetchPage h query) as [ls [e|]] eqn:Hf.
  - by rewrite (GetPublicListings_failed h query ls e Hf).
  - by rewrite (GetPublicListings_fetched h query ls Hf).
Qed.

(** C9: the page number of the page fetch is the first value of
    [page_num] in the query when [Atoi] reads it as an integer of at least
    1, and 1 when the key is unset, has no value, or its value does not
    read as an integer or reads as one below 1; the page size is the first
    value of [page_size] under the same condition, and 10 otherwise.  The
    one [GetListings] call of the request is made with these two numbers;
    the request it sends has them in decimal as [page_num] and
    [page_size], and what the Listing Service answers to that request is
    what the response is made of. *)
Theorem page_parameters_of_the_fetch (query : url.Values) :
  let c := listingServiceClient h in
  let req :=
    listingsRequest c (pageNumOf query) (pageSizeOf query)
      (url.Get "user_id" query) in
  (∀ v rest n,
     query !! "page_num" = Some (v :: rest) → strconv.Atoi v = Some n →
     1 ≤ n → pageNumOf query = n)
  ∧ (∀ n rest,
       1 ≤ n ≤ strconv.maxInt →
       query !! "page_num" = Some (strconv.Itoa n :: rest) → pageNumOf query = n)
  ∧ (∀ v rest,
       query !! "page_num" = Some (v :: rest) →
       strconv.Atoi v = None ∨ (∃ n, strconv.Atoi v = Some n ∧ n < 1) →
       pageNumOf query = 1)
  ∧ (query !! "page_num" = None ∨ query !! "page_num" = Some [] →
     pageNumOf query = 1)
  ∧ (∀ v rest n,
       query !! "page_size" = Some (v :: rest) → strconv.Atoi v = Some n →
       1 ≤ n → pageSizeOf query = n)
  ∧ (∀ n rest,
       1 ≤ n ≤ strconv.maxInt →
       query !! "page_size" = Some (strconv.Itoa n :: rest) →
       pageSizeOf query = n)
  ∧ (∀ v rest,
       query !! "page_size" = Some (v :: rest) →
       strconv.Atoi v = None ∨ (∃ n, strconv.Atoi v = Some n ∧ n < 1) →
       pageSizeOf query = 10)
  ∧ (query !! "page_size" = None ∨ query !! "page_size" = Some [] →
     pageSizeOf query = 10)
  ∧ (∃ rest,
       calls (GetPublicListings h query)
       = CallGetListings (pageNumOf query) (pageSizeOf query)
           (url.Get "user_id" query) :: rest
       ∧ ∀ c, c ∈ rest → ∃ id, c = CallGetUserByID id)
  ∧ fetchPage h query
    = answer "Listing Service" LSR_Result LSR_Error LSR_Listings []
        (NewRequest (LSC_httpClient c) req) (Do (LSC_httpClient c) req)
  ∧ Query req !! "page_num" = Some [strconv.Itoa (pageNumOf query)]
  ∧ Query req !! "page_size" = Some [strconv.Itoa (pageSizeOf query)]
  ∧ (∀ resp apiResp,
       NewRequest (LSC_httpClient c) req = None →
       Do (LSC_httpClient c) req = inr resp →
       StatusCode resp = StatusOK → Decode resp = inr apiResp →
       LSR_Result apiResp = true →
       value (GetPublicListings h query)
       = mkWritten StatusOK
           (ListingsJSON
              (mkPublicListingsResponse true
                 (Some (toPublicListing
                          (userMap (resolve h (uniqueUserIDs (LSR_Listings apiResp))))
                          <$> LSR_Listings apiResp)) "")))
  ∧ (∀ e,
       Do (LSC_httpClient c) req = inl e →
       value (GetPublicListings h query)
       = mkWritten StatusInternalServerError
           (ListingsJSON
              (mkPublicListingsResponse false None "Failed to retrieve listings"))).
Proof.
  intros c req.
  assert (strconv.minInt ≤ 1) as Hmin
    by (unfold strconv.minInt, strconv.intSize; lia).
  split.
  { intros v rest n Hq Ha Hn. unfold pageNumOf.
    rewrite (Get_first _ _ _ _ Hq), Ha. by rewrite bool_decide_eq_false_2 by lia. }
  split.
  { intros n rest Hn Hq. unfold pageNumOf.
    rewrite (Get_first _ _ _ _ Hq), Atoi_Itoa by lia.
    by rewrite bool_decide_eq_false_2 by lia. }
  split.
  { intros v rest Hq Ha. unfold pageNumOf. rewrite (Get_first _ _ _ _ Hq).
    destruct Ha as [->|(n & -> & Hn)]; [done|].
    by rewrite bool_decide_eq_true_2 by lia. }
  split.
  { intros Hq. unfold pageNumOf. by rewrite (Get_unset _ _ Hq). }
  split.
  { intros v rest n Hq Ha Hn. unfold pageSizeOf.
    rewrite (Get_first _ _ _ _ Hq), Ha. by rewrite bool_decide_eq_false_2 by lia. }
  split.
  { intros n rest Hn Hq. unfold pageSizeOf.
    rewrite (Get_first _ _ _ _ Hq), Atoi_Itoa by lia.
    by rewrite bool_decide_eq_false_2 by lia. }
  split.
  { intros v rest Hq Ha. unfold pageSizeOf. rewrite (Get_first _ _ _ _ Hq).
    destruct Ha as [->|(n & -> & Hn)]; [done|].
    by rewrite bool_decide_eq_true_2 by lia. }
  split.
  { intros Hq. unfold pageSizeOf. by rewrite (Get_unset _ _ Hq). }
  split.
  { destruct (fetchPage h query) as [ls [e|]] eqn:Hf.
    - rewrite (GetPublicListings_failed h query ls e Hf).
      exists []. split; [reflexivity|]. intros x Hx. by apply elem_of_nil in Hx.
    - rewrite (GetPublicListings_fetched h query ls Hf).
      eexists. split; [reflexivity|]. intros x Hx.
      apply list_elem_of_fmap in Hx as (id & -> & _). eauto. }
  assert (fetchPage h query
          = answer "Listing Service" LSR_Result LSR_Error LSR_Listings []
              (NewRequest (LSC_httpClient c) req) (Do (LSC_httpClient c) req))
    as Hfetch by apply GetListings_answer.
  split; [done|].
  split.
  { subst req. rewrite listingsRequest_lookup by done. unfold url.Set_.
    by rewrite lookup_insert_ne, lookup_insert_eq. }
  split.
  { subst req. rewrite listingsRequest_lookup by done. unfold url.Set_.
    by rewrite lookup_insert_eq. }
  split.
  { intros resp apiResp Hn Hd Hs Hdec Hres.
    rewrite GetPublicListings_value, Hfetch.
    assert (answer "Listing Service" LSR_Result LSR_Error LSR_Listings []
              (NewRequest (LSC_httpClient c) req) (Do (LSC_httpClient c) req)
            = (LSR_Listings apiResp, None)) as ->; [|done].
    apply answer_success_iff. split; [done|]. by exists resp, apiResp. }
  intros e Hd. rewrite GetPublicListings_value, Hfetch, Hd.
  unfold answer. by destruct (NewRequest _ _).
Qed.

(** C10: with a listing type of rent or sale and a positive price, the
    create-listing validation answers 400 exactly when [user_id] is 0.  A
    negative [user_id] passes: the one upstream call is [CreateListing]
    with that identifier, the form of the request it sends has the
    identifier in decimal with its sign as [user_id], by which
    [ParseInt] reads it back, and the response is made of what the
    Listing Service answers to that request. *)
Theorem negative_user_reference_is_accepted
    (userID : Z) (listingType : string) (price : Z) :
  listingType = "rent" ∨ listingType = "sale" →
  0 < price →
  let request := inr (mkCreateListingBody userID listingType price) in
  let c := listingServiceClient h in
  let req := createListingRequest c userID listingType price in
  (Code (value (CreatePublicListing h request)) = StatusBadRequest ↔ userID = 0)
  ∧ (userID = 0 → calls (CreatePublicListing h request) = [])
  ∧ (userID < 0 →
     calls (CreatePublicListing h request)
     = [CallCreateListing userID listingType price]
     ∧ value (CreatePublicListing h request)
       = match client.CreateListing c userID listingType price with
         | (_, Some _) =>
             mkWritten StatusInternalServerError
               (ErrorJSON "Failed to create listing")
         | (listing, None) => mkWritten StatusOK (ListingJSON listing)
         end
     ∧ client.CreateListing c userID listingType price
       = answer "Listing Service" LSR_Result LSR_Error LSR_Listing None
           (NewRequest (LSC_httpClient c) req) (Do (LSC_httpClient c) req)
     ∧ (∃ form, Form req = Some form
                ∧ form !! "user_id" = Some [strconv.FormatInt userID])
     ∧ (∃ magnitude,
          strconv.FormatInt userID = String "-"%char magnitude)
     ∧ (strconv.minInt ≤ userID →
        strconv.ParseInt10 (strconv.FormatInt userID) = Some userID)
     ∧ (∀ resp apiResp,
          NewRequest (LSC_httpClient c) req = None →
          Do (LSC_httpClient c) req = inr resp →
          StatusCode resp = StatusOK → Decode resp = inr apiResp →
          LSR_Result apiResp = true →
          value (CreatePublicListing h request)
          = mkWritten StatusOK (ListingJSON (LSR_Listing apiResp)))).
Proof.
  intros Ht Hp request c req.
  assert (userID ≠ 0 →
          CreatePublicListing h request
          = ([CallCreateListing userID listingType price],
             match client.CreateListing c userID listingType price with
             | (_, Some _) =>
                 mkWritten StatusInternalServerError
                   (ErrorJSON "Failed to create listing")
             | (listing, None) => mkWritten StatusOK (ListingJSON listing)
             end)) as Hvalid.
  { intros Hne. subst request.
    by rewrite CreatePublicListing_valid by (repeat split; done). }
  split; [split|].
  - intros Hc. destruct (decide (userID = 0)) as [|Hne]; [done|].
    rewrite (Hvalid Hne) in Hc. unfold value in Hc; simpl in Hc.
    by destruct (client.CreateListing _ _ _ _) as [l [e|]].
  - intros ->. subst request. unfold CreatePublicListing. reflexivity.
  - split.
    { intros ->. subst request. unfold CreatePublicListing. reflexivity. }
    intros Hneg. rewrite Hvalid by lia.
    split; [reflexivity|]. split; [reflexivity|].
    split; [apply CreateListing_answer|].
    split.
    { eexists. split; [reflexivity|]. unfold url.Set_.
      rewrite !lookup_insert_ne by done. by rewrite lookup_insert_eq. }
    split.
    { destruct userID as [|p|p]; [lia|lia|]. unfold strconv.FormatInt. simpl.
      eauto. }
    split.
    { intros Hmin. apply ParseInt10_FormatInt.
      unfold strconv.maxInt, strconv.intSize. lia. }
    intros resp apiResp Hn Hd Hs Hdec Hres. unfold value; simpl.
    assert (client.CreateListing c userID listingType price
            = (LSR_Listing apiResp, None)) as ->; [|done].
    rewrite CreateListing_answer. apply answer_success_iff.
    split; [done|]. by exists resp, apiResp.
Qed.

End Forwarded.

(** ** The user service *)

Section UserService.

Import http.

(** *** The repository over SQLite *)

Lemma scanRows_ok (users acc : list model.User) :
  repository.sqlite.scanRows (inr <$> users) acc = (acc ++ users, None).
Proof.
  revert acc. induction users as [|u users IH]; intros acc; simpl.
  - by rewrite app_nil_r.
  - rewrite IH. by rewrite <- app_assoc.
Qed.

Lemma scanRows_inv (scans : list (error + model.User)) (acc users : list model.User) :
  repository.sqlite.scanRows scans acc = (users, None) →
  ∃ scanned, scans = inr <$> scanned ∧ users = acc ++ scanned.
Proof.
  revert acc. induction scans as [|[e|u] scans IH]; intros acc; simpl.
  - intros [= <-]. exists []. by rewrite app_nil_r.
  - done.
  - intros Hs. destruct (IH _ Hs) as (scanned & -> & ->).
    exists (u :: scanned). by rewrite <- app_assoc.
Qed.

Lemma scanRows_error (scans : list (error + model.User)) (acc users : list model.User) e :
  repository.sqlite.scanRows scans acc = (users, Some e) → users = [].
Proof.
  revert acc. induction scans as [|[e'|u] scans IH]; intros acc; simpl.
  - done.
  - by intros [= <- _].
  - apply IH.
Qed.

Lemma sqlite_GetAllUsers_ok_iff
    (r : repository.sqlite.sqliteUserRepository) (page pageSize : Z) users :
  repository.sqlite.GetAllUsers r page pageSize = (users, None)
  ↔ ∃ rows,
      sql.Query (repository.sqlite.db r) repository.sqlite.selectUsers
        (if bool_decide (pageSize < 1) then 10 else pageSize)
        (repository.wrapInt
           (repository.wrapInt ((if bool_decide (page < 1) then 1 else page) - 1)
            * (if bool_decide (pageSize < 1) then 10 else pageSize)))
      = inr rows
      ∧ sql.Scans rows = inr <$> users
      ∧ sql.Err rows = None.
Proof.
  unfold repository.sqlite.GetAllUsers. cbv zeta.
  destruct (sql.Query _ _ _ _) as [e|rows].
  { split; [done|]. by intros (? & ? & _). }
  destruct (repository.sqlite.scanRows (sql.Scans rows) []) as [us [e|]] eqn:Hs.
  - split; [done|]. intros (rows' & [= <-] & Hsc & _).
    rewrite Hsc, scanRows_ok in Hs. done.
  - apply scanRows_inv in Hs as (scanned & Hsc & ->). simpl.
    destruct (sql.Err rows) as [e|] eqn:He.
    + split; [done|]. intros (rows' & [= <-] & _ & He'). congruence.
    + split.
      * intros [= <-]. by exists rows.
      * intros (rows' & [= <-] & Hsc' & _). rewrite Hsc in Hsc'.
        apply (inj (fmap inr)) in Hsc'. by subst.
Qed.

Lemma offset_exact (page pageSize : Z) :
  1 ≤ page ≤ strconv.maxInt → 1 ≤ pageSize →
  (page - 1) * pageSize ≤ strconv.maxInt →
  repository.wrapInt (repository.wrapInt (page - 1) * pageSize)
  = (page - 1) * pageSize
  ∧ 0 ≤ (page - 1) * pageSize.
Proof.
  unfold strconv.maxInt, strconv.intSize. intros Hp Hs Hprod.
  assert (repository.wrapInt (page - 1) = page - 1) as ->.
  { unfold repository.wrapInt. rewrite Z.mod_small; lia. }
  assert (0 ≤ (page - 1) * pageSize) by nia.
  split; [|done]. unfold repository.wrapInt. rewrite Z.mod_small; lia.
Qed.

(** X7: [GetAllUsers] of the SQLite repository returns users exactly when
    the query, every [Scan] and [rows.Err()] succeed, and then returns the
    scanned rows in their order; with any error it returns no user at all,
    also when earlier rows were scanned. *)
Theorem GetAllUsers_returns_all_rows_or_none
    (r : repository.sqlite.sqliteUserRepository) (page pageSize : Z) :
  (∀ users,
     repository.sqlite.GetAllUsers r page pageSize = (users, None)
     ↔ ∃ rows,
         sql.Query (repository.sqlite.db r) repository.sqlite.selectUsers
           (if bool_decide (pageSize < 1) then 10 else pageSize)
           (repository.wrapInt
              (repository.wrapInt ((if bool_decide (page < 1) then 1 else page) - 1)
               * (if bool_decide (pageSize < 1) then 10 else pageSize)))
         = inr rows
         ∧ sql.Scans rows = inr <$> users
         ∧ sql.Err rows = None)
  ∧ (∀ users e,
       repository.sqlite.GetAllUsers r page pageSize = (users, Some e) →
       users = []).
Proof.
  split; [apply sqlite_GetAllUsers_ok_iff|].
  unfold repository.sqlite.GetAllUsers. cbv zeta.
  intros users e. destruct (sql.Query _ _ _ _) as [e'|rows]; [by intros [= <- _]|].
  destruct (repository.sqlite.scanRows (sql.Scans rows) []) as [us [e'|]] eqn:Hs;
    [by intros [= <- _]|].
  destruct (sql.Err rows); [by intros [= <- _]|done].
Qed.

(** X8: the query of [GetAllUsers] always has a limit of at least 1: a
    page size below 1 is replaced by 10 and a page below 1 by 1; when
    [(page - 1) * pageSize] fits [int], the offset is that product and is
    not negative. *)
Theorem GetAllUsers_limit_and_offset (page pageSize : Z) :
  let page' := if bool_decide (page < 1) then 1 else page in
  let pageSize' := if bool_decide (pageSize < 1) then 10 else pageSize in
  let offset := repository.wrapInt (repository.wrapInt (page' - 1) * pageSize') in
  (∀ r : repository.sqlite.sqliteUserRepository,
     repository.sqlite.GetAllUsers r page pageSize
     = match sql.Query (repository.sqlite.db r) repository.sqlite.selectUsers
               pageSize' offset with
       | inl err => ([], Some ("failed to query all users: " +:+ err))
       | inr rows =>
           match repository.sqlite.scanRows (sql.Scans rows) [] with
           | (_, Some err) => ([], Some err)
           | (users, None) =>
               match sql.Err rows with
               | Some err =>
                   ([], Some ("error during rows iteration for GetAllUsers: "
                                +:+ err))
               | None => (users, None)
               end
           end
       end)
  ∧ 1 ≤ page' ∧ 1 ≤ pageSize'
  ∧ (page ≤ strconv.maxInt → (page' - 1) * pageSize' ≤ strconv.maxInt →
       offset = (page' - 1) * pageSize' ∧ 0 ≤ offset).
Proof.
  intros page' pageSize' offset. split; [reflexivity|].
  assert (1 ≤ page') by (subst page'; case_bool_decide; lia).
  assert (1 ≤ pageSize') by (subst pageSize'; case_bool_decide; lia).
  split; [done|]. split; [done|].
  intros Hp Hprod.
  assert (page' ≤ strconv.maxInt).
  { subst page'. case_bool_decide; [|done].
    unfold strconv.maxInt, strconv.intSize. lia. }
  destruct (offset_exact page' pageSize') as [Ho Hnn]; try done.
  subst offset. rewrite Ho. done.
Qed.

(** X9: [CreateUser] of the SQLite repository returns a user exactly when
    the statement is prepared and executed and the insert identifier is
    read; the user then has that identifier, the given name and the clock
    reading as both timestamps.  It never returns nil without an error. *)
Theorem CreateUser_returns_the_inserted_row
    (r : repository.sqlite.sqliteUserRepository) (now : Z) (name : string) :
  (∀ u,
     repository.sqlite.CreateUser r now name = (Some u, None)
     ↔ ∃ stmt result id,
         sql.Prepare (repository.sqlite.db r) repository.sqlite.insertUser
         = inr stmt
         ∧ sql.Exec stmt name now now = inr result
         ∧ sql.LastInsertId result = inr id
         ∧ u = model.mkUser id name now now)
  ∧ (∀ u e,
       repository.sqlite.CreateUser r now name = (u, Some e) → u = None)
  ∧ repository.sqlite.CreateUser r now name ≠ (None, None)
  ∧ (∀ u e,
       repository.sqlite.CreateUser r now name = (Some u, e) →
       model.Name u = name
       ∧ model.CreatedAt u = now ∧ model.UpdatedAt u = now).
Proof.
  unfold repository.sqlite.CreateUser.
  destruct (sql.Prepare _ _) as [e|stmt].
  { repeat split; try done; try (by intros ? ? [= <- _]).
    by intros (? & ? & ? & ? & _). }
  destruct (sql.Exec stmt name now now) as [e|result] eqn:Hex.
  { repeat split; try done; try (by intros ? ? [= <- _]).
    intros (? & ? & ? & [= <-] & ? & _). congruence. }
  destruct (sql.LastInsertId result) as [e|id] eqn:Hid.
  { repeat split; try done; try (by intros ? ? [= <- _]).
    intros (? & ? & ? & [= <-] & Hex' & ? & _).
    rewrite Hex in Hex'. injection Hex' as <-. congruence. }
  split; [|split; [done|split; [done|by intros ? ? [= <- _]]]].
  intros u. split.
  - intros [= <-]. by exists stmt, result, id.
  - intros (? & ? & ? & [= <-] & Hex' & Hid' & ->).
    rewrite Hex in Hex'. injection Hex' as <-. congruence.
Qed.

End UserService.

(** ** The handlers of the user service *)

Section UserHandlers.

Import http user_handler.

Ltac destruct_ex_and :=
  repeat match goal with
         | H : ∃ _, _ |- _ => destruct H
         | H : _ ∧ _ |- _ => destruct H
         end.

Ltac destruct_or_hyp :=
  match goal with H : _ ∨ _ |- _ => destruct H end.

(** X10: [GET /users/{id}] answers 400 exactly when the identifier does
    not parse, 500 exactly when it parses to a number that is not positive
    or the repository fails, 404 exactly when the repository has no such
    user, and 200 with the user of the repository otherwise; [result] is
    true exactly with status 200. *)
Theorem GetUserByID_status (h : UserHandler) (idStr : string) :
  let w := GetUserByID h idStr in
  let repo := service.repo (userService h) in
  (Code w = StatusBadRequest ↔ strconv.ParseInt10 idStr = None)
  ∧ (Code w = StatusInternalServerError
     ↔ ∃ id, strconv.ParseInt10 idStr = Some id
             ∧ (id ≤ 0 ∨ ∃ u e, repository.GetUserByID repo id = (u, Some e)))
  ∧ (Code w = StatusNotFound
     ↔ ∃ id, strconv.ParseInt10 idStr = Some id ∧ 0 < id
             ∧ repository.GetUserByID repo id = (None, None))
  ∧ (Code w = StatusOK
     ↔ ∃ id u, strconv.ParseInt10 idStr = Some id ∧ 0 < id
               ∧ repository.GetUserByID repo id = (Some u, None)
               ∧ Body w = mkAPIResponse true [] (Some u) "")
  ∧ (Result (Body w) = true ↔ Code w = StatusOK)
  ∧ (Code w ≠ StatusOK → User (Body w) = None).
Proof.
  intros w repo. subst w repo. unfold GetUserByID, service.GetUserByID.
  destruct (strconv.ParseInt10 idStr) as [id|]; simpl.
  2:{ repeat split; try done; intros; by destruct_ex_and. }
  case_bool_decide as Hid; simpl.
  { repeat split; try done; intros; try (destruct_ex_and; simplify_eq; lia).
    exists id. split; [done|]. by left. }
  destruct (repository.GetUserByID _ id) as [[u|] [e|]] eqn:Hr; simpl;
    (repeat split; try done; intros;
     try (destruct_ex_and; simplify_eq; try destruct_or_hyp; destruct_ex_and;
          done || lia || congruence)).
  - exists id. split; [done|]. right. eauto.
  - exists id, u. repeat split; done || lia.
  - exists id. split; [done|]. right. eauto.
  - exists id. repeat split; done || lia.
Qed.

(** X11: for an identifier that does not parse or is not positive the
    answer of [GET /users/{id}] does not depend on the repository: it is
    not consulted. *)
Theorem GetUserByID_rejects_before_the_repository
    (h h' : UserHandler) (idStr : string) :
  (∀ id, strconv.ParseInt10 idStr = Some id → id ≤ 0) →
  GetUserByID h idStr = GetUserByID h' idStr.
Proof.
  intros Hid. unfold GetUserByID, service.GetUserByID.
  destruct (strconv.ParseInt10 idStr) as [id|]; [|done].
  by rewrite bool_decide_eq_true_2 by (by apply Hid).
Qed.

(** X12: [POST /users] answers 400 exactly when the form does not parse
    or has no name; otherwise the repository is asked to create that name
    and decides the answer alone: 500 when it fails, 200 with its user when
    it succeeds.  The check of the service for an empty name never
    applies. *)
Theorem CreateUser_status (h : UserHandler) (form : error + url.Values) :
  let w := CreateUser h form in
  let repo := service.repo (userService h) in
  (Code w = StatusBadRequest
   ↔ match form with
     | inl _ => True
     | inr values => url.Get "name" values = ""
     end)
  ∧ (∀ values, form = inr values → url.Get "name" values ≠ "" →
       service.CreateUser (userService h) (url.Get "name" values)
       = repository.CreateUser repo (url.Get "name" values)
       ∧ w = match repository.CreateUser repo (url.Get "name" values) with
             | (_, Some _) =>
                 mkWritten StatusInternalServerError
                   (mkAPIResponse false [] None "Internal server error")
             | (user, None) => mkWritten StatusOK (mkAPIResponse true [] user "")
             end)
  ∧ (Result (Body w) = true ↔ Code w = StatusOK).
Proof.
  intros w repo. subst w repo. unfold CreateUser, service.CreateUser.
  destruct form as [e|values]; simpl.
  { split; [done|]. split; [by intros ? [=]|done]. }
  case_bool_decide as Hn; simpl.
  { split; [done|]. split; [by intros ? [= <-] ?|done]. }
  destruct (repository.CreateUser _ _) as [u [e|]] eqn:Hr; simpl.
  - split; [done|]. split; [|done]. intros values' [= <-] _.
    rewrite bool_decide_eq_false_2 by done. by rewrite Hr.
  - split; [done|]. split; [|done]. intros values' [= <-] _.
    rewrite bool_decide_eq_false_2 by done. by rewrite Hr.
Qed.

(** X13: [GET /users] reads the page by the rule of the gateway; over
    the SQLite repository the defaults of the repository never apply, the
    query has the page size as limit and, as offset,
    [(pageNum - 1) * pageSize] in the wrapping arithmetic of [int]: that
    product itself, not negative, when it fits [int]; the answer is 200
    with the scanned rows exactly when the query, every [Scan] and
    [rows.Err()] succeed, and 500 otherwise. *)
Theorem GetAllUsers_over_sqlite (d : sql.DB) (now : Z) (query : url.Values) :
  let h :=
    NewUserHandler
      (service.NewUserService (repository.NewSQLiteUserRepository d now)) in
  let w := GetAllUsers h query in
  let pageNum := handler.pageNumOf query in
  let pageSize := handler.pageSizeOf query in
  let offset := repository.wrapInt (repository.wrapInt (pageNum - 1) * pageSize) in
  (∀ users,
     w = mkWritten StatusOK (mkAPIResponse true users None "")
     ↔ ∃ rows,
         sql.Query d repository.sqlite.selectUsers pageSize offset = inr rows
         ∧ sql.Scans rows = inr <$> users ∧ sql.Err rows = None)
  ∧ (w = mkWritten StatusInternalServerError
           (mkAPIResponse false [] None "Internal server error")
     ∨ ∃ users, w = mkWritten StatusOK (mkAPIResponse true users None ""))
  ∧ offset = repository.wrapInt ((pageNum - 1) * pageSize)
  ∧ ((pageNum - 1) * pageSize ≤ strconv.maxInt →
       offset = (pageNum - 1) * pageSize ∧ 0 ≤ offset).
Proof.
  intros h w pageNum pageSize offset.
  pose proof (pageNumOf_range query) as Hn.
  pose proof (pageSizeOf_range query) as Hs.
  fold pageNum in Hn. fold pageSize in Hs.
  assert (w = match repository.sqlite.GetAllUsers
                      (repository.sqlite.NewSQLiteUserRepository d)
                      pageNum pageSize with
              | (_, Some _) =>
                  mkWritten StatusInternalServerError
                    (mkAPIResponse false [] None "Internal server error")
              | (users, None) => mkWritten StatusOK (mkAPIResponse true users None "")
              end) as Hw by reflexivity.
  assert (∀ users,
            repository.sqlite.GetAllUsers
              (repository.sqlite.NewSQLiteUserRepository d) pageNum pageSize
            = (users, None)
            ↔ ∃ rows,
                sql.Query d repository.sqlite.selectUsers pageSize offset
                = inr rows
                ∧ sql.Scans rows = inr <$> users ∧ sql.Err rows = None) as Hok.
  { intros users. rewrite sqlite_GetAllUsers_ok_iff.
    rewrite (bool_decide_eq_false_2 (pageNum < 1)) by lia.
    by rewrite (bool_decide_eq_false_2 (pageSize < 1)) by lia. }
  split; [|split; [|split]].
  - intros users. rewrite <- Hok. rewrite Hw.
    destruct (repository.sqlite.GetAllUsers _ _ _) as [us [e|]].
    + split; done.
    + split; [by intros [= <-]|by intros [= <-]].
  - rewrite Hw. destruct (repository.sqlite.GetAllUsers _ _ _) as [us [e|]];
      [by left|right; by exists us].
  - subst offset. f_equal. f_equal. unfold repository.wrapInt.
    unfold strconv.maxInt, strconv.intSize in Hn. rewrite Z.mod_small; lia.
  - intros Hprod. subst offset.
    destruct (offset_exact pageNum pageSize) as [Ho Hnn]; [done|lia|done|].
    by rewrite Ho.
Qed.

End UserHandlers.

(** ** The gateway in front of the user service *)

Section Composition.

Import http client requests handler.

Variable uh : user_handler.UserHandler.
Variable convert : model.User → client.User.
Variable status : Z → string.

(** The answer of the user service to the lookup of [id], as the
    gateway's client reads it. *)
Lemma GetUserByID_over_service (c : UserServiceClient) (id : Z) :
  NewRequest (USC_httpClient c) (userRequest c id) = None →
  Do (USC_httpClient c) (userRequest c id)
  = inr (wire.deliver convert status
           (user_handler.GetUserByID uh (strconv.FormatInt id))) →
  strconv.minInt ≤ id ≤ strconv.maxInt →
  client.GetUserByID c id
  = if bool_decide (id ≤ 0) then
      (None, Some ("User Service returned non-OK status: "
                     +:+ status StatusInternalServerError))
    else
      match repository.GetUserByID
              (service.repo (user_handler.userService uh)) id with
      | (_, Some _) =>
          (None, Some ("User Service returned non-OK status: "
                         +:+ status StatusInternalServerError))
      | (None, None) => (None, None)
      | (Some u, None) => (Some (convert u), None)
      end.
Proof.
  intros Hn Hd Hid. unfold client.GetUserByID. cbv zeta. rewrite Hn, Hd.
  unfold user_handler.GetUserByID, service.GetUserByID.
  rewrite ParseInt10_FormatInt by done.
  destruct (decide (id ≤ 0)) as [Hpos|Hpos].
  - by rewrite !(bool_decide_eq_true_2 (id ≤ 0)) by done.
  - rewrite !(bool_decide_eq_false_2 (id ≤ 0)) by done.
    by destruct (repository.GetUserByID _ id) as [[u|] [e|]].
Qed.

(** X14: when the lookup of the gateway is answered by [GET /users/{id}]
    of the user service, the identifier arrives as it was sent; an
    identifier that is not positive is a failed lookup, a positive one is
    found, not found or failed as the repository finds it, has no such user
    or fails. *)
Theorem lookup_over_the_user_service (c : UserServiceClient) (id : Z) :
  NewRequest (USC_httpClient c) (userRequest c id) = None →
  Do (USC_httpClient c) (userRequest c id)
  = inr (wire.deliver convert status
           (user_handler.GetUserByID uh (strconv.FormatInt id))) →
  strconv.minInt ≤ id ≤ strconv.maxInt →
  outcome (client.GetUserByID c id)
  = if bool_decide (id ≤ 0) then
      LookupFailed ("User Service returned non-OK status: "
                      +:+ status StatusInternalServerError)
    else
      match repository.GetUserByID
              (service.repo (user_handler.userService uh)) id with
      | (_, Some _) =>
          LookupFailed ("User Service returned non-OK status: "
                          +:+ status StatusInternalServerError)
      | (None, None) => NotFound
      | (Some u, None) => Found (convert u)
      end.
Proof.
  intros Hn Hd Hid. rewrite (GetUserByID_over_service c id Hn Hd Hid).
  case_bool_decide; [reflexivity|].
  by destruct (repository.GetUserByID (service.repo (user_handler.userService uh)) id) as [[u|] [e|]].
Qed.

(** X15: when every lookup of a fetched page is answered by the user
    service, each listing embeds the user that the repository has under
    its positive user reference, and no user when the reference is not
    positive, is unknown to the repository or the repository fails. *)
Theorem enrichment_over_the_user_service
    (h : PublicAPIHandler) (query : url.Values) (ls : list Listing) :
  fetchPage h query = (ls, None) →
  (∀ l, l ∈ ls →
     NewRequest (USC_httpClient (userServiceClient h))
       (userRequest (userServiceClient h) (Listing_UserID l)) = None
     ∧ Do (USC_httpClient (userServiceClient h))
         (userRequest (userServiceClient h) (Listing_UserID l))
       = inr (wire.deliver convert status
                (user_handler.GetUserByID uh
                   (strconv.FormatInt (Listing_UserID l))))
     ∧ strconv.minInt ≤ Listing_UserID l ≤ strconv.maxInt) →
  ∃ out,
    value (GetPublicListings h query)
    = mkWritten StatusOK
        (ListingsJSON (mkPublicListingsResponse true (Some out) ""))
    ∧ ∀ i l, ls !! i = Some l →
        ∃ p, out !! i = Some p
             ∧ PL_User p
               = if bool_decide (Listing_UserID l ≤ 0) then None
                 else match repository.GetUserByID
                              (service.repo (user_handler.userService uh))
                              (Listing_UserID l) with
                      | (Some u, None) => Some (convert u)
                      | _ => None
                      end.
Proof.
  intros Hf Hwire. rewrite (GetPublicListings_fetched h query ls Hf).
  eexists. split; [reflexivity|].
  intros i l Hi. eexists. rewrite list_lookup_fmap, Hi. simpl.
  split; [reflexivity|].
  pose proof (list_elem_of_lookup_2 _ _ _ Hi) as Hl.
  rewrite (embedded_user h ls l Hl). unfold lookup.
  destruct (Hwire l Hl) as (Hn & Hd & Hid).
  rewrite (GetUserByID_over_service _ _ Hn Hd Hid).
  case_bool_decide; [reflexivity|].
  by destruct (repository.GetUserByID (service.repo (user_handler.userService uh)) _) as [[u|] [e|]].
Qed.

(** X16: when the create call of the gateway is answered by
    [POST /users] of the user service, the name arrives as it was sent, and
    for a name that is not empty the gateway answers 200 with the user the
    repository created, or 500 when the repository fails. *)
Theorem create_user_over_the_user_service (h : PublicAPIHandler) (name : string) :
  let c := userServiceClient h in
  NewRequest (USC_httpClient c) (createUserRequest c name) = None →
  (∀ form, Form (createUserRequest c name) = Some form →
     Do (USC_httpClient c) (createUserRequest c name)
     = inr (wire.deliver convert status (user_handler.CreateUser uh (inr form)))) →
  name ≠ "" →
  CreatePublicUser h (inr (mkCreateUserBody name))
  = ([CallCreateUser name],
     match repository.CreateUser
             (service.repo (user_handler.userService uh)) name with
     | (_, Some _) =>
         mkWritten StatusInternalServerError (ErrorJSON "Failed to create user")
     | (u, None) =>
         mkWritten StatusOK (UserJSON (mkPublicUserResponse (convert <$> u)))
     end).
Proof.
  intros c Hn Hd Hname. specialize (Hd _ eq_refl).
  rewrite (CreatePublicUser_valid h (mkCreateUserBody name)) by done.
  simpl. f_equal. fold c. rewrite CreateUser_answer, Hn, Hd.
  unfold answer, user_handler.CreateUser, service.CreateUser.
  rewrite Get_Set. rewrite !(bool_decide_eq_false_2 (name = "")) by done.
  by destruct (repository.CreateUser _ name) as [u [e|]].
Qed.

End Composition.

(** ** More on the requests, the repository and the fan-out *)

Section MoreFacts.

Import http.

(** X17: [CreateListing] is the answer to one request, a POST of
    [/listings] whose form has [user_id], [listing_type] and [price] and nothing else, the
    two numbers in decimal; [ParseInt] reads them back. *)
Theorem create_listing_request_carries_the_fields
    (c : client.ListingServiceClient) (userID : Z) (listingType : string)
    (price : Z) :
  let req := requests.createListingRequest c userID listingType price in
  client.CreateListing c userID listingType price
  = requests.answer "Listing Service" client.LSR_Result client.LSR_Error
      client.LSR_Listing None
      (NewRequest (client.LSC_httpClient c) req)
      (Do (client.LSC_httpClient c) req)
  ∧ Method req = "POST"
  ∧ URL req = client.LSC_baseURL c +:+ "/listings"
  ∧ ContentType req = "application/x-www-form-urlencoded"
  ∧ ∃ form,
      Form req = Some form
      ∧ url.Get "listing_type" form = listingType
      ∧ dom form = {["user_id"; "listing_type"; "price"]}
      ∧ (strconv.minInt ≤ userID ≤ strconv.maxInt →
           strconv.ParseInt10 (url.Get "user_id" form) = Some userID)
      ∧ (strconv.minInt ≤ price ≤ strconv.maxInt →
           strconv.ParseInt10 (url.Get "price" form) = Some price).
Proof.
  intros req. subst req. split; [apply CreateListing_answer|].
  unfold requests.createListingRequest. cbv zeta. simpl.
  split; [done|]. split; [done|]. split; [done|].
  eexists. split; [reflexivity|].
  split; [|split; [|split]].
  - by rewrite Get_Set_ne, Get_Set.
  - unfold url.Set_. rewrite !dom_insert_L, dom_empty_L. set_solver.
  - intros Hr. rewrite !Get_Set_ne, Get_Set by done. by apply ParseInt10_FormatInt.
  - intros Hr. rewrite Get_Set. by apply ParseInt10_FormatInt.
Qed.

(** X18: [GET /users/{id}] over the SQLite repository answers 404
    exactly when the identifier is positive and the query has no row, 200
    with the scanned row exactly when it has one, and never queries the
    database for an identifier that does not parse or is not positive. *)
Theorem GetUserByID_over_sqlite (d : sql.DB) (now : Z) (idStr : string) :
  let h :=
    user_handler.NewUserHandler
      (service.NewUserService (repository.NewSQLiteUserRepository d now)) in
  let w := user_handler.GetUserByID h idStr in
  (user_handler.Code w = StatusNotFound
   ↔ ∃ id, strconv.ParseInt10 idStr = Some id ∧ 0 < id
           ∧ sql.QueryRow d repository.sqlite.selectUser id = sql.ErrNoRows)
  ∧ (∀ u,
       w = user_handler.mkWritten StatusOK
             (user_handler.mkAPIResponse true [] (Some u) "")
       ↔ ∃ id, strconv.ParseInt10 idStr = Some id ∧ 0 < id
               ∧ sql.QueryRow d repository.sqlite.selectUser id = sql.Scanned u)
  ∧ (∀ d' now',
       (∀ id, strconv.ParseInt10 idStr = Some id → id ≤ 0) →
       user_handler.GetUserByID
         (user_handler.NewUserHandler
            (service.NewUserService (repository.NewSQLiteUserRepository d' now')))
         idStr
       = w).
Proof.
  intros h w. subst w h.
  unfold user_handler.GetUserByID, service.GetUserByID. simpl.
  unfold repository.sqlite.GetUserByID. simpl.
  destruct (strconv.ParseInt10 idStr) as [id|].
  2:{ split; [|split]; [| |done].
      - split; [done|]. by intros (? & ? & _).
      - intros u. split; [done|]. by intros (? & ? & _). }
  destruct (decide (id ≤ 0)) as [Hid|Hid].
  { rewrite !(bool_decide_eq_true_2 (id ≤ 0)) by done.
    split; [|split]; [| |done].
    - split; [done|]. intros (? & [= <-] & ? & _). lia.
    - intros u. split; [done|]. intros (? & [= <-] & ? & _). lia. }
  rewrite !(bool_decide_eq_false_2 (id ≤ 0)) by done.
  split; [|split].
  - destruct (sql.QueryRow d _ id) as [u| |e] eqn:Hq; simpl.
    + split; [done|]. intros (? & [= <-] & _ & ?). congruence.
    + split; [|done]. intros _. exists id. repeat split; done || lia.
    + split; [done|]. intros (? & [= <-] & _ & ?). congruence.
  - intros u. destruct (sql.QueryRow d _ id) as [u'| |e] eqn:Hq; simpl.
    + split.
      * intros [= <-]. exists id. repeat split; done || lia.
      * intros (? & [= <-] & _ & ?). congruence.
    + split; [done|]. intros (? & [= <-] & _ & ?). congruence.
    + split; [done|]. intros (? & [= <-] & _ & ?). congruence.
  - intros d' now' Hall. specialize (Hall id eq_refl). lia.
Qed.

(** X19: in every state of the fan-out the counter of the WaitGroup is
    the number of goroutines that have not finished (plus one between
    [wg.Add(1)] and [go]), so it is never negative and never above the
    number of distinct references; the error channel never holds more than
    its capacity; and the mutex is locked exactly while some goroutine is
    between [mu.Lock()] and [mu.Unlock()]. *)
Theorem fan_out_stays_in_bounds
    (h : handler.PublicAPIHandler) (ls : list client.Listing) (s : fanout.State) :
  fanout.reachable h (handler.uniqueUserIDs ls) s →
  fanout.wg s
  = Z.of_nat (fanout.total fanout.running (fanout.tasks s))
    + fanout.added (fanout.main s)
  ∧ 0 ≤ fanout.wg s ≤ Z.of_nat (size (handler.uniqueUserIDs ls))
  ∧ (List.length (handler.errorsChan (fanout.shared s)) ≤ fanout.capacity s)%nat
  ∧ fanout.capacity s = size (handler.uniqueUserIDs ls)
  ∧ (fanout.mu s = true
     ↔ ∃ t, t ∈ fanout.tasks s ∧ fanout.in_critical t.2 = true).
Proof.
  intros Hr. pose proof (inv_reachable h _ s Hr) as Hinv.
  pose proof (fanout.inv_wg _ _ _ Hinv) as Hwg.
  pose proof (fanout.inv_cap _ _ _ Hinv) as Hcap.
  pose proof (tasks_length h _ s Hinv) as Hlen.
  assert (∀ ts, (fanout.total fanout.running ts ≤ List.length ts)%nat) as Hrun.
  { induction ts as [|[id pc] ts IH]; [done|]. rewrite total_cons. simpl.
    unfold fanout.running at 1. destruct (fanout.is_finished pc); lia. }
  assert (fanout.added (fanout.main s) = 1
          → (List.length (fanout.tasks s) < size (handler.uniqueUserIDs ls))%nat)
    as Hadd.
  { intros Ha. destruct (fanout.main s) as [|todo id| |] eqn:Hm; try done.
    pose proof (fanout.inv_nodup _ _ _ Hinv) as Hnd.
    pose proof (fanout.inv_cover _ _ _ Hinv) as Hcov.
    pose proof (fanout.inv_fresh _ _ _ Hinv) as Hfr.
    rewrite Hm in Hcov, Hfr. simpl in Hcov, Hfr.
    rewrite <- (length_fmap fst).
    rewrite <- (size_list_to_set (C := gset Z)) by done.
    apply subset_size. rewrite <- Hcov.
    assert (id ∉ (fanout.tasks s).*1) by (apply Hfr; set_solver).
    set_solver. }
  split; [done|]. split.
  { specialize (Hrun (fanout.tasks s)).
    destruct (fanout.main s) as [|todo id| |] eqn:Hm; simpl in *;
      try lia; specialize (Hadd eq_refl); lia. }
  split.
  { rewrite (fanout.inv_chan _ _ _ Hinv), Hcap.
    pose proof (sent_bound h (fanout.tasks s)). lia. }
  split; [done|].
  pose proof (fanout.inv_mu _ _ _ Hinv) as Hmu. split.
  - intros Htrue. rewrite Htrue in Hmu.
    destruct (total_pos_split fanout.holding (fanout.tasks s))
      as (l1 & id & pc & l2 & Heq & Hpc); [lia|].
    exists (id, pc). split; [rewrite Heq; set_solver|].
    unfold fanout.holding in Hpc. simpl. destruct (fanout.in_critical pc); [done|lia].
  - intros (t & Ht & Hc). destruct (fanout.mu s); [done|].
    apply total_zero in Hmu. rewrite Forall_forall in Hmu.
    specialize (Hmu t Ht). unfold fanout.holding in Hmu. rewrite Hc in Hmu. lia.
Qed.

End MoreFacts.

(** ** The small user service behind the gateway *)

Section MoreExamples.

Import http.

Lemma int_5 : strconv.minInt ≤ 5 ≤ strconv.maxInt.
Proof. unfold strconv.minInt, strconv.maxInt, strconv.intSize. lia. Qed.

Lemma GetUserByID_rejects_before_the_repository_example :
  (∀ id, strconv.ParseInt10 "-3" = Some id → id ≤ 0)
  ∧ user_handler.GetUserByID demo_users.users "-3"
    = user_handler.GetUserByID demo_users.offline "-3".
Proof.
  assert (∀ id, strconv.ParseInt10 "-3" = Some id → id ≤ 0) as Hid.
  { intros id Hp. vm_compute in Hp. injection Hp as <-. lia. }
  split; [exact Hid|].
  exact (GetUserByID_rejects_before_the_repository
           demo_users.users demo_users.offline "-3" Hid).
Defined.

Lemma lookup_over_the_user_service_example :
  NewRequest (client.USC_httpClient demo_users.userClient)
    (client.userRequest demo_users.userClient 5) = None
  ∧ handler.outcome (client.GetUserByID demo_users.userClient 5)
    = handler.Found (demo_users.convert demo_users.ann).
Proof.
  split; [reflexivity|].
  exact (lookup_over_the_user_service demo_users.users demo_users.convert
           demo_users.status demo_users.userClient 5 eq_refl eq_refl int_5).
Defined.

Lemma enrichment_over_the_user_service_example :
  handler.fetchPage (demo_users.gateway demo.page4) demo.noQuery
  = (demo.page4, None)
  ∧ ∃ out,
      handler.value
        (handler.GetPublicListings (demo_users.gateway demo.page4) demo.noQuery)
      = handler.mkWritten StatusOK
          (handler.ListingsJSON
             (handler.mkPublicListingsResponse true (Some out) ""))
      ∧ (∃ p, out !! 0%nat = Some p
              ∧ handler.PL_User p = Some (demo_users.convert demo_users.ann))
      ∧ (∃ p, out !! 3%nat = Some p ∧ handler.PL_User p = None).
Proof.
  split; [reflexivity|].
  destruct (enrichment_over_the_user_service demo_users.users demo_users.convert
              demo_users.status (demo_users.gateway demo.page4) demo.noQuery
              demo.page4 eq_refl) as (out & Hv & Hpos).
  - intros l Hl.
    repeat (apply elem_of_cons in Hl as [->|Hl]);
      [..|by apply elem_of_nil in Hl];
      (split; [reflexivity|split; [reflexivity|]]);
      unfold strconv.minInt, strconv.maxInt, strconv.intSize; simpl; lia.
  - exists out. split; [exact Hv|]. split.
    + exact (Hpos 0%nat demo.l1 eq_refl).
    + exact (Hpos 3%nat demo.l4 eq_refl).
Defined.

Lemma create_user_over_the_user_service_example :
  "Zed" ≠ ""
  ∧ handler.CreatePublicUser (demo_users.gateway [])
      (inr (handler.mkCreateUserBody "Zed"))
    = ([handler.CallCreateUser "Zed"],
       handler.mkWritten StatusOK
         (handler.UserJSON
            (handler.mkPublicUserResponse
               (Some (client.mkUser 6 "Zed" demo_users.clock demo_users.clock))))).
Proof.
  assert ("Zed" ≠ "") as Hn by discriminate.
  split; [exact Hn|].
  refine (create_user_over_the_user_service demo_users.users demo_users.convert
            demo_users.status (demo_users.gateway []) "Zed" eq_refl _ Hn).
  intros form Hf. injection Hf as <-. reflexivity.
Defined.

Lemma fan_out_stays_in_bounds_example :
  fanout.reachable demo.gateway3 (handler.uniqueUserIDs demo.page3) demo.joined3
  ∧ 0 ≤ fanout.wg demo.joined3
    ≤ Z.of_nat (size (handler.uniqueUserIDs demo.page3)).
Proof.
  split; [exact joined3_reachable|].
  exact (proj1 (proj2 (fan_out_stays_in_bounds demo.gateway3 demo.page3
                         demo.joined3 joined3_reachable))).
Defined.

Lemma GetAllUsers_over_sqlite_example :
  let query := demo.query "9223372036854775807" "2" in
  handler.pageNumOf query = 9223372036854775807
  ∧ handler.pageSizeOf query = 2
  ∧ repository.wrapInt
      (repository.wrapInt (handler.pageNumOf query - 1) * handler.pageSizeOf query)
    = -4.
Proof.
  intros query.
  assert (handler.pageNumOf query = 9223372036854775807) as Hn.
  { unfold handler.pageNumOf, url.Get, query, demo.query.
    rewrite lookup_insert_ne by done. rewrite lookup_insert_eq. reflexivity. }
  assert (handler.pageSizeOf query = 2) as Hs.
  { unfold handler.pageSizeOf, url.Get, query, demo.query.
    rewrite lookup_insert_eq. reflexivity. }
  split; [done|]. split; [done|].
  destruct (GetAllUsers_over_sqlite demo_users.database 0 query)
    as (_ & _ & Ho & _).
  cbv zeta in Ho. rewrite Ho, Hn, Hs. reflexivity.
Defined.

End MoreExamples.

(** ** The page parameters and the create request on the small deployment *)

Section ForwardedExamples.

Import http client requests handler demo.

Lemma page_parameters_of_the_fetch_example :
  pageNumOf (query "2" "25") = 2
  ∧ pageSizeOf (query "2" "25") = 25
  ∧ pageNumOf (query "0" "ten") = 1
  ∧ pageSizeOf (query "0" "ten") = 10
  ∧ pageNumOf noQuery = 1
  ∧ pageSizeOf noQuery = 10
  ∧ Query (listingsRequest (listingServiceClient gateway3) 2 25 "")
    !! "page_num" = Some ["2"]
  ∧ List.length
      (match Body (value (GetPublicListings gateway3 (query "2" "25"))) with
       | ListingsJSON r => default [] (Listings r)
       | _ => []
       end) = 3%nat.
Proof.
  pose proof (page_parameters_of_the_fetch gateway3 (query "2" "25")) as H2.
  pose proof (page_parameters_of_the_fetch gateway3 (query "0" "ten")) as H0.
  pose proof (page_parameters_of_the_fetch gateway3 noQuery) as Hn.
  cbv zeta in H2, H0, Hn.
  destruct H2 as (Hp & _ & _ & _ & Hs & _ & _ & _ & _ & _ & Hq & _ & Hv & _).
  destruct H0 as (_ & _ & Hp0 & _ & _ & _ & Hs0 & _).
  destruct Hn as (_ & _ & _ & Hpn & _ & _ & _ & Hsn & _).
  assert (pageNumOf (query "2" "25") = 2) as E2.
  { apply (Hp "2" []); [|reflexivity|lia].
    unfold query. rewrite lookup_insert_ne by done. apply lookup_insert_eq. }
  assert (pageSizeOf (query "2" "25") = 25) as E25.
  { apply (Hs "25" []); [|reflexivity|lia].
    unfold query. apply lookup_insert_eq. }
  split; [exact E2|]. split; [exact E25|].
  split.
  { apply (Hp0 "0" []).
    - unfold query. rewrite lookup_insert_ne by done. apply lookup_insert_eq.
    - right. exists 0. split; [reflexivity|lia]. }
  split.
  { apply (Hs0 "ten" []); [|by left]. unfold query. apply lookup_insert_eq. }
  split; [apply Hpn; left; apply lookup_empty|].
  split; [apply Hsn; left; apply lookup_empty|].
  split.
  { rewrite E2, E25 in Hq. exact Hq. }
  rewrite (Hv (mkResponse 200 "200 OK"
                 (inr (mkListingServiceResponse true page3 None "")))
              (mkListingServiceResponse true page3 None "")
              eq_refl eq_refl eq_refl eq_refl eq_refl).
  reflexivity.
Defined.

Lemma negative_user_reference_is_accepted_example :
  ("rent" = "rent" ∨ "rent" = "sale")
  ∧ 0 < 4500
  ∧ -3 < 0
  ∧ CreatePublicListing (gateway (created l1))
      (inr (mkCreateListingBody (-3) "rent" 4500))
    = ([CallCreateListing (-3) "rent" 4500],
       mkWritten StatusOK (ListingJSON (Some l1)))
  ∧ strconv.FormatInt (-3) = "-3".
Proof.
  split; [left; reflexivity|]. split; [lia|]. split; [lia|].
  destruct (negative_user_reference_is_accepted (gateway (created l1))
              (-3) "rent" 4500 (or_introl eq_refl) eq_refl)
    as (_ & _ & Hneg).
  destruct (Hneg eq_refl) as (Hc & _ & _ & _ & _ & _ & Hv).
  split; [|reflexivity].
  rewrite (surjective_pairing (CreatePublicListing _ _)).
  unfold calls, value in Hc, Hv. rewrite Hc.
  by rewrite (Hv (mkResponse 200 "200 OK"
                    (inr (mkListingServiceResponse true [] (Some l1) "")))
                 (mkListingServiceResponse true [] (Some l1) "")
                 eq_refl eq_refl eq_refl eq_refl eq_refl).
Defined.

End ForwardedExamples.


(** ** Opening the database *)

Section OpenDatabase.

Import http repository_db.

(** X20: [NewSQLiteDB] returns the handle exactly when it returns no
    error; when it fails after [sql.Open] succeeded it has closed the
    handle, as its last action, and when it succeeds it has not closed it;
    the table is only created after a successful ping. *)
Theorem NewSQLiteDB_closes_what_it_does_not_return
    (drv : Driver) (dataSourceName : string) :
  let actions := (NewSQLiteDB drv dataSourceName).1 in
  let returned := (NewSQLiteDB drv dataSourceName).2.1 in
  let err := (NewSQLiteDB drv dataSourceName).2.2 in
  (returned = true ↔ err = None)
  ∧ (Close ∈ actions
     ↔ Open drv "sqlite3" dataSourceName = None ∧ returned = false)
  ∧ (Close ∈ actions → last actions = Some Close)
  ∧ (Open drv "sqlite3" dataSourceName ≠ None → actions = [])
  ∧ (Exec createTableSQL ∈ actions
     ↔ Open drv "sqlite3" dataSourceName = None ∧ PingErr drv = None)
  ∧ (returned = true
     ↔ Open drv "sqlite3" dataSourceName = None ∧ PingErr drv = None
       ∧ ExecErr drv createTableSQL = None).
Proof.
  intros actions returned err. subst actions returned err. unfold NewSQLiteDB.
  destruct (Open drv _ _) as [e|]; simpl;
    [|destruct (PingErr drv) as [e|]; simpl;
      [|destruct (ExecErr drv _) as [e|]; simpl]];
    repeat split; intros;
    repeat match goal with
           | H : _ ∧ _ |- _ => destruct H
           | H : _ ∈ _ :: _ |- _ => apply elem_of_cons in H as [H|H]
           | H : _ ∈ [] |- _ => by apply elem_of_nil in H
           end;
    try done; try congruence; set_solver.
Qed.

End OpenDatabase.
